(** * ask-reddit-ai: the content-acquisition and grounding pipeline

    A shallow embedding of the server side of the repository
    ([src/app/api/ask-question/route.ts], [src/app/api/reddit-data/route.ts],
    the earlier snoowrap-based route, [src/lib/utils.ts], [src/lib/constants.ts])
    and of the submit handler of [src/app/page.tsx], followed by the theorems
    that relate the code to its specification.

    Conventions of the embedding.
    - A JavaScript string is a [string]: a sequence of code units, of which the
      8-bit ones are representable.  [String.length] is [.length].
    - A JavaScript number that the code only ever treats as an integer is a [Z];
      the two fractional quantities (upvote ratio, confidence) are rationals.
    - An optional or possibly missing JSON field is an [option].
    - [async] code runs in the monad [M] of section Net: a state (clock, the
      replies the upstream services will give, the log of requests made, the
      fields of the singleton service object) and a result that is either a
      value or a thrown error. *)

From Stdlib Require Import ZArith List String Ascii Bool Lia QArith.
From Stdlib Require Import Sorting.Sorted Sorting.Permutation.
From Stdlib Require Import DecimalString.
Import ListNotations.

Set Warnings "-register-all".
Close Scope Q_scope.
Open Scope string_scope.
Open Scope list_scope.

(* ================================================================== *)
(** ** JavaScript primitives used by the code *)
(* ================================================================== *)

Module JS.

(** Line feed, the only control character the templates of the code use. *)
Definition LF : ascii := "010"%char.
Definition nl : string := String LF "".

(** Truthiness of a string: every string but the empty one. *)
Definition truthy (s : string) : bool := negb (s =? "")%string.

(** [x || d] for a string field that may be missing. *)
Definition or_str (x : option string) (d : string) : string :=
  match x with
  | Some s => if truthy s then s else d
  | None => d
  end.

(** [x || 0] for a numeric field that may be missing: [0] is falsy too. *)
Definition or_zero (x : option Z) : Z :=
  match x with
  | Some z => z
  | None => 0%Z
  end.

Definition or_zeroQ (x : option Q) : Q :=
  match x with
  | Some q => q
  | None => 0%Q
  end.

(** The class [\s] of regular expressions and of [trim], on 8-bit code
    units: TAB, LF, VT, FF, CR, space and no-break space. *)
Definition is_ws (c : ascii) : bool :=
  let n := nat_of_ascii c in
  (((9 <=? n) && (n <=? 13)) || (n =? 32) || (n =? 160))%nat.

(** The characters [.] does not match: line terminators. *)
Definition is_line_terminator (c : ascii) : bool :=
  let n := nat_of_ascii c in
  ((n =? 10) || (n =? 13))%nat.

(** The class [[a-zA-Z0-9_]]. *)
Definition is_word (c : ascii) : bool :=
  let n := nat_of_ascii c in
  (((97 <=? n) && (n <=? 122)) || ((65 <=? n) && (n <=? 90))
   || ((48 <=? n) && (n <=? 57)) || (n =? 95))%nat.

Fixpoint all_chars (p : ascii -> bool) (s : string) : bool :=
  match s with
  | EmptyString => true
  | String c s' => p c && all_chars p s'
  end.

(** [String.prototype.trim]. *)
Fixpoint trimStart (s : string) : string :=
  match s with
  | EmptyString => EmptyString
  | String c s' => if is_ws c then trimStart s' else s
  end.

Fixpoint trimEnd (s : string) : string :=
  match s with
  | EmptyString => EmptyString
  | String c s' =>
      let t := trimEnd s' in
      if is_ws c && (t =? "")%string then EmptyString else String c t
  end.

Definition trim (s : string) : string := trimEnd (trimStart s).

(** [String.prototype.includes]. *)
Fixpoint includes (s sub : string) : bool :=
  String.prefix sub s
  || match s with
     | EmptyString => false
     | String _ s' => includes s' sub
     end.

(** [Array.prototype.join] on an array of strings. *)
Definition join (sep : string) (l : list string) : string :=
  String.concat sep l.

(** [Array.prototype.slice(0, e)]: a negative [e] counts from the end. *)
Definition slice0 {A : Type} (e : Z) (l : list A) : list A :=
  if (e <? 0)%Z
  then firstn (Z.to_nat (Z.of_nat (List.length l) + e)) l
  else firstn (Z.to_nat e) l.

(** [Array.prototype.includes] on an array of strings. *)
Definition array_includes (l : list string) (x : string) : bool :=
  existsb (fun y => (y =? x)%string) l.

(** Number to string, for integers: decimal digits, [-] when negative. *)
Definition toString (z : Z) : string := NilZero.string_of_int (Z.to_int z).

(** [Array.prototype.sort(cmp)].  ECMAScript requires the sort to be stable,
    and for a comparator that is a consistent ordering the stable sorted
    arrangement of an array is unique: insertion from the right, each
    element going in front of the first one it does not come after. *)
Section Sort.
Context {A : Type} (cmp : A -> A -> Z).

Fixpoint insert (x : A) (l : list A) : list A :=
  match l with
  | [] => [x]
  | y :: l' => if (0 <? cmp x y)%Z then y :: insert x l' else x :: l
  end.

Fixpoint sort (l : list A) : list A :=
  match l with
  | [] => []
  | x :: l' => insert x (sort l')
  end.
End Sort.

End JS.


(* ================================================================== *)
(** ** [src/lib/constants.ts] *)
(* ================================================================== *)

Module CONFIG.
Module REDDIT.
Definition DEFAULT_LIMIT : Z := 25.
Definition MAX_LIMIT : Z := 100.
Definition DEFAULT_TIMEFRAME : string := "24h".
End REDDIT.
Module OPENAI.
Definition DEFAULT_MODEL : string := "gpt-4o-mini".
Definition MAX_TOKENS : Z := 4000.
Definition TEMPERATURE : Q := (7 # 10)%Q.
End OPENAI.
End CONFIG.

Module ERROR_MESSAGES.
Definition SUBREDDIT_NOT_FOUND : string :=
  "Subreddit not found. Please check the spelling and try again.".
Definition QUESTION_TOO_SHORT : string :=
  "Please enter a question with at least 5 characters.".
Definition QUESTION_TOO_LONG : string :=
  "Question is too long. Please keep it under 500 characters.".
Definition OPENAI_ERROR : string :=
  "Failed to generate answer. Please try again.".
Definition NETWORK_ERROR : string :=
  "Network error. Please check your connection and try again.".
Definition RATE_LIMIT : string :=
  "Too many requests. Please wait a moment before trying again.".
Definition GENERIC_ERROR : string :=
  "Something went wrong. Please try again.".
End ERROR_MESSAGES.

Module VALIDATION.
Module SUBREDDIT.
Definition MIN_LENGTH : nat := 1.
Definition MAX_LENGTH : nat := 50.
(** [PATTERN.test(s)] for [/^[a-zA-Z0-9_]+$/]: one or more word
    characters and nothing else. *)
Definition PATTERN_test (s : string) : bool :=
  JS.truthy s && JS.all_chars JS.is_word s.
End SUBREDDIT.
Module QUESTION.
Definition MIN_LENGTH : nat := 5.
Definition MAX_LENGTH : nat := 500.
End QUESTION.
End VALIDATION.

(* ================================================================== *)
(** ** [src/types/index.ts] and the shapes of the upstream JSON *)
(* ================================================================== *)

Module RedditPost.
(** [created_utc] is copied from the upstream object as it is, so it can be
    absent here although the interface declares a number. *)
Record t := mk {
  id : string;
  title : string;
  selftext : string;
  author : string;
  score : Z;
  num_comments : Z;
  created_utc : option Z;
  url : string;
  subreddit : string;
  permalink : string;
  upvote_ratio : Q
}.
End RedditPost.

Module RedditComment.
Inductive t := mk {
  id : string;
  body : string;
  author : string;
  score : Z;
  created_utc : option Z;
  replies : option (list t);
  depth : Z
}.
End RedditComment.

Module SubredditData.
Record t := mk {
  posts : list RedditPost.t;
  comments : list RedditComment.t;
  subreddit : string;
  fetchedAt : Z
}.
End SubredditData.

(** [child.data] of a child of the submission listing. *)
Module Submission.
Record t := mk {
  id : string;
  title : string;
  selftext : option string;
  author : option string;
  score : option Z;
  num_comments : option Z;
  created_utc : option Z;
  url : string;
  subreddit : string;
  permalink : string;
  upvote_ratio : option Q;
  stickied : bool
}.
End Submission.

(** A node of the comment tree: [kind] and the fields of [data].  The
    snoowrap client presents the same fields on its comment objects. *)
Module CommentNode.
Inductive t := mk {
  kind : string;
  id : string;
  body : option string;
  author : option string;
  score : option Z;
  created_utc : option Z;
  replies : list t
}.
End CommentNode.

Module Source.
Record t := mk { title : string; url : string; type : string }.
End Source.

Module AIResponse.
Record t := mk {
  answer : string;
  sources : list Source.t;
  confidence : Q;
  model : string;
  tokens_used : option Z
}.
End AIResponse.

Module AskQuestionRequest.
Record t := mk {
  subreddit : option string;
  question : option string;
  model : option string
}.
End AskQuestionRequest.

Module AskQuestionResponse.
Record t := mk {
  success : bool;
  data : option AIResponse.t;
  error : option string
}.
End AskQuestionResponse.

Module AppError.
Record t := mk { message : string; type : string }.
End AppError.

(** A thrown value: an [Error] with the optional fields the handlers look
    at ([code], [status], [response.status]). *)
Module JsError.
Record t := mk {
  message : string;
  code : option string;
  status : option Z;
  response_status : option Z
}.
Definition Error (msg : string) : t := mk msg None None None.
End JsError.

(* ================================================================== *)
(** ** Regular-expression replacement *)
(* ================================================================== *)

Module Regex.

(** A pattern is given by what it does at a position: the text that
    replaces the match and the number of code units the match takes.
    Every pattern of the code matches at least one code unit. *)
Definition matcher := string -> option (string * nat).

(** [s.replace(/p/g, r)]: leftmost matches, left to right, not
    overlapping.  [skip] counts the code units of the current match that
    are still to be passed over. *)
Fixpoint replace_from (m : matcher) (skip : nat) (s : string) : string :=
  match s with
  | EmptyString => EmptyString
  | String c s' =>
      match skip with
      | S k => replace_from m k s'
      | O =>
          match m s with
          | Some (r, n) => r ++ replace_from m (Nat.pred n) s'
          | None => String c (replace_from m 0 s')
          end
      end
  end.

Definition replace_all (m : matcher) (s : string) : string :=
  replace_from m 0 s.

Fixpoint drop (n : nat) (s : string) : string :=
  match n, s with
  | S k, String _ s' => drop k s'
  | _, _ => s
  end.

(** Length of the longest prefix made of characters of a class
    (a greedy [[...]+] or [x{n,}]). *)
Fixpoint run (p : ascii -> bool) (s : string) : nat :=
  match s with
  | EmptyString => 0
  | String c s' => if p c then S (run p s') else 0
  end.

(** The lazy group [(.*?)] followed by the literal [d]: the shortest
    stretch without a line terminator after which [d] stands. *)
Fixpoint lazy_until (d : string) (s : string) : option string :=
  if String.prefix d s then Some EmptyString
  else match s with
       | EmptyString => None
       | String c s' =>
           if JS.is_line_terminator c then None
           else option_map (String c) (lazy_until d s')
       end.

(** [d(.*?)d] replaced by [$1]. *)
Definition delimited (d : string) : matcher := fun s =>
  if String.prefix d s
  then match lazy_until d (drop (String.length d) s) with
       | Some inner =>
           Some (inner, String.length d + String.length inner + String.length d)
       | None => None
       end
  else None.

(** A literal [pre] followed by one or more characters of a class,
    replaced by [r]. *)
Definition prefixed (pre : string) (p : ascii -> bool) (r : string)
  : matcher := fun s =>
  if String.prefix pre s
  then let n := run p (drop (String.length pre) s) in
       if (1 <=? n)%nat then Some (r, String.length pre + n) else None
  else None.

Definition not_ws (c : ascii) : bool := negb (JS.is_ws c).

(** [https?:\/\/[^\s]+] replaced by [[URL]]. *)
Definition url : matcher := fun s =>
  match prefixed "https://" not_ws "[URL]" s with
  | Some r => Some r
  | None => prefixed "http://" not_ws "[URL]" s
  end.

(** [x{k,}] for a class [x], replaced by [r]. *)
Definition at_least (k : nat) (p : ascii -> bool) (r : string)
  : matcher := fun s =>
  let n := run p s in
  if (k <=? n)%nat then Some (r, n) else None.

End Regex.

(* ================================================================== *)
(** ** [src/lib/utils.ts] *)
(* ================================================================== *)

Module Utils.
Import JS.

Module Validation.
Record t := mk { isValid : bool; error : option string }.
End Validation.

Definition validateSubreddit (subreddit : string) : Validation.t :=
  if negb (truthy subreddit) then
    Validation.mk false (Some "Subreddit name is required")
  else if (String.length subreddit <? VALIDATION.SUBREDDIT.MIN_LENGTH)%nat then
    Validation.mk false (Some "Subreddit name is too short")
  else if (VALIDATION.SUBREDDIT.MAX_LENGTH <? String.length subreddit)%nat then
    Validation.mk false (Some "Subreddit name is too long")
  else if negb (VALIDATION.SUBREDDIT.PATTERN_test subreddit) then
    Validation.mk false
      (Some "Subreddit name can only contain letters, numbers, and underscores")
  else Validation.mk true None.

Definition validateQuestion (question : string) : Validation.t :=
  if negb (truthy question) || (String.length (trim question) =? 0)%nat then
    Validation.mk false (Some "Question is required")
  else
    let trimmedQuestion := trim question in
    if (String.length trimmedQuestion <? VALIDATION.QUESTION.MIN_LENGTH)%nat then
      Validation.mk false (Some ERROR_MESSAGES.QUESTION_TOO_SHORT)
    else if (VALIDATION.QUESTION.MAX_LENGTH <? String.length trimmedQuestion)%nat then
      Validation.mk false (Some ERROR_MESSAGES.QUESTION_TOO_LONG)
    else Validation.mk true None.

(** The patterns of [cleanRedditText], each with its replacement. *)
Definition BOLD : Regex.matcher := Regex.delimited "**".
Definition ITALIC : Regex.matcher := Regex.delimited "*".
Definition STRIKE : Regex.matcher := Regex.delimited "~~".
Definition CODE : Regex.matcher := Regex.delimited "`".
Definition SUBREDDIT : Regex.matcher :=
  Regex.prefixed "/r/" is_word "[SUBREDDIT]".
Definition USER : Regex.matcher := Regex.prefixed "/u/" is_word "[USER]".
Definition BLANK_LINES : Regex.matcher :=
  Regex.at_least 3 (Ascii.eqb LF) (nl ++ nl).
Definition SPACES : Regex.matcher := Regex.at_least 2 is_ws " ".

Definition cleanRedditText (text : string) : string :=
  let t1 := Regex.replace_all BOLD text in
  let t2 := Regex.replace_all ITALIC t1 in
  let t3 := Regex.replace_all STRIKE t2 in
  let t4 := Regex.replace_all CODE t3 in
  let t5 := Regex.replace_all Regex.url t4 in
  let t6 := Regex.replace_all SUBREDDIT t5 in
  let t7 := Regex.replace_all USER t6 in
  let t8 := Regex.replace_all BLANK_LINES t7 in
  let t9 := Regex.replace_all SPACES t8 in
  trim t9.

(** The separator between blocks and the marker between the groups. *)
Definition separator : string := nl ++ nl ++ "---" ++ nl ++ nl.
Definition POSTS_END : string := nl ++ nl ++ "===POSTS_END===" ++ nl ++ nl.

Definition post_filter (post : RedditPost.t) : bool :=
  truthy (RedditPost.selftext post)
  && (50 <? String.length (RedditPost.selftext post))%nat.

Definition post_block (post : RedditPost.t) : string :=
  let title := RedditPost.title post in
  let content := cleanRedditText (RedditPost.selftext post) in
  let score := RedditPost.score post in
  "POST (" ++ toString score ++ " upvotes): " ++ title ++ nl ++ content.

Definition comment_filter (comment : RedditComment.t) : bool :=
  truthy (RedditComment.body comment)
  && (30 <? String.length (RedditComment.body comment))%nat
  && (0 <? RedditComment.score comment)%Z.

Definition comment_block (comment : RedditComment.t) : string :=
  let content := cleanRedditText (RedditComment.body comment) in
  let score := RedditComment.score comment in
  "COMMENT (" ++ toString score ++ " upvotes): " ++ content.

(** The posts and the comments that are rendered. *)
Definition selectedPosts (posts : list RedditPost.t) : list RedditPost.t :=
  slice0 10 (filter post_filter posts).

Definition selectedComments (comments : list RedditComment.t)
  : list RedditComment.t :=
  slice0 15 (filter comment_filter comments).

Definition postContent (posts : list RedditPost.t) : string :=
  join separator (map post_block (selectedPosts posts)).

Definition commentContent (comments : list RedditComment.t) : string :=
  join separator (map comment_block (selectedComments comments)).

Definition extractRedditContent
    (posts : list RedditPost.t) (comments : list RedditComment.t) : string :=
  join POSTS_END (filter truthy [postContent posts; commentContent comments]).

Definition handleApiError (error : JsError.t) : AppError.t :=
  if match JsError.response_status error with
     | Some st => (st =? 404)%Z | None => false end
  then AppError.mk ERROR_MESSAGES.SUBREDDIT_NOT_FOUND "reddit_api"
  else if match JsError.response_status error with
          | Some st => (st =? 429)%Z | None => false end
  then AppError.mk ERROR_MESSAGES.RATE_LIMIT "network"
  else if match JsError.code error with
          | Some c => (c =? "ENOTFOUND")%string || (c =? "ECONNREFUSED")%string
          | None => false end
  then AppError.mk ERROR_MESSAGES.NETWORK_ERROR "network"
  else if includes (JsError.message error) "OpenAI"
  then AppError.mk ERROR_MESSAGES.OPENAI_ERROR "openai_api"
  else AppError.mk
         (if truthy (JsError.message error) then JsError.message error
          else ERROR_MESSAGES.GENERIC_ERROR)
         "unknown".

End Utils.

(* ================================================================== *)
(** ** The network, the clock and the service object *)
(* ================================================================== *)

Module Net.

(** What [response.json()] yields.  An endpoint that receives a body of
    another shape finds none of the fields it looks for. *)
Inductive Payload :=
| TokenJson (access_token : option string)
| ListingJson (children : option (list Submission.t))
| CommentsJson (children : option (list CommentNode.t))
| NotJson.

(** What a request to the forum API meets: no connection ([fetch]
    rejects), or a response.  [latency] is the time it takes. *)
Inductive Reply :=
| Unreachable (latency : Z) (message : string)
| Http (latency : Z) (status : Z) (statusText : string) (body : Payload).

(** What a call of the generation service meets. *)
Inductive Completion :=
| CompletionFails (latency : Z) (e : JsError.t)
| CompletionOk (latency : Z) (content : option string)
               (total_tokens : option Z).

Inductive Request :=
| TokenRequest
| TopRequest (subreddit t : string) (limit : Z) (bearer : string)
| CommentsRequest (submissionId : string) (limit : Z) (bearer : string)
| CompletionRequest (model system user : string).

Record Response := mkResponse {
  status : Z;
  statusText : string;
  body : Payload
}.

Definition ok (r : Response) : bool :=
  (200 <=? status r)%Z && (status r <=? 299)%Z.

(** The state a request handler runs in.  [accessToken] and [tokenExpiry]
    are the private fields of the singleton [redditService]. *)
Record World := mkWorld {
  clock : Z;
  reddit : list Reply;
  openai : list Completion;
  log : list Request;
  accessToken : option string;
  tokenExpiry : option Z
}.

Inductive Result (A : Type) :=
| Ok (a : A)
| Throw (e : JsError.t).
Arguments Ok {A} a.
Arguments Throw {A} e.

Definition M (A : Type) : Type := World -> Result A * World.

Definition ret {A} (a : A) : M A := fun w => (Ok a, w).

Definition bind {A B} (m : M A) (k : A -> M B) : M B := fun w =>
  match m w with
  | (Ok a, w') => k a w'
  | (Throw e, w') => (Throw e, w')
  end.

Definition throw {A} (e : JsError.t) : M A := fun w => (Throw e, w).

(** [try { m } catch (error) { h error }] *)
Definition try_catch {A} (m : M A) (h : JsError.t -> M A) : M A := fun w =>
  match m w with
  | (Ok a, w') => (Ok a, w')
  | (Throw e, w') => h e w'
  end.

Definition tick (d : Z) (w : World) : World :=
  mkWorld (clock w + d) (reddit w) (openai w) (log w)
          (accessToken w) (tokenExpiry w).

Definition logged (r : Request) (w : World) : World :=
  mkWorld (clock w) (reddit w) (openai w) (log w ++ [r])
          (accessToken w) (tokenExpiry w).

(** [Date.now()], in milliseconds. *)
Definition Date_now : M Z := fun w => (Ok (clock w), w).

(** [fetch(url, init)] against the forum API: the request is made, and the
    next reply of the upstream decides how it ends. *)
Definition fetch (r : Request) : M Response := fun w =>
  let w1 := logged r w in
  match reddit w1 with
  | [] => (Throw (JsError.Error "fetch failed"), w1)
  | Unreachable d msg :: rest =>
      (Throw (JsError.Error msg),
       tick d (mkWorld (clock w1) rest (openai w1) (log w1)
                       (accessToken w1) (tokenExpiry w1)))
  | Http d st txt b :: rest =>
      (Ok (mkResponse st txt b),
       tick d (mkWorld (clock w1) rest (openai w1) (log w1)
                       (accessToken w1) (tokenExpiry w1)))
  end.

(** [response.json()] *)
Definition json (r : Response) : M Payload :=
  match body r with
  | NotJson => throw (JsError.Error "Unexpected token in JSON")
  | p => ret p
  end.

(** [openai.chat.completions.create(...)] *)
Definition create_completion (model system user : string)
  : M (option string * option Z) := fun w =>
  let w1 := logged (CompletionRequest model system user) w in
  match openai w1 with
  | [] => (Throw (JsError.Error "Connection error."), w1)
  | CompletionFails d e :: rest =>
      (Throw e,
       tick d (mkWorld (clock w1) (reddit w1) rest (log w1)
                       (accessToken w1) (tokenExpiry w1)))
  | CompletionOk d content total :: rest =>
      (Ok (content, total),
       tick d (mkWorld (clock w1) (reddit w1) rest (log w1)
                       (accessToken w1) (tokenExpiry w1)))
  end.

Definition get_accessToken : M (option string) :=
  fun w => (Ok (accessToken w), w).
Definition get_tokenExpiry : M (option Z) :=
  fun w => (Ok (tokenExpiry w), w).
Definition set_accessToken (t : option string) : M unit := fun w =>
  (Ok tt, mkWorld (clock w) (reddit w) (openai w) (log w) t (tokenExpiry w)).
Definition set_tokenExpiry (t : option Z) : M unit := fun w =>
  (Ok tt, mkWorld (clock w) (reddit w) (openai w) (log w) (accessToken w) t).

Declare Scope js_scope.
Delimit Scope js_scope with js.
Notation "x <- m ;; k" := (bind m (fun x => k))
  (at level 61, m at next level, right associativity) : js_scope.
Notation "m ;; k" := (bind m (fun _ => k))
  (at level 61, right associativity) : js_scope.

(** The requests of a log that go to the generation service. *)
Definition is_completion (r : Request) : bool :=
  match r with CompletionRequest _ _ _ => true | _ => false end.

End Net.

(* ================================================================== *)
(** ** [src/app/api/ask-question/route.ts] *)
(* ================================================================== *)

Module RedditOAuthService.
Import JS Net.
Open Scope js_scope.

(** The validity window of a cached token: 50 minutes, in milliseconds. *)
Definition TOKEN_WINDOW : Z := 50 * 60 * 1000.

(** The test [this.accessToken && this.tokenExpiry && new Date() <
    this.tokenExpiry]: the cached token when it holds. *)
Definition cached (tok : option string) (exp : option Z) (now : Z)
  : option string :=
  match tok, exp with
  | Some t, Some e => if truthy t && (now <? e)%Z then Some t else None
  | _, _ => None
  end.

Definition getAccessToken : M string :=
  try_catch
    (tok <- get_accessToken ;;
     exp <- get_tokenExpiry ;;
     now <- Date_now ;;
     match cached tok exp now with
     | Some t => ret t
     | None =>
         response <- fetch TokenRequest ;;
         if negb (ok response) then
           throw (JsError.Error ("Reddit OAuth failed: "
                    ++ toString (status response) ++ " "
                    ++ statusText response))
         else
           data <- json response ;;
           let received :=
             match data with TokenJson a => a | _ => None end in
           set_accessToken received ;;
           match received with
           | Some a =>
               if truthy a then
                 t0 <- Date_now ;;
                 set_tokenExpiry (Some (t0 + TOKEN_WINDOW)%Z) ;;
                 ret a
               else throw (JsError.Error
                             "No access token received from Reddit API")
           | None => throw (JsError.Error
                              "No access token received from Reddit API")
           end
     end)
    (fun error =>
       throw (JsError.Error ("Failed to authenticate with Reddit API: "
                             ++ JsError.message error))).

(** The body of the loop of [fetchComments]: the nodes that are comments
    with a body that is neither missing nor a deletion mark. *)
Definition keeps (comment : CommentNode.t) : bool :=
  (CommentNode.kind comment =? "t1")%string
  && match CommentNode.body comment with
     | Some b => truthy b && negb (b =? "[deleted]")%string
                 && negb (b =? "[removed]")%string
     | None => false
     end.

(** The object pushed for a node that is kept.  Its [body] is
    [comment.data.body], which the test of the loop has found present. *)
Definition pushed (comment : CommentNode.t) : RedditComment.t :=
  RedditComment.mk
    (CommentNode.id comment)
    (or_str (CommentNode.body comment) "")
    (or_str (CommentNode.author comment) "[deleted]")
    (or_zero (CommentNode.score comment))
    (CommentNode.created_utc comment)
    None
    0.

Fixpoint collect (listing : list CommentNode.t) (comments : list RedditComment.t)
  : list RedditComment.t :=
  match listing with
  | [] => comments
  | comment :: rest =>
      if keeps comment then collect rest (comments ++ [pushed comment])
      else collect rest comments
  end.

(** What [fetchComments] returns for a comment listing. *)
Definition selectComments (limit : Z) (commentListing : list CommentNode.t)
  : list RedditComment.t :=
  let comments := collect (slice0 limit commentListing) [] in
  slice0 limit (filter (fun c => (0 <? RedditComment.score c)%Z) comments).

(** The [try] block of [fetchComments]. *)
Definition fetchComments_try (submissionId : string) (limit : Z)
  : M (list RedditComment.t) :=
  accessToken <- getAccessToken ;;
  response <- fetch (CommentsRequest submissionId limit accessToken) ;;
  if negb (ok response) then
    throw (JsError.Error ("Error fetching comments: "
                          ++ toString (status response)))
  else
    data <- json response ;;
    match data with
    | CommentsJson (Some commentListing) =>
        ret (selectComments limit commentListing)
    | _ => ret []
    end.

Definition fetchComments (submissionId : string) (limit : Z)
  : M (list RedditComment.t) :=
  try_catch (fetchComments_try submissionId limit) (fun error => ret []).

Definition timeMap (timeframe : string) : option string :=
  if (timeframe =? "24h")%string then Some "day"
  else if (timeframe =? "48h")%string then Some "day"
  else if (timeframe =? "week")%string then Some "week"
  else None.

Definition toPost (post : Submission.t) : RedditPost.t :=
  RedditPost.mk
    (Submission.id post)
    (Submission.title post)
    (or_str (Submission.selftext post) "")
    (or_str (Submission.author post) "[deleted]")
    (or_zero (Submission.score post))
    (or_zero (Submission.num_comments post))
    (Submission.created_utc post)
    (Submission.url post)
    (Submission.subreddit post)
    (Submission.permalink post)
    (or_zeroQ (Submission.upvote_ratio post)).

(** The loop over the children of the listing, with the two arrays it
    fills. *)
Fixpoint processSubmissions (children : list Submission.t)
    (posts : list RedditPost.t) (allComments : list RedditComment.t)
  : M (list RedditPost.t * list RedditComment.t) :=
  match children with
  | [] => ret (posts, allComments)
  | post :: rest =>
      if negb (Submission.stickied post) then
        let posts' := posts ++ [toPost post] in
        if (List.length posts' <=? 5)%nat then
          fetched <- try_catch
                       (comments <- fetchComments (Submission.id post) 10 ;;
                        ret (allComments ++ comments))
                       (fun error => ret allComments) ;;
          processSubmissions rest posts' fetched
        else processSubmissions rest posts' allComments
      else processSubmissions rest posts allComments
  end.

Definition by_score_desc_post (a b : RedditPost.t) : Z :=
  (RedditPost.score b - RedditPost.score a)%Z.
Definition by_score_desc_comment (a b : RedditComment.t) : Z :=
  (RedditComment.score b - RedditComment.score a)%Z.

(** The request for [/r/${subreddit}/top?t=${timeMap[timeframe] || 'day'}&limit=${limit}]. *)
Definition topRequest (subreddit timeframe : string) (limit : Z)
    (accessToken : string) : Request :=
  TopRequest subreddit
             (match timeMap timeframe with Some t => t | None => "day" end)
             limit accessToken.

Definition fetchSubredditData (subreddit timeframe : string) (limit : Z)
  : M SubredditData.t :=
  try_catch
    (accessToken <- getAccessToken ;;
     response <- fetch (topRequest subreddit timeframe limit accessToken) ;;
     if negb (ok response) then
       if (status response =? 404)%Z then
         throw (JsError.Error ("Subreddit r/" ++ subreddit ++ " not found"))
       else if (status response =? 403)%Z then
         throw (JsError.Error ("Subreddit r/" ++ subreddit
                               ++ " is private or banned"))
       else
         throw (JsError.Error ("Reddit API error: "
                               ++ toString (status response) ++ " "
                               ++ statusText response))
     else
       data <- json response ;;
       match data with
       | ListingJson (Some children) =>
           filled <- processSubmissions (slice0 limit children) [] [] ;;
           let (posts, allComments) := filled in
           fetchedAt <- Date_now ;;
           ret (SubredditData.mk
                  (sort by_score_desc_post posts)
                  (sort by_score_desc_comment allComments)
                  subreddit
                  fetchedAt)
       | _ => throw (JsError.Error ("No data received from r/" ++ subreddit))
       end)
    (fun error => throw error).

End RedditOAuthService.

Module AskQuestion.
Import JS Net.
Open Scope js_scope.

Definition systemPrompt (subreddit : string) : string :=
  "You are an AI assistant that analyzes Reddit discussions and provides comprehensive, well-structured answers to user questions."
  ++ nl ++ nl ++
  "Your task is to:" ++ nl ++
  "1. Analyze the provided Reddit posts and comments from r/" ++ subreddit ++ nl ++
  "2. Synthesize the information to answer the user's question" ++ nl ++
  "3. Provide a balanced, informative response based on the community discussions" ++ nl ++
  "4. Include relevant insights, trends, and perspectives from the Reddit content" ++ nl ++
  "5. Be objective and acknowledge different viewpoints when they exist"
  ++ nl ++ nl ++
  "Guidelines:" ++ nl ++
  "- Focus on factual information and community consensus" ++ nl ++
  "- Highlight interesting insights or unique perspectives" ++ nl ++
  "- If there are conflicting opinions, present multiple viewpoints" ++ nl ++
  "- Keep your response structured and easy to read" ++ nl ++
  "- Don't make assumptions beyond what's discussed in the Reddit content" ++ nl ++
  "- If the Reddit content doesn't adequately address the question, mention this limitation"
  ++ nl ++ nl ++
  "Format your response in a clear, readable manner with appropriate paragraphs.".

Definition userPrompt (question redditContent subreddit : string) : string :=
  "Question: " ++ question ++ nl ++ nl ++
  "Reddit Content from r/" ++ subreddit ++ ":" ++ nl ++
  redditContent ++ nl ++ nl ++
  "Please provide a comprehensive answer based on the Reddit discussions above.".

Definition generateAIResponse
    (question redditContent subreddit model : string) : M AIResponse.t :=
  try_catch
    (completion <- create_completion model (systemPrompt subreddit)
                     (userPrompt question redditContent subreddit) ;;
     let (content, total_tokens) := completion in
     let answer := or_str content "No response generated" in
     let sources :=
       [Source.mk ("Recent discussions in r/" ++ subreddit)
                  ("https://reddit.com/r/" ++ subreddit)
                  "post"] in
     ret (AIResponse.mk answer sources (85 # 100)%Q model total_tokens))
    (fun error => throw error).

(** [NextResponse.json(body, { status })] *)
Module NextResponse.
Record t := json { body : AskQuestionResponse.t; status : Z }.
End NextResponse.

Definition failure (error : string) (status : Z) : NextResponse.t :=
  NextResponse.json (AskQuestionResponse.mk false None (Some error)) status.

Definition ALLOWED_MODELS : list string := ["gpt-4o-mini"; "gpt-3.5-turbo"].

(** The status chosen in the [catch] of [POST]. *)
Definition error_status (error : JsError.t) : Z :=
  if match JsError.code error with
     | Some c => (c =? "insufficient_quota")%string | None => false end
     || includes (JsError.message error) "quota"
  then 429
  else if match JsError.status error with
          | Some st => (st =? 401)%Z | None => false end
          || includes (JsError.message error) "API key"
  then 401
  else 500.

Definition POST (request : AskQuestionRequest.t) : M NextResponse.t :=
  try_catch
    (let subreddit := or_str (AskQuestionRequest.subreddit request) "" in
     let question := or_str (AskQuestionRequest.question request) "" in
     let model :=
       match AskQuestionRequest.model request with
       | Some m => m
       | None => CONFIG.OPENAI.DEFAULT_MODEL
       end in
     if negb (truthy subreddit) || negb (truthy question) then
       ret (failure "Subreddit and question are required" 400)
     else if negb (array_includes ALLOWED_MODELS model) then
       ret (failure "Invalid model specified" 400)
     else
       redditData <- RedditOAuthService.fetchSubredditData subreddit "24h" 25 ;;
       if (List.length (SubredditData.posts redditData) =? 0)%nat then
         ret (failure "No recent content available for this subreddit" 404)
       else
         let redditContent :=
           Utils.extractRedditContent (SubredditData.posts redditData)
                                      (SubredditData.comments redditData) in
         if negb (truthy redditContent)
            || (String.length redditContent <? 100)%nat then
           ret (failure "Insufficient recent content in this subreddit" 404)
         else
           aiResponse <- generateAIResponse question redditContent
                           subreddit model ;;
           ret (NextResponse.json
                  (AskQuestionResponse.mk true (Some aiResponse) None) 200))
    (fun error =>
       let appError := Utils.handleApiError error in
       ret (failure (AppError.message appError) (error_status error))).

End AskQuestion.

(* ================================================================== *)
(** ** [src/app/api/reddit-data/route.ts]: its [fetchComments] *)
(* ================================================================== *)

Module RedditData.
Import JS Net.
Open Scope js_scope.

(** The loop is the one of the other route; the array it fills is returned
    as it is. *)
Definition selectComments (limit : Z) (commentListing : list CommentNode.t)
  : list RedditComment.t :=
  RedditOAuthService.collect (slice0 limit commentListing) [].

Definition fetchComments (submissionId : string) (limit : Z)
  : M (list RedditComment.t) :=
  try_catch
    (accessToken <- RedditOAuthService.getAccessToken ;;
     response <- fetch (CommentsRequest submissionId limit accessToken) ;;
     if negb (ok response) then
       throw (JsError.Error ("Error fetching comments: "
                             ++ toString (status response)))
     else
       data <- json response ;;
       match data with
       | CommentsJson (Some commentListing) =>
           ret (selectComments limit commentListing)
       | _ => ret []
       end)
    (fun error => ret []).

End RedditData.

(* ================================================================== *)
(** ** The snoowrap-based route: comments of one post *)
(* ================================================================== *)

Module Snoowrap.
Import JS.

(** [transformComment(comment, depth)]; the replies are
    [comment.replies.slice(0, 3).map(reply => transformComment(reply, depth + 1))]. *)
Fixpoint transformComment (comment : CommentNode.t) (depth : Z)
  : RedditComment.t :=
  RedditComment.mk
    (CommentNode.id comment)
    (or_str (CommentNode.body comment) "")
    (or_str (CommentNode.author comment) "[deleted]")
    (or_zero (CommentNode.score comment))
    (CommentNode.created_utc comment)
    (match CommentNode.replies comment with
     | [] => None
     | replies =>
         Some ((fix first (n : nat) (l : list CommentNode.t) :=
                  match n, l with
                  | S k, reply :: l' =>
                      transformComment reply (depth + 1) :: first k l'
                  | _, _ => []
                  end) 3%nat replies)
     end)
    depth.

Definition comment_filter (comment : RedditComment.t) : bool :=
  truthy (RedditComment.body comment)
  && negb (RedditComment.body comment =? "[deleted]")%string
  && negb (RedditComment.body comment =? "[removed]")%string
  && (0 <? RedditComment.score comment)%Z.

(** [postComments] of [fetchSubredditData]. *)
Definition postComments (comments : list CommentNode.t)
  : list RedditComment.t :=
  filter comment_filter
    (map (fun comment => transformComment comment 0) (slice0 10 comments)).

End Snoowrap.

(* ================================================================== *)
(** ** [src/app/page.tsx]: the submit handler *)
(* ================================================================== *)

Module Page.
Import JS Net.
Open Scope js_scope.

Module AppState.
Record t := mk {
  selectedSubreddit : string;
  customSubreddit : string;
  question : string;
  selectedModel : string
}.
End AppState.

Inductive Toast :=
| toast_error (message : string)
| toast_success (message : string).

Definition currentSubreddit (appState : AppState.t) : string :=
  if (AppState.selectedSubreddit appState =? "custom")%string
  then AppState.customSubreddit appState
  else AppState.selectedSubreddit appState.

(** [handleSubmitQuestion]: the toast shown and the answer stored.  The
    request to the application's own endpoint is the call of its handler. *)
Definition handleSubmitQuestion (appState : AppState.t)
  : M (Toast * option AIResponse.t) :=
  let subredditValidation :=
    Utils.validateSubreddit (currentSubreddit appState) in
  if negb (Utils.Validation.isValid subredditValidation) then
    ret (toast_error
           (or_str (Utils.Validation.error subredditValidation) ""), None)
  else
    let questionValidation :=
      Utils.validateQuestion (AppState.question appState) in
    if negb (Utils.Validation.isValid questionValidation) then
      ret (toast_error
             (or_str (Utils.Validation.error questionValidation) ""), None)
    else
      response <- AskQuestion.POST
                    (AskQuestionRequest.mk
                       (Some (currentSubreddit appState))
                       (Some (AppState.question appState))
                       (Some (AppState.selectedModel appState))) ;;
      let data := AskQuestion.NextResponse.body response in
      if negb (AskQuestionResponse.success data) then
        ret (toast_error
               (or_str (AskQuestionResponse.error data)
                       "Failed to get answer"), None)
      else
        ret (toast_success "Answer generated successfully!",
             AskQuestionResponse.data data).

End Page.

(* ================================================================== *)
(** ** Vocabulary of the specification *)
(* ================================================================== *)

Module Spec.

Section Order.
Context {A : Type} (score : A -> Z).

(** The comparator [(a, b) => b.score - a.score]. *)
Definition by_desc (a b : A) : Z := (score b - score a)%Z.

(** In descending order of score. *)
Definition descending (l : list A) : Prop :=
  StronglySorted (fun a b => (score b <= score a)%Z) l.

(** The elements of a given score, in the order they stand in. *)
Definition with_score (k : Z) (l : list A) : list A :=
  filter (fun a => (score a =? k)%Z) l.
End Order.

(** The posts the loop of [fetchSubredditData] builds from the children
    it visits: the ones that are not pinned, in the order of the listing. *)
Definition retained (children : list Submission.t) : list RedditPost.t :=
  map RedditOAuthService.toPost
      (filter (fun post => negb (Submission.stickied post)) children).

(** [tail] holds the requests made from world [w] to world [w']. *)
Definition requests (w w' : Net.World) (tail : list Net.Request) : Prop :=
  Net.log w' = Net.log w ++ tail.

(** A request of the comment loop: for a token, or for the comments of one
    of the given submissions. *)
Definition comment_traffic (ids : list string) (r : Net.Request) : Prop :=
  match r with
  | Net.TokenRequest => True
  | Net.CommentsRequest submissionId _ _ => In submissionId ids
  | _ => False
  end.

(** What the handler answers when the forum has too little to offer: the
    status 404 with one of its two messages. *)
Definition InsufficientContent (r : AskQuestion.NextResponse.t) : Prop :=
  let b := AskQuestion.NextResponse.body r in
  AskQuestion.NextResponse.status r = 404%Z
  /\ AskQuestionResponse.success b = false
  /\ AskQuestionResponse.data b = None
  /\ (AskQuestionResponse.error b
      = Some "No recent content available for this subreddit"
      \/ AskQuestionResponse.error b
         = Some "Insufficient recent content in this subreddit").



(** The model a request asks for. *)
Definition model_of (request : AskQuestionRequest.t) : string :=
  match AskQuestionRequest.model request with
  | Some m => m
  | None => CONFIG.OPENAI.DEFAULT_MODEL
  end.

(** A request that passes the checks of [POST]. *)
Definition admitted (request : AskQuestionRequest.t) (subreddit question : string)
  : Prop :=
  AskQuestionRequest.subreddit request = Some subreddit
  /\ subreddit <> ""
  /\ AskQuestionRequest.question request = Some question
  /\ question <> ""
  /\ In (model_of request) AskQuestion.ALLOWED_MODELS.

(** The pattern [^[A-Za-z0-9_]{1,50}$] of the specification. *)
Definition forum_name_ok (s : string) : Prop :=
  (1 <= String.length s <= 50)%nat /\ JS.all_chars JS.is_word s = true.

(** A question of 5 to 500 characters once trimmed. *)
Definition question_ok (q : string) : Prop :=
  (5 <= String.length (JS.trim q) <= 500)%nat.

(** A comment that the filters are meant to let through: of positive
    score, with a body that is neither empty nor a deletion mark. *)
Definition qualifies (c : RedditComment.t) : Prop :=
  (0 < RedditComment.score c)%Z
  /\ RedditComment.body c <> ""
  /\ RedditComment.body c <> "[deleted]"
  /\ RedditComment.body c <> "[removed]".

Definition positive (c : RedditComment.t) : bool :=
  (0 <? RedditComment.score c)%Z.

(** The first order the specification describes, in its words: the
    comments with a body are taken from the whole listing, those of score
    0 or less are excluded, and then the result is capped at the limit. *)
Definition filter_then_cap (limit : Z) (listing : list CommentNode.t)
  : list RedditComment.t :=
  JS.slice0 limit (filter positive (RedditOAuthService.collect listing [])).

(** The second order, in its words: the listing is capped at the limit
    first, and the comments taken from it are filtered by score afterward. *)
Definition cap_then_filter (limit : Z) (listing : list CommentNode.t)
  : list RedditComment.t :=
  filter positive (RedditOAuthService.collect (JS.slice0 limit listing) []).

(** A comment without its replies. *)
Definition without_replies (c : RedditComment.t) : RedditComment.t :=
  RedditComment.mk (RedditComment.id c) (RedditComment.body c)
    (RedditComment.author c) (RedditComment.score c)
    (RedditComment.created_utc c) None (RedditComment.depth c).

(** No request to the generation service. *)
Definition no_generation (tail : list Net.Request) : Prop :=
  Forall (fun r => Net.is_completion r = false) tail.

End Spec.

(* ================================================================== *)
(** ** Counting occurrences in a text *)
(* ================================================================== *)

Module Text.

(** The number of positions of [s] at which [sub] stands. *)
Fixpoint occurrences (sub s : string) : nat :=
  (if String.prefix sub s then 1 else 0)
  + match s with
    | EmptyString => 0
    | String _ s' => occurrences sub s'
    end.

Definition is_LF (c : ascii) : bool := Ascii.eqb c JS.LF.
Definition is_EQ (c : ascii) : bool := Ascii.eqb c "="%char.

(** The first three characters of the marker [POSTS_END]. *)
Definition key : string := JS.nl ++ JS.nl ++ "=".

(** A scan that counts the occurrences of [key] in one pass: [n] is the
    number of line feeds that stand right before the rest [s], and a hit
    is an [=] with at least two of them before it. *)
Fixpoint hits (n : nat) (s : string) : nat :=
  match s with
  | EmptyString => 0
  | String c s' =>
      if is_LF c then hits (S n) s'
      else (if is_EQ c && (2 <=? n)%nat then 1 else 0) + hits 0 s'
  end.

(** The number of line feeds at the end, after a scan that began with
    [n] of them. *)
Fixpoint state (n : nat) (s : string) : nat :=
  match s with
  | EmptyString => n
  | String c s' => if is_LF c then state (S n) s' else state 0 s'
  end.

Definition starts_ws (s : string) : bool :=
  match s with
  | EmptyString => false
  | String c _ => JS.is_ws c
  end.

(** No two white-space characters side by side. *)
Fixpoint adj_free (s : string) : bool :=
  match s with
  | EmptyString => true
  | String c s' => negb (JS.is_ws c && starts_ws s') && adj_free s'
  end.

Definition lf_free (s : string) : bool :=
  JS.all_chars (fun c => negb (is_LF c)) s.

Definition eq_free (s : string) : bool :=
  JS.all_chars (fun c => negb (is_EQ c)) s.

End Text.

(* ================================================================== *)
(** ** Concrete upstream data, for the examples *)
(* ================================================================== *)

Module Sample.
Import Net.

Definition long_text : string :=
  "Batteries, solid state ones above all, were the topic of the week here.".

Definition first : Submission.t :=
  Submission.mk "a" "First" (Some long_text) (Some "alice")
    (Some 10%Z) (Some 3%Z) (Some 1700000000%Z)
    "https://example.org/a" "technology" "/r/technology/comments/a"
    (Some (9 # 10)%Q) false.

Definition pinned : Submission.t :=
  Submission.mk "p" "Rules" (Some "Read the rules.") (Some "mod")
    (Some 999%Z) (Some 0%Z) (Some 1600000000%Z)
    "https://example.org/p" "technology" "/r/technology/comments/p"
    (Some 1%Q) true.

(** A submission whose author, creation time and ratio are missing. *)
Definition bare : Submission.t :=
  Submission.mk "b" "Second" None None
    (Some 50%Z) None None
    "https://example.org/b" "technology" "/r/technology/comments/b"
    None false.

Definition third : Submission.t :=
  Submission.mk "c" "Third" (Some long_text) (Some "carol")
    (Some 5%Z) (Some 1%Z) (Some 1700000300%Z)
    "https://example.org/c" "technology" "/r/technology/comments/c"
    (Some (1 # 2)%Q) false.

Definition listing : list Submission.t := [first; pinned; bare; third].

Definition node (id body : string) (score : Z) : CommentNode.t :=
  CommentNode.mk "t1" id (Some body) (Some "dave") (Some score)
                 (Some 1700000100%Z) [].

Definition thread : list CommentNode.t :=
  [ node "c1" "Solid state cells will need years before they are cheap." 7;
    node "c2" "[deleted]" 30;
    node "c3" "Nobody mentions the recycling problem, which is the real one." 0;
    node "c4" "Sodium cells look like the practical answer for storage." 12 ].

(** The upstream answers the token request, the listing, the comments of
    the first post; the comments of the second are unreachable and those
    of the third get a server error. *)
Definition replies : list Reply :=
  [ Http 120 200 "OK" (TokenJson (Some "tok"));
    Http 80 200 "OK" (ListingJson (Some listing));
    Http 30 200 "OK" (CommentsJson (Some thread));
    Unreachable 10 "socket hang up";
    Http 20 500 "Internal Server Error" NotJson ].

Definition world : World :=
  mkWorld 1000 replies [CompletionOk 900 (Some "An answer.") (Some 120%Z)]
          [] None None.

(** The same upstream with an empty listing. *)
Definition quiet_world : World :=
  mkWorld 1000
    [ Http 120 200 "OK" (TokenJson (Some "tok"));
      Http 80 200 "OK" (ListingJson (Some [])) ]
    [CompletionOk 900 (Some "An answer.") (Some 120%Z)]
    [] None None.

(** The sample world after the token request, and after the listing
    request; the snapshot it yields and the world it leaves. *)
Definition with_token : World :=
  Eval vm_compute in snd (RedditOAuthService.getAccessToken world).

Definition listing_response : Response :=
  mkResponse 200 "OK" (ListingJson (Some listing)).

Definition with_listing : World :=
  Eval vm_compute in
    snd (fetch (RedditOAuthService.topRequest "technology" "24h" 25 "tok")
               with_token).

Definition after_fetch : World :=
  Eval vm_compute in
    snd (RedditOAuthService.fetchSubredditData "technology" "24h" 25 world).

Definition snapshot : SubredditData.t :=
  Eval vm_compute in
    match fst (RedditOAuthService.fetchSubredditData
                 "technology" "24h" 25 world) with
    | Ok snap => snap
    | Throw _ => SubredditData.mk [] [] "" 0
    end.

(** An upstream that hands out a token and knows no forum of the name
    asked for. *)
Definition strict_world : World :=
  mkWorld 1000
    [ Http 120 200 "OK" (TokenJson (Some "tok"));
      Http 40 404 "Not Found" NotJson ]
    [CompletionOk 900 (Some "An answer.") (Some 120%Z)]
    [] None None.

Definition ask (subreddit question : string) : AskQuestionRequest.t :=
  AskQuestionRequest.mk (Some subreddit) (Some question) None.

(** The snapshot of the quiet world, and the world it leaves. *)
Definition quiet_after : World :=
  Eval vm_compute in
    snd (RedditOAuthService.fetchSubredditData "technology" "24h" 25
           quiet_world).

Definition quiet_snapshot : SubredditData.t :=
  SubredditData.mk [] [] "technology" 1200.




(** Ten comments of score 0 followed by one of score 5. *)
Definition crowded : list CommentNode.t :=
  repeat (node "n" "Nobody agreed with this one." 0) 10
  ++ [node "late" "A late comment that people liked." 5].

(** Bodies of exactly 50, 51, 30 and 31 characters. *)
Definition body50 : string :=
  "Fifty characters of text, for the posts boundary..".
Definition body51 : string := body50 ++ "!".
Definition body30 : string := "Thirty characters, not one up.".
Definition body31 : string := body30 ++ "!".

Definition post (title body : string) (score : Z) : RedditPost.t :=
  RedditPost.mk "id" title body "alice" score 0 (Some 1700000000%Z)
                "https://example.org" "technology" "/r/technology/x" 1%Q.

Definition comment (body : string) (score : Z) : RedditComment.t :=
  RedditComment.mk "id" body "dave" score (Some 1700000100%Z) None 0.

(** A title that spells the marker out. *)
Definition marked_title : string := "Look" ++ Utils.POSTS_END ++ "here".

End Sample.

(* ================================================================== *)
(** ** Vocabulary for the further properties *)
(* ================================================================== *)

Module Props.

(** The envelope of a failure: no data, a message that is not empty. *)
Definition failure_with (r : AskQuestion.NextResponse.t) (message : string)
  : Prop :=
  let b := AskQuestion.NextResponse.body r in
  AskQuestionResponse.success b = false
  /\ AskQuestionResponse.data b = None
  /\ AskQuestionResponse.error b = Some message
  /\ message <> "".

(** The kinds of request. *)
Definition is_token (r : Net.Request) : bool :=
  match r with Net.TokenRequest => true | _ => false end.
Definition is_top (r : Net.Request) : bool :=
  match r with Net.TopRequest _ _ _ _ => true | _ => false end.
Definition is_comments (r : Net.Request) : bool :=
  match r with Net.CommentsRequest _ _ _ => true | _ => false end.

Definition count (p : Net.Request -> bool) (tail : list Net.Request) : nat :=
  List.length (filter p tail).

(** At most [a] token requests, [b] listing requests, [c] comment requests
    and [d] calls of the generation service. *)
Definition budget (a b c d : nat) (tail : list Net.Request) : Prop :=
  (count is_token tail <= a)%nat
  /\ (count is_top tail <= b)%nat
  /\ (count is_comments tail <= c)%nat
  /\ (count Net.is_completion tail <= d)%nat.


(** The proper suffixes of a text, longest first. *)
Fixpoint tails (s : string) : list string :=
  match s with
  | EmptyString => []
  | String _ s' => s' :: tails s'
  end.

(** An occurrence of [sub] could begin before a text that [b] follows and
    end inside [b]: some proper, non-empty end of [sub] begins [b]. *)
Definition straddles (sub b : string) : bool :=
  existsb (fun v => JS.truthy v && String.prefix v b) (tails sub).

(** An occurrence of [sub] could begin inside [a]: some non-empty end of [a]
    begins [sub] or begins with it. *)
Definition overlaps (a sub : string) : bool :=
  existsb (fun t => JS.truthy t && (String.prefix t sub || String.prefix sub t))
          (a :: tails a).

(** The comments gathered for the given submissions, asked for one after
    the other with [fetchComments(id, 10)], in the order they arrive, and
    the state this leaves. *)
Fixpoint gathered (ids : list string) (w : Net.World)
  : list RedditComment.t * Net.World :=
  match ids with
  | [] => ([], w)
  | id :: rest =>
      match RedditOAuthService.fetchComments id 10 w with
      | (Net.Ok comments, w1) =>
          let (more, w2) := gathered rest w1 in (comments ++ more, w2)
      | (Net.Throw _, w1) => gathered rest w1
      end
  end.

(** A listing request asks for a number of posts between the bounds. *)
Definition limit_within (lo hi : Z) (r : Net.Request) : Prop :=
  match r with
  | Net.TopRequest _ _ l _ => (lo <= l <= hi)%Z
  | _ => True
  end.

(** A comment tree as the earlier route builds it: every comment carries
    the depth at which it stands, and a comment that has replies has
    between one and three of them. *)
Fixpoint shaped (d : Z) (c : RedditComment.t) {struct c} : bool :=
  match c with
  | RedditComment.mk _ _ _ _ _ replies depth =>
      (depth =? d)%Z
      && match replies with
         | None => true
         | Some rs =>
             (1 <=? List.length rs)%nat && (List.length rs <=? 3)%nat
             && (fix all (l : list RedditComment.t) : bool :=
                   match l with
                   | [] => true
                   | r :: l' => shaped (d + 1) r && all l'
                   end) rs
         end
  end.

(** A character that none of the patterns of [cleanRedditText] for markup,
    links and names starts from or needs. *)
Definition unmarked (c : ascii) : bool :=
  negb (Ascii.eqb c "*" || Ascii.eqb c "~" || Ascii.eqb c "`"
        || Ascii.eqb c "/")%char.

(** A forum name in which none of the words occurs that the error handling
    of the question route looks for. *)
Definition plain (subreddit : string) : Prop :=
  JS.includes subreddit "OpenAI" = false
  /\ JS.includes subreddit "quota" = false
  /\ JS.includes subreddit "API key" = false.
End Props.

(** The sample world after a question has been answered. *)

(* ================================================================== *)
(** ** [src/app/api/reddit-data/route.ts]: the rest of the route *)
(* ================================================================== *)

Module RedditDataRequest.
Record t := mk {
  subreddit : option string;
  timeframe : option string;
  limit : option Z
}.
End RedditDataRequest.

Module RedditDataResponse.
Record t := mk {
  success : bool;
  data : option SubredditData.t;
  error : option string
}.
End RedditDataResponse.

Module RedditDataRoute.
Import JS Net.
Open Scope js_scope.

(** The loop of [fetchTopSubmissions]: the one of the question route, with
    the [fetchComments] of this route. *)
Fixpoint processSubmissions (children : list Submission.t)
    (posts : list RedditPost.t) (allComments : list RedditComment.t)
  : M (list RedditPost.t * list RedditComment.t) :=
  match children with
  | [] => ret (posts, allComments)
  | post :: rest =>
      if negb (Submission.stickied post) then
        let posts' := posts ++ [RedditOAuthService.toPost post] in
        if (List.length posts' <=? 5)%nat then
          fetched <- try_catch
                       (comments <- RedditData.fetchComments
                                      (Submission.id post) 10 ;;
                        ret (allComments ++ comments))
                       (fun error => ret allComments) ;;
          processSubmissions rest posts' fetched
        else processSubmissions rest posts' allComments
      else processSubmissions rest posts allComments
  end.

Definition fetchTopSubmissions (subreddit timeframe : string) (limit : Z)
  : M (list RedditPost.t * list RedditComment.t) :=
  try_catch
    (accessToken <- RedditOAuthService.getAccessToken ;;
     response <- fetch (RedditOAuthService.topRequest
                          subreddit timeframe limit accessToken) ;;
     if negb (ok response) then
       if (status response =? 404)%Z then
         throw (JsError.Error ("Subreddit r/" ++ subreddit ++ " not found"))
       else if (status response =? 403)%Z then
         throw (JsError.Error ("Subreddit r/" ++ subreddit
                               ++ " is private or banned"))
       else
         throw (JsError.Error ("Reddit API error: "
                               ++ toString (status response) ++ " "
                               ++ statusText response))
     else
       data <- json response ;;
       match data with
       | ListingJson (Some children) =>
           filled <- processSubmissions (slice0 limit children) [] [] ;;
           let (posts, allComments) := filled in
           ret (sort RedditOAuthService.by_score_desc_post posts,
                sort RedditOAuthService.by_score_desc_comment allComments)
       | _ => throw (JsError.Error ("No data received from r/" ++ subreddit))
       end)
    (fun error => throw error).

(** [NextResponse.json(body, { status })] *)
Module NextResponse.
Record t := json { body : RedditDataResponse.t; status : Z }.
End NextResponse.

Definition failure (error : string) (status : Z) : NextResponse.t :=
  NextResponse.json (RedditDataResponse.mk false None (Some error)) status.

(** [Math.min(Math.max(limit, 1), CONFIG.REDDIT.MAX_LIMIT)], for a limit
    that is an integer. *)
Definition validatedLimit (limit : Z) : Z :=
  Z.min (Z.max limit 1) CONFIG.REDDIT.MAX_LIMIT.

(** The status chosen in the [catch] of [POST]; what is thrown there is an
    [Error]. *)
Definition error_status (error : JsError.t) : Z :=
  if includes (JsError.message error) "not found" then 404
  else if includes (JsError.message error) "private"
          || includes (JsError.message error) "banned" then 403
  else if includes (JsError.message error) "credentials" then 401
  else 500.

Definition POST (request : RedditDataRequest.t) : M NextResponse.t :=
  try_catch
    (let subreddit := or_str (RedditDataRequest.subreddit request) "" in
     let timeframe :=
       match RedditDataRequest.timeframe request with
       | Some t => t
       | None => CONFIG.REDDIT.DEFAULT_TIMEFRAME
       end in
     let limit :=
       match RedditDataRequest.limit request with
       | Some l => l
       | None => CONFIG.REDDIT.DEFAULT_LIMIT
       end in
     if negb (truthy subreddit) then
       ret (failure "Subreddit name is required" 400)
     else
       fetched <- fetchTopSubmissions subreddit timeframe
                    (validatedLimit limit) ;;
       let (posts, comments) := fetched in
       fetchedAt <- Date_now ;;
       ret (NextResponse.json
              (RedditDataResponse.mk true
                 (Some (SubredditData.mk posts comments subreddit fetchedAt))
                 None)
              200))
    (fun error =>
       let appError := Utils.handleApiError error in
       ret (failure (AppError.message appError) (error_status error))).

End RedditDataRoute.

(* ================================================================== *)
(** ** The earlier question route, which asks the data route *)
(* ================================================================== *)

Module EarlierAskQuestion.
Import JS Net.
Open Scope js_scope.

Definition ALLOWED_MODELS : list string := ["gpt-4"; "gpt-3.5-turbo"].

(** What the request to [/api/reddit-data] of the application itself
    meets: it is delivered to the handler of the data route, whose response
    comes back, or [fetch] rejects with an error.  The log of a world
    holds the requests to the forum and to the generation service; this
    request is not one of them. *)
Inductive Hop :=
| Delivered
| Rejected (message : string).

Definition fetch_reddit_data (hop : Hop) (body : RedditDataRequest.t)
  : M RedditDataRoute.NextResponse.t :=
  match hop with
  | Delivered => RedditDataRoute.POST body
  | Rejected message => throw (JsError.Error message)
  end.

(** [generateAIResponse] is, word for word, the function of the later
    route; [redditResponse.ok] is read off the status the data route
    answers with. *)
Definition POST (hop : Hop) (request : AskQuestionRequest.t)
  : M AskQuestion.NextResponse.t :=
  try_catch
    (let subreddit := or_str (AskQuestionRequest.subreddit request) "" in
     let question := or_str (AskQuestionRequest.question request) "" in
     let model :=
       match AskQuestionRequest.model request with
       | Some m => m
       | None => CONFIG.OPENAI.DEFAULT_MODEL
       end in
     if negb (truthy subreddit) || negb (truthy question) then
       ret (AskQuestion.failure "Subreddit and question are required" 400)
     else if negb (array_includes ALLOWED_MODELS model) then
       ret (AskQuestion.failure "Invalid model specified" 400)
     else
       redditResponse <- fetch_reddit_data hop
                           (RedditDataRequest.mk (Some subreddit)
                                                 (Some "24h") (Some 25%Z)) ;;
       let redditData := RedditDataRoute.NextResponse.body redditResponse in
       if negb ((200 <=? RedditDataRoute.NextResponse.status redditResponse)%Z
                && (RedditDataRoute.NextResponse.status redditResponse
                    <=? 299)%Z) then
         ret (AskQuestion.failure
                (or_str (RedditDataResponse.error redditData)
                        "Failed to fetch Reddit data")
                (RedditDataRoute.NextResponse.status redditResponse))
       else
         match RedditDataResponse.success redditData,
               RedditDataResponse.data redditData with
         | true, Some data =>
             let redditContent :=
               Utils.extractRedditContent (SubredditData.posts data)
                                          (SubredditData.comments data) in
             if negb (truthy redditContent)
                || (String.length redditContent <? 100)%nat then
               ret (AskQuestion.failure
                      "Insufficient recent content in this subreddit" 404)
             else
               aiResponse <- AskQuestion.generateAIResponse
                               question redditContent subreddit model ;;
               ret (AskQuestion.NextResponse.json
                      (AskQuestionResponse.mk true (Some aiResponse) None)
                      200)
         | _, _ =>
             ret (AskQuestion.failure
                    "No Reddit data available for this subreddit" 404)
         end)
    (fun error =>
       let appError := Utils.handleApiError error in
       ret (AskQuestion.failure (AppError.message appError)
                                (AskQuestion.error_status error))).

End EarlierAskQuestion.

(* ================================================================== *)
(** ** [src/lib/utils.ts]: the display helpers *)
(* ================================================================== *)

Module Display.
Import JS.

(** [text.substring(0, end)]: an [end] below 0 counts as 0, one beyond the
    text as its length. *)
Definition substring0 (e : Z) (text : string) : string :=
  String.substring 0 (Z.to_nat e) text.

Definition truncateText (text : string) (maxLength : Z) : string :=
  if (Z.of_nat (String.length text) <=? maxLength)%Z then text
  else trim (substring0 maxLength text) ++ "...".

(** The largest time value of a [Date], in milliseconds either side of
    1 January 1970; [new Date(t)] for a [t] beyond it is an invalid date. *)
Definition MAX_TIME : Z := 8640000000000000.

(** [formatDate(timestamp)], with the clock reading [now] (milliseconds,
    the reading of a clock set after 1 January 1970) and the rendering of a
    valid date by the locale given; [timestamp] is in whole seconds.  The
    time of an invalid date is [NaN]: every comparison with it is false,
    the last branch is taken and [toLocaleDateString()] gives
    ["Invalid Date"].  For a valid date the quantities are integers within
    the range where the arithmetic of numbers is exact, and [Math.floor] of
    a quotient by a positive number is the quotient of [Z]. *)
Definition formatDate (toLocaleDateString : Z -> string) (now timestamp : Z)
  : string :=
  if (Z.abs (timestamp * 1000) <=? MAX_TIME)%Z then
    let diffMs := (now - timestamp * 1000)%Z in
    let diffHours := (diffMs / (1000 * 60 * 60))%Z in
    let diffDays := (diffHours / 24)%Z in
    if (diffHours <? 1)%Z then
      let diffMinutes := (diffMs / (1000 * 60))%Z in
      toString diffMinutes ++ "m ago"
    else if (diffHours <? 24)%Z then toString diffHours ++ "h ago"
    else if (diffDays <? 7)%Z then toString diffDays ++ "d ago"
    else toLocaleDateString timestamp
  else "Invalid Date".

End Display.

(* ================================================================== *)
(** ** [src/lib/constants.ts]: the suggestions *)
(* ================================================================== *)

Module PopularSubreddit.
Record t := mk { name : string; description : string; subscribers : string }.
End PopularSubreddit.

Module TrendingQuestion.
Record t := mk {
  id : string;
  question : string;
  subreddit : string;
  popularity : Z;
  tags : list string
}.
End TrendingQuestion.

Definition POPULAR_SUBREDDITS : list PopularSubreddit.t :=
  [ PopularSubreddit.mk "AskReddit" "Open-ended questions for discussion" "45M";
    PopularSubreddit.mk "technology" "Latest tech news and discussions" "14M";
    PopularSubreddit.mk "programming" "Computer programming discussions" "5M";
    PopularSubreddit.mk "wallstreetbets" "Wall Street Bets discussions" "1.5M";
    PopularSubreddit.mk "cursor" "Cursor discussions" "500M";
    PopularSubreddit.mk "science" "Science news and research" "28M";
    PopularSubreddit.mk "investing"
      "Investment strategies and market analysis" "2M";
    PopularSubreddit.mk "entrepreneur"
      "Entrepreneurship and startup discussions" "1M";
    PopularSubreddit.mk "MachineLearning" "ML research and applications" "2.5M";
    PopularSubreddit.mk "cryptocurrency" "Crypto news and analysis" "6M";
    PopularSubreddit.mk "startups" "Startup ecosystem discussions" "1.5M";
    PopularSubreddit.mk "datascience" "Data science and analytics" "1.8M" ].

Definition TRENDING_QUESTIONS : list TrendingQuestion.t :=
  [ TrendingQuestion.mk "1"
      "What are the most promising AI startups in 2024?"
      "MachineLearning" 95 ["ai"; "startups"; "2024"];
    TrendingQuestion.mk "2"
      "How do successful entrepreneurs handle failure?"
      "entrepreneur" 88 ["entrepreneurship"; "failure"; "mindset"];
    TrendingQuestion.mk "3"
      "What programming languages should I learn in 2024?"
      "programming" 92 ["programming"; "career"; "2024"];
    TrendingQuestion.mk "4"
      "Best investment strategies for beginners?"
      "investing" 85 ["investing"; "beginners"; "strategy"];
    TrendingQuestion.mk "5"
      "What are the biggest technology trends this year?"
      "technology" 90 ["technology"; "trends"; "innovation"] ].

Module STORAGE.
Definition MAX_SAVED_ANSWERS : Z := 50.
End STORAGE.

(* ================================================================== *)
(** ** [src/app/page.tsx]: the state of the page and its handlers *)
(* ================================================================== *)

Module ShareableAnswer.
Record t := mk {
  question : string;
  subreddit : string;
  answer : string;
  timestamp : Z;
  id : string
}.
End ShareableAnswer.

Module HomePage.
Import JS Net.
Open Scope js_scope.

Module AppState.
Record t := mk {
  selectedSubreddit : string;
  customSubreddit : string;
  question : string;
  isLoading : bool;
  currentAnswer : option AIResponse.t;
  savedAnswers : list ShareableAnswer.t;
  selectedModel : string
}.
End AppState.
Import AppState.

(** The state [useState] starts from. *)
Definition initial : AppState.t :=
  AppState.mk "AskReddit" "" "" false None [] "gpt-4".

Definition currentSubreddit (appState : AppState.t) : string :=
  if (selectedSubreddit appState =? "custom")%string
  then customSubreddit appState
  else selectedSubreddit appState.

(** The handlers are given as the state they leave, from the state they
    find: the function each one passes to [setAppState]. *)
Definition handleQuestionChange (question' : string) (prev : AppState.t)
  : AppState.t :=
  AppState.mk (selectedSubreddit prev) (customSubreddit prev) question'
              (isLoading prev) (currentAnswer prev) (savedAnswers prev)
              (selectedModel prev).

Definition handleSubredditChange (subreddit : string) (prev : AppState.t)
  : AppState.t :=
  AppState.mk subreddit
              (if (subreddit =? "custom")%string then customSubreddit prev
               else "")
              (question prev) (isLoading prev) (currentAnswer prev)
              (savedAnswers prev) (selectedModel prev).

Definition handleCustomSubredditChange (customSubreddit' : string)
    (prev : AppState.t) : AppState.t :=
  AppState.mk (selectedSubreddit prev) customSubreddit' (question prev)
              (isLoading prev) (currentAnswer prev) (savedAnswers prev)
              (selectedModel prev).

Definition handleTrendingQuestionSelect (trendingQuestion subreddit : string)
    (prev : AppState.t) : AppState.t :=
  AppState.mk subreddit "" trendingQuestion (isLoading prev)
              (currentAnswer prev) (savedAnswers prev) (selectedModel prev).

(** [handleSaveAnswer], with the identifier [generateId()] draws and the
    time [Date.now()] gives: the state it leaves and the toast it shows. *)
Definition handleSaveAnswer (id : string) (now : Z) (appState : AppState.t)
  : AppState.t * option Page.Toast :=
  match currentAnswer appState with
  | None => (appState, None)
  | Some answer =>
      let shareableAnswer :=
        ShareableAnswer.mk (question appState) (currentSubreddit appState)
                           (AIResponse.answer answer) now id in
      (AppState.mk (selectedSubreddit appState) (customSubreddit appState)
                   (question appState) (isLoading appState)
                   (currentAnswer appState)
                   (shareableAnswer
                    :: slice0 (STORAGE.MAX_SAVED_ANSWERS - 1)
                              (savedAnswers appState))
                   (selectedModel appState),
       Some (Page.toast_success "Answer saved!"))
  end.

Definition canSubmit (appState : AppState.t) : bool :=
  truthy (currentSubreddit appState) && truthy (question appState)
  && negb (isLoading appState).

Definition with_answer (loading : bool) (answer : option AIResponse.t)
    (prev : AppState.t) : AppState.t :=
  AppState.mk (selectedSubreddit prev) (customSubreddit prev) (question prev)
              loading answer (savedAnswers prev) (selectedModel prev).

(** [handleSubmitQuestion]: the toast it shows and the state it leaves.
    The request to the application's own endpoint is the call of its
    handler. *)
Definition handleSubmitQuestion (appState : AppState.t)
  : M (Page.Toast * AppState.t) :=
  let subredditValidation :=
    Utils.validateSubreddit (currentSubreddit appState) in
  if negb (Utils.Validation.isValid subredditValidation) then
    ret (Page.toast_error
           (or_str (Utils.Validation.error subredditValidation) ""), appState)
  else
    let questionValidation := Utils.validateQuestion (question appState) in
    if negb (Utils.Validation.isValid questionValidation) then
      ret (Page.toast_error
             (or_str (Utils.Validation.error questionValidation) ""), appState)
    else
      let loading := with_answer true None appState in
      outcome <-
        try_catch
          (response <- AskQuestion.POST
                         (AskQuestionRequest.mk
                            (Some (currentSubreddit appState))
                            (Some (question appState))
                            (Some (selectedModel appState))) ;;
           let data := AskQuestion.NextResponse.body response in
           if negb (AskQuestionResponse.success data) then
             throw (JsError.Error
                      (or_str (AskQuestionResponse.error data)
                              "Failed to get answer"))
           else
             ret (Page.toast_success "Answer generated successfully!",
                  with_answer true (AskQuestionResponse.data data) loading))
          (fun error =>
             ret (Page.toast_error (JsError.message error), loading)) ;;
      let (toast, state) := outcome in
      ret (toast, with_answer false (currentAnswer state) state).

End HomePage.

Module Runs.
Import Net.

Definition question : AskQuestionRequest.t :=
  Sample.ask "technology" "What is new?".

Definition after_post : World :=
  Eval vm_compute in snd (AskQuestion.POST question Sample.world).

Definition answer : AskQuestion.NextResponse.t :=
  Eval vm_compute in
    match fst (AskQuestion.POST question Sample.world) with
    | Ok r => r
    | Throw _ => AskQuestion.failure "" 0
    end.


(** The strict world once the token is there. *)
Definition strict_token : World :=
  Eval vm_compute in snd (RedditOAuthService.getAccessToken Sample.strict_world).

(** An upstream that refuses to hand out a token. *)
Definition down_world : World :=
  mkWorld 1000 [Http 20 500 "Internal Server Error" NotJson] [] [] None None.

Definition down_after : World :=
  Eval vm_compute in snd (RedditOAuthService.getAccessToken down_world).

Definition down_error : JsError.t :=
  JsError.Error
    "Failed to authenticate with Reddit API: Reddit OAuth failed: 500 Internal Server Error".

End Runs.

(* ================================================================== *)
(** ** Sanity checks of the primitives *)
(* ================================================================== *)

Example toString_examples :
  JS.toString 0 = "0" /\ JS.toString 42 = "42" /\ JS.toString (-7) = "-7".
Proof. repeat split; reflexivity. Qed.

Example trim_example :
  JS.trim (" " ++ JS.nl ++ "a b " ++ JS.nl) = "a b".
Proof. reflexivity. Qed.

Example slice0_examples :
  JS.slice0 2 [1;2;3] = [1;2] /\ JS.slice0 (-1) [1;2;3] = [1;2]
  /\ JS.slice0 (-5) [1;2;3] = [] /\ JS.slice0 7 [1;2;3] = [1;2;3].
Proof. repeat split; reflexivity. Qed.

Example cleanRedditText_example :
  Utils.cleanRedditText
    ("**bold** and *it* ~~x~~ `code` see https://a.b/c?d=1 and /r/foo_1 /u/bar!"
     ++ JS.nl ++ JS.nl ++ JS.nl ++ JS.nl ++ "  end  ")
  = "bold and it x code see [URL] and [SUBREDDIT] [USER]! end".
Proof. reflexivity. Qed.

Example sort_example :
  JS.sort (fun a b => (snd b - snd a)%Z)
    [(1, 10%Z); (2, 50%Z); (3, 5%Z); (4, 10%Z); (5, 50%Z)]
  = [(2, 50%Z); (5, 50%Z); (1, 10%Z); (4, 10%Z); (3, 5%Z)].
Proof. reflexivity. Qed.

(* ================================================================== *)
(** ** Facts about the primitives *)
(* ================================================================== *)

Section SliceFacts.
Context {A : Type}.

Lemma slice0_nonneg (e : Z) (l : list A) :
  (0 <= e)%Z -> JS.slice0 e l = firstn (Z.to_nat e) l.
Proof.
  intros He. unfold JS.slice0.
  destruct (Z.ltb_spec e 0); [lia | reflexivity].
Qed.

Lemma slice0_length (e : Z) (l : list A) :
  (0 <= e)%Z -> (List.length (JS.slice0 e l) <= Z.to_nat e)%nat.
Proof.
  intros He. rewrite slice0_nonneg by assumption.
  rewrite length_firstn. lia.
Qed.

(** Whatever the bound, a slice from the start is a prefix. *)
Lemma slice0_prefix (e : Z) (l : list A) :
  exists n, JS.slice0 e l = firstn n l.
Proof.
  unfold JS.slice0. destruct (e <? 0)%Z; eauto.
Qed.

Lemma slice0_In (e : Z) (l : list A) (x : A) :
  In x (JS.slice0 e l) -> In x l.
Proof.
  destruct (slice0_prefix e l) as [n ->].
  rewrite <- (firstn_skipn n l) at 2.
  intros H. apply in_or_app. now left.
Qed.
End SliceFacts.

(** The sort by descending score: a permutation, in descending order, that
    keeps elements of equal score in the order they came in. *)
Section SortFacts.
Context {A : Type} (score : A -> Z).

Lemma insert_perm (x : A) (l : list A) :
  Permutation (x :: l) (JS.insert (Spec.by_desc score) x l).
Proof.
  induction l as [|y l IH]; simpl.
  - apply Permutation_refl.
  - destruct (0 <? Spec.by_desc score x y)%Z.
    + eapply perm_trans; [apply perm_swap|]. now apply perm_skip.
    + apply Permutation_refl.
Qed.

Lemma sort_perm (l : list A) : Permutation l (JS.sort (Spec.by_desc score) l).
Proof.
  induction l as [|x l IH]; simpl.
  - constructor.
  - eapply perm_trans; [apply perm_skip, IH | apply insert_perm].
Qed.

Lemma insert_descending (x : A) (l : list A) :
  Spec.descending score l ->
  Spec.descending score (JS.insert (Spec.by_desc score) x l).
Proof.
  unfold Spec.descending.
  induction l as [|y l IH]; simpl; intros Hs.
  - constructor; [constructor | constructor].
  - inversion Hs as [|? ? Hl Hy]; subst.
    destruct (Z.ltb_spec 0 (Spec.by_desc score x y)) as [Hlt | Hge];
      unfold Spec.by_desc in *.
    + constructor; [now apply IH|].
      eapply Permutation_Forall; [apply insert_perm|].
      constructor; [lia | assumption].
    + constructor; [assumption|].
      constructor; [lia|].
      eapply Forall_impl; [|exact Hy].
      simpl. intros a Ha. lia.
Qed.

Lemma sort_descending (l : list A) :
  Spec.descending score (JS.sort (Spec.by_desc score) l).
Proof.
  induction l as [|x l IH]; simpl.
  - constructor.
  - now apply insert_descending.
Qed.

Lemma insert_with_score (k : Z) (x : A) (l : list A) :
  Spec.with_score score k (JS.insert (Spec.by_desc score) x l)
  = Spec.with_score score k (x :: l).
Proof.
  unfold Spec.with_score.
  induction l as [|y l IH]; simpl; [reflexivity|].
  destruct (Z.ltb_spec 0 (Spec.by_desc score x y)) as [Hlt | Hge];
    [|reflexivity].
  unfold Spec.by_desc in Hlt. simpl. rewrite IH. simpl.
  destruct (Z.eqb_spec (score x) k), (Z.eqb_spec (score y) k);
    try reflexivity; lia.
Qed.

Lemma sort_stable (k : Z) (l : list A) :
  Spec.with_score score k (JS.sort (Spec.by_desc score) l)
  = Spec.with_score score k l.
Proof.
  induction l as [|x l IH]; simpl; [reflexivity|].
  rewrite insert_with_score. unfold Spec.with_score in *. simpl.
  now rewrite IH.
Qed.

Lemma sort_length (l : list A) :
  List.length (JS.sort (Spec.by_desc score) l) = List.length l.
Proof. symmetry. apply Permutation_length, sort_perm. Qed.
End SortFacts.

(* ================================================================== *)
(** ** The requests a computation makes *)
(* ================================================================== *)

Section Traffic.
Import Net.

Lemma requests_refl (w : World) : Spec.requests w w [].
Proof. unfold Spec.requests. now rewrite app_nil_r. Qed.

Lemma requests_trans (w1 w2 w3 : World) (t1 t2 : list Request) :
  Spec.requests w1 w2 t1 -> Spec.requests w2 w3 t2 ->
  Spec.requests w1 w3 (t1 ++ t2).
Proof.
  unfold Spec.requests. intros H1 H2. now rewrite H2, H1, app_assoc.
Qed.

Lemma fetch_inv (r : Request) (w : World) :
  exists res w',
    fetch r w = (res, w')
    /\ Spec.requests w w' [r]
    /\ accessToken w' = accessToken w
    /\ tokenExpiry w' = tokenExpiry w.
Proof.
  unfold fetch, Spec.requests. simpl.
  destruct (reddit w) as [|[d msg|d st txt b] rest];
    eexists _, _; repeat split.
Qed.

Lemma getAccessToken_requests (w : World) :
  exists res w',
    RedditOAuthService.getAccessToken w = (res, w')
    /\ (Spec.requests w w' [] \/ Spec.requests w w' [TokenRequest]).
Proof.
  unfold RedditOAuthService.getAccessToken, try_catch, bind,
    get_accessToken, get_tokenExpiry, Date_now.
  destruct (RedditOAuthService.cached _ _ _).
  - eexists _, _. split; [reflexivity|]. left. apply requests_refl.
  - destruct (fetch_inv TokenRequest w) as (res & w1 & E & L & _).
    rewrite E. destruct res as [resp|e]; simpl.
    + destruct (negb (ok resp)); simpl.
      * eexists _, _. split; [reflexivity|]. now right.
      * unfold json. destruct (body resp) as [[a|]| | |]; simpl;
          try destruct (JS.truthy a); simpl;
          eexists _, _; (split; [reflexivity|]); right; exact L.
    + eexists _, _. split; [reflexivity|]. now right.
Qed.
End Traffic.

(* ================================================================== *)
(** ** The comment fetch and the loop over the submissions *)
(* ================================================================== *)

Section FetchFacts.
Import Net.

Lemma selectComments_length (limit : Z) (listing : list CommentNode.t) :
  (0 <= limit)%Z ->
  (List.length (RedditOAuthService.selectComments limit listing)
   <= Z.to_nat limit)%nat.
Proof. intros H. unfold RedditOAuthService.selectComments. now apply slice0_length. Qed.

(** [fetchComments] always returns: an array of at most [limit] comments,
    having asked at most for a token and for the comments of that one
    submission. *)
Lemma fetchComments_returns (submissionId : string) (limit : Z) (w : World) :
  exists comments w' tail,
    RedditOAuthService.fetchComments submissionId limit w = (Ok comments, w')
    /\ ((0 <= limit)%Z -> (List.length comments <= Z.to_nat limit)%nat)
    /\ Spec.requests w w' tail
    /\ Forall (Spec.comment_traffic [submissionId]) tail.
Proof.
  unfold RedditOAuthService.fetchComments,
    RedditOAuthService.fetchComments_try, try_catch, bind.
  destruct (getAccessToken_requests w) as (res & w1 & E1 & L1).
  rewrite E1.
  assert (T1 : exists t1, Spec.requests w w1 t1
                          /\ Forall (Spec.comment_traffic [submissionId]) t1).
  { destruct L1 as [L1 | L1]; eexists; (split; [exact L1|]);
      repeat constructor. }
  destruct T1 as (t1 & R1 & F1).
  destruct res as [tok|e]; simpl.
  2:{ exists [], w1, t1. repeat split; auto. simpl. lia. }
  destruct (fetch_inv (CommentsRequest submissionId limit tok) w1)
    as (res & w2 & E2 & L2 & _).
  rewrite E2.
  assert (R2 : Spec.requests w w2
                 (t1 ++ [CommentsRequest submissionId limit tok]))
    by (eapply requests_trans; eassumption).
  assert (F2 : Forall (Spec.comment_traffic [submissionId])
                 (t1 ++ [CommentsRequest submissionId limit tok])).
  { apply Forall_app. split; [assumption|].
    repeat constructor. }
  destruct res as [resp|e]; simpl.
  2:{ eexists [], w2, _. repeat split; eauto. simpl. lia. }
  destruct (negb (ok resp)); simpl.
  { eexists [], w2, _. repeat split; eauto. simpl. lia. }
  unfold json.
  destruct (body resp) as [a|c|[listing|]|]; simpl;
    try (eexists [], w2, _; repeat split; eauto; simpl; lia).
  eexists _, w2, _. repeat split; eauto.
  apply selectComments_length.
Qed.

Lemma comment_traffic_mono (ids ids' : list string) (r : Request) :
  incl ids ids' -> Spec.comment_traffic ids r -> Spec.comment_traffic ids' r.
Proof.
  intros Hi. destruct r; simpl; auto.
Qed.

(** The loop never throws.  It appends to [posts] the retained children in
    order, fetches comments while [posts] has at most 5 elements, and
    appends at most 10 comments per fetch. *)
Local Opaque Nat.min Nat.mul Nat.sub.

Lemma processSubmissions_returns (children : list Submission.t) :
  forall (posts : list RedditPost.t) (allComments : list RedditComment.t)
         (w : World),
  exists comments w' tail,
    RedditOAuthService.processSubmissions children posts allComments w
    = (Ok (posts ++ Spec.retained children, comments), w')
    /\ (List.length comments
        <= List.length allComments
           + 10 * (Nat.min 5 (List.length posts
                              + List.length (Spec.retained children))
                   - Nat.min 5 (List.length posts)))%nat
    /\ Spec.requests w w' tail
    /\ Forall (Spec.comment_traffic
                 (map RedditPost.id
                    (firstn (5 - List.length posts)
                            (Spec.retained children)))) tail.
Proof.
  induction children as [|post rest IH]; intros posts allComments w.
  - simpl. exists allComments, w, []. rewrite app_nil_r.
    repeat split; [lia | apply requests_refl | constructor].
  - simpl. unfold Spec.retained. simpl.
    destruct (Submission.stickied post); simpl.
    + apply IH.
    + rewrite length_app. simpl.
      destruct (Nat.leb_spec (List.length posts + 1) 5) as [Hle | Hgt].
      * unfold bind at 1. unfold try_catch, bind at 1.
        destruct (fetchComments_returns (Submission.id post) 10 w)
          as (cs & w1 & t1 & E1 & Len1 & R1 & F1).
        rewrite E1. simpl.
        destruct (IH (posts ++ [RedditOAuthService.toPost post])
                     (allComments ++ cs) w1)
          as (cs' & w' & t2 & E2 & Len2 & R2 & F2).
        exists cs', w', (t1 ++ t2).
        rewrite E2, <- app_assoc. simpl.
        specialize (Len1 ltac:(lia)).
        change (Z.to_nat 10) with 10%nat in Len1.
        repeat rewrite length_app in Len2. rewrite length_app in F2.
        cbn [List.length] in Len2, F2.
        fold (Spec.retained rest) in *.
        replace (5 - List.length posts)%nat
          with (S (5 - (List.length posts + 1)))%nat by lia.
        simpl.
        repeat split.
        -- lia.
        -- eapply requests_trans; eassumption.
        -- apply Forall_app. split.
           ++ eapply Forall_impl; [|exact F1].
              intros r. apply comment_traffic_mono.
              intros x [<- | []]. now left.
           ++ eapply Forall_impl; [|exact F2].
              intros r. apply comment_traffic_mono.
              intros x Hx. now right.
      * destruct (IH (posts ++ [RedditOAuthService.toPost post])
                     allComments w)
          as (cs' & w' & t2 & E2 & Len2 & R2 & F2).
        exists cs', w', t2.
        rewrite E2, <- app_assoc. simpl.
        repeat rewrite length_app in Len2. rewrite length_app in F2.
        cbn [List.length] in Len2, F2.
        fold (Spec.retained rest) in *.
        replace (5 - List.length posts)%nat with 0%nat by lia.
        replace (5 - (List.length posts + 1))%nat with 0%nat in F2 by lia.
        simpl in *.
        repeat split; [lia | assumption | assumption].
Qed.

Local Transparent Nat.min Nat.mul Nat.sub.
End FetchFacts.

(* ================================================================== *)
(** ** The snapshot *)
(* ================================================================== *)

Section SnapshotFacts.
Import Net.

Lemma retained_length_le (children : list Submission.t) :
  (List.length (Spec.retained children) <= List.length children)%nat.
Proof.
  unfold Spec.retained. rewrite length_map. apply filter_length_le.
Qed.

(** Once the token and the listing are there, the snapshot is returned,
    whatever happens to the comment requests.  Comments are asked for
    the first five retained posts only, ten at most for each. *)
Lemma fetchSubredditData_listing
    (subreddit timeframe : string) (limit : Z) (w w1 w2 : World)
    (tok : string) (resp : Response) (children : list Submission.t) :
  RedditOAuthService.getAccessToken w = (Ok tok, w1) ->
  fetch (RedditOAuthService.topRequest subreddit timeframe limit tok) w1
    = (Ok resp, w2) ->
  ok resp = true ->
  body resp = ListingJson (Some children) ->
  exists comments w3 tail,
    RedditOAuthService.processSubmissions (JS.slice0 limit children) [] [] w2
      = (Ok (Spec.retained (JS.slice0 limit children), comments), w3)
    /\ RedditOAuthService.fetchSubredditData subreddit timeframe limit w
       = (Ok (SubredditData.mk
                (JS.sort RedditOAuthService.by_score_desc_post
                         (Spec.retained (JS.slice0 limit children)))
                (JS.sort RedditOAuthService.by_score_desc_comment comments)
                subreddit (clock w3)), w3)
    /\ (List.length comments
        <= 10 * Nat.min 5 (List.length
                             (Spec.retained (JS.slice0 limit children))))%nat
    /\ Spec.requests w2 w3 tail
    /\ Forall (Spec.comment_traffic
                 (map RedditPost.id
                    (firstn 5 (Spec.retained (JS.slice0 limit children)))))
              tail.
Proof.
  intros E1 E2 Hok Hbody.
  destruct (processSubmissions_returns (JS.slice0 limit children) [] [] w2)
    as (cs & w3 & tail & E3 & Len & R & F).
  simpl in E3, F. cbn [List.length] in Len.
  exists cs, w3, tail. repeat split; try assumption.
  - unfold RedditOAuthService.fetchSubredditData, try_catch, bind.
    rewrite E1, E2, Hok. simpl. unfold json. rewrite Hbody. simpl.
    rewrite E3. reflexivity.
  - lia.
Qed.

(** Conversely, a snapshot is returned only when the token and the listing
    were there. *)
Lemma fetchSubredditData_Ok
    (subreddit timeframe : string) (limit : Z) (w w' : World)
    (snap : SubredditData.t) :
  RedditOAuthService.fetchSubredditData subreddit timeframe limit w
    = (Ok snap, w') ->
  exists tok w1 resp w2 children,
    RedditOAuthService.getAccessToken w = (Ok tok, w1)
    /\ fetch (RedditOAuthService.topRequest subreddit timeframe limit tok) w1
       = (Ok resp, w2)
    /\ ok resp = true
    /\ body resp = ListingJson (Some children).
Proof.
  unfold RedditOAuthService.fetchSubredditData, try_catch, bind.
  destruct (RedditOAuthService.getAccessToken w) as [[tok|e] w1] eqn:E1;
    [|discriminate].
  destruct (fetch _ w1) as [[resp|e] w2] eqn:E2; [|discriminate].
  destruct (ok resp) eqn:Hok; simpl.
  2:{ destruct (status resp =? 404)%Z; [discriminate|].
      destruct (status resp =? 403)%Z; discriminate. }
  unfold json.
  destruct (body resp) as [a|[children|]|c|] eqn:Hbody; simpl;
    try discriminate.
  intros _. now exists tok, w1, resp, w2, children.
Qed.

(** The requests of [fetchSubredditData] never go to the generation
    service, however it ends. *)
Lemma fetchSubredditData_traffic
    (subreddit timeframe : string) (limit : Z) (w : World) :
  exists res w' tail,
    RedditOAuthService.fetchSubredditData subreddit timeframe limit w
      = (res, w')
    /\ Spec.requests w w' tail
    /\ Forall (fun r => is_completion r = false) tail.
Proof.
  destruct (RedditOAuthService.fetchSubredditData subreddit timeframe limit w)
    as [res w'] eqn:E.
  exists res, w'.
  unfold RedditOAuthService.fetchSubredditData, try_catch, bind in E.
  destruct (getAccessToken_requests w) as (r1 & w1 & E1 & L1).
  rewrite E1 in E.
  assert (T1 : exists t1, Spec.requests w w1 t1
                          /\ Forall (fun r => is_completion r = false) t1).
  { destruct L1 as [L1 | L1]; eexists; (split; [exact L1|]);
      repeat constructor. }
  destruct T1 as (t1 & R1 & F1).
  destruct r1 as [tok|e].
  2:{ inversion E; subst. eauto. }
  destruct (fetch_inv
              (RedditOAuthService.topRequest subreddit timeframe limit tok) w1)
    as (r2 & w2 & E2 & L2 & _).
  rewrite E2 in E.
  assert (R2 : Spec.requests w w2
                 (t1 ++ [RedditOAuthService.topRequest
                           subreddit timeframe limit tok]))
    by (eapply requests_trans; eassumption).
  assert (F2 : Forall (fun r => is_completion r = false)
                 (t1 ++ [RedditOAuthService.topRequest
                           subreddit timeframe limit tok])).
  { apply Forall_app. split; [assumption|]. repeat constructor. }
  destruct r2 as [resp|e].
  2:{ inversion E; subst. eauto. }
  destruct (ok resp) eqn:Hok; simpl in E.
  2:{ destruct (status resp =? 404)%Z; [inversion E; subst; eauto|].
      destruct (status resp =? 403)%Z; inversion E; subst; eauto. }
  unfold json in E.
  destruct (body resp) as [a|[children|]|c|] eqn:Hbody; simpl in E;
    try (inversion E; subst; eauto; fail).
  destruct (processSubmissions_returns (JS.slice0 limit children) [] [] w2)
    as (cs & w3 & tail & E3 & _ & R3 & F3).
  rewrite E3 in E. simpl in E. inversion E; subst.
  exists ((t1 ++ [RedditOAuthService.topRequest subreddit timeframe limit tok])
          ++ tail).
  split; [reflexivity|].
  split; [eapply requests_trans; eassumption|].
  apply Forall_app. split; [assumption|].
  eapply Forall_impl; [|exact F3].
  intros r. destruct r; simpl; auto. intros [].
Qed.
End SnapshotFacts.

(* ================================================================== *)
(** ** The sample run *)
(* ================================================================== *)

Section SampleRun.
Import Net.

Lemma sample_token :
  RedditOAuthService.getAccessToken Sample.world
  = (Ok "tok", Sample.with_token).
Proof. vm_compute. reflexivity. Qed.

Lemma sample_token_requests :
  Spec.requests Sample.world Sample.with_token [TokenRequest].
Proof. vm_compute. reflexivity. Qed.

Lemma sample_top :
  fetch (RedditOAuthService.topRequest "technology" "24h" 25 "tok")
        Sample.with_token
  = (Ok Sample.listing_response, Sample.with_listing).
Proof. vm_compute. reflexivity. Qed.

Lemma sample_snapshot :
  RedditOAuthService.fetchSubredditData "technology" "24h" 25 Sample.world
  = (Ok Sample.snapshot, Sample.after_fetch).
Proof. vm_compute. reflexivity. Qed.
End SampleRun.

(* ================================================================== *)
(** ** Claims about the snapshot *)
(* ================================================================== *)

Section SnapshotClaims.
Import Net.

(** C10.  Whatever the limit and the size of the listing, the snapshot
    holds at most 50 comments: a comment fetch returns at most 10, and the
    loop asks for comments only while it has at most 5 posts, so the
    snapshot holds at most 10 comments for each of its first 5 posts. *)
Theorem C10_at_most_50_comments :
  (forall (submissionId : string) (w : World),
      exists comments w',
        RedditOAuthService.fetchComments submissionId 10 w = (Ok comments, w')
        /\ (List.length comments <= 10)%nat)
  /\ (forall (subreddit timeframe : string) (limit : Z) (w w' : World)
             (snap : SubredditData.t),
        RedditOAuthService.fetchSubredditData subreddit timeframe limit w
          = (Ok snap, w') ->
        (List.length (SubredditData.comments snap)
         <= 10 * Nat.min 5 (List.length (SubredditData.posts snap)))%nat
        /\ (List.length (SubredditData.comments snap) <= 50)%nat).
Proof.
  split.
  - intros submissionId w.
    destruct (fetchComments_returns submissionId 10 w)
      as (cs & w' & tail & E & Len & _).
    exists cs, w'. split; [exact E|]. apply Len. lia.
  - intros subreddit timeframe limit w w' snap E.
    destruct (fetchSubredditData_Ok _ _ _ _ _ _ E)
      as (tok & w1 & resp & w2 & children & E1 & E2 & Hok & Hbody).
    destruct (fetchSubredditData_listing _ _ _ _ _ _ _ _ _ E1 E2 Hok Hbody)
      as (cs & w3 & tail & _ & E4 & Len & _).
    rewrite E4 in E. inversion E; subst.
    cbn [SubredditData.posts SubredditData.comments].
    change RedditOAuthService.by_score_desc_post
      with (Spec.by_desc RedditPost.score).
    change RedditOAuthService.by_score_desc_comment
      with (Spec.by_desc RedditComment.score).
    rewrite (sort_length RedditPost.score), (sort_length RedditComment.score).
    lia.
Qed.

(** The sample snapshot holds two comments. *)
Lemma C10_witness :
  RedditOAuthService.fetchSubredditData "technology" "24h" 25 Sample.world
    = (Ok Sample.snapshot, Sample.after_fetch)
  /\ (List.length (SubredditData.comments Sample.snapshot) <= 50)%nat.
Proof.
  split; [exact sample_snapshot|].
  exact (proj2 (proj2 C10_at_most_50_comments
                  "technology" "24h" 25%Z Sample.world
                  Sample.after_fetch Sample.snapshot sample_snapshot)).
Defined.
End SnapshotClaims.

Section ListingClaims.
Import Net.

(** C5.  A failing comment fetch never fails the snapshot.
    - Whatever the [try] block of [fetchComments] throws is caught, and
      the result is the empty array; [fetchComments] always returns.
    - Once the token and the listing are obtained, [fetchSubredditData]
      returns a snapshot whose posts are the retained posts of the
      listing, sorted: they depend on the listing alone, not on what the
      comment requests met.
    - The comment requests that are made are for the first 5 retained
      posts, in the order of the listing. *)
Theorem C5_comment_failures_swallowed :
  (forall submissionId limit w e w',
      RedditOAuthService.fetchComments_try submissionId limit w
        = (Throw e, w') ->
      RedditOAuthService.fetchComments submissionId limit w = (Ok [], w'))
  /\ (forall submissionId limit w,
        exists comments w',
          RedditOAuthService.fetchComments submissionId limit w
            = (Ok comments, w'))
  /\ (forall subreddit timeframe limit w w1 w2 tok resp children,
        RedditOAuthService.getAccessToken w = (Ok tok, w1) ->
        fetch (RedditOAuthService.topRequest subreddit timeframe limit tok) w1
          = (Ok resp, w2) ->
        ok resp = true ->
        body resp = ListingJson (Some children) ->
        exists snap w3 tail,
          RedditOAuthService.fetchSubredditData subreddit timeframe limit w
            = (Ok snap, w3)
          /\ SubredditData.posts snap
             = JS.sort RedditOAuthService.by_score_desc_post
                 (Spec.retained (JS.slice0 limit children))
          /\ Spec.requests w2 w3 tail
          /\ Forall (Spec.comment_traffic
                       (map RedditPost.id
                          (firstn 5 (Spec.retained
                                       (JS.slice0 limit children)))))
                    tail).
Proof.
  split; [|split].
  - intros submissionId limit w e w' E.
    unfold RedditOAuthService.fetchComments, try_catch.
    now rewrite E.
  - intros submissionId limit w.
    destruct (fetchComments_returns submissionId limit w)
      as (cs & w' & _ & E & _).
    now exists cs, w'.
  - intros subreddit timeframe limit w w1 w2 tok resp children
           E1 E2 Hok Hbody.
    destruct (fetchSubredditData_listing _ _ _ _ _ _ _ _ _ E1 E2 Hok Hbody)
      as (cs & w3 & tail & _ & E4 & _ & R & F).
    eexists _, w3, tail. split; [exact E4|].
    simpl. auto.
Qed.

(** In the sample world the comments of the second post are unreachable
    and those of the third get a server error: the snapshot is returned
    with all three posts. *)
Lemma C5_witness :
  exists snap w3 tail,
    RedditOAuthService.fetchSubredditData "technology" "24h" 25
      Sample.world = (Ok snap, w3)
    /\ SubredditData.posts snap
       = JS.sort RedditOAuthService.by_score_desc_post
           (Spec.retained (JS.slice0 25 Sample.listing))
    /\ Spec.requests Sample.with_listing w3 tail
    /\ Forall (Spec.comment_traffic
                 (map RedditPost.id
                    (firstn 5 (Spec.retained
                                 (JS.slice0 25 Sample.listing)))))
              tail.
Proof.
  destruct C5_comment_failures_swallowed as (_ & _ & H).
  exact (H "technology" "24h" 25%Z Sample.world Sample.with_token
           Sample.with_listing "tok" Sample.listing_response
           Sample.listing sample_token sample_top eq_refl eq_refl).
Defined.

(** C8 as stated fails for the creation time: the sample listing holds a
    submission without one, and the post made of it has none either, not
    0. *)
Lemma C8_counterexample :
  In Sample.bare Sample.listing
  /\ Submission.stickied Sample.bare = false
  /\ Submission.created_utc Sample.bare = None
  /\ RedditPost.created_utc (RedditOAuthService.toPost Sample.bare)
     <> Some 0%Z
  /\ RedditOAuthService.fetchSubredditData "technology" "24h" 25
       Sample.world = (Ok Sample.snapshot, Sample.after_fetch)
  /\ map (fun p => (RedditPost.id p, RedditPost.created_utc p))
         (SubredditData.posts Sample.snapshot)
     = [("b", None); ("a", Some 1700000000%Z); ("c", Some 1700000300%Z)].
Proof.
  split; [simpl; tauto|]. split; [reflexivity|]. split; [reflexivity|].
  split; [discriminate|]. split; [exact sample_snapshot | reflexivity].
Qed.
End ListingClaims.

(* ================================================================== *)
(** ** The token cache *)
(* ================================================================== *)

Section TokenCache.
Import Net.

Lemma getAccessToken_hit (w : World) (t : string) :
  RedditOAuthService.cached (accessToken w) (tokenExpiry w) (clock w)
    = Some t ->
  RedditOAuthService.getAccessToken w = (Ok t, w).
Proof.
  intros H.
  unfold RedditOAuthService.getAccessToken, try_catch, bind,
    get_accessToken, get_tokenExpiry, Date_now.
  now rewrite H.
Qed.

Lemma getAccessToken_miss (w : World) :
  RedditOAuthService.cached (accessToken w) (tokenExpiry w) (clock w)
    = None ->
  exists res w',
    RedditOAuthService.getAccessToken w = (res, w')
    /\ Spec.requests w w' [TokenRequest]
    /\ (forall t, res = Ok t ->
          accessToken w' = Some t
          /\ tokenExpiry w'
             = Some (clock w' + RedditOAuthService.TOKEN_WINDOW)%Z).
Proof.
  intros H.
  unfold RedditOAuthService.getAccessToken, try_catch, bind,
    get_accessToken, get_tokenExpiry, Date_now.
  rewrite H.
  destruct (fetch_inv TokenRequest w) as (res & w1 & E & L & _).
  rewrite E. destruct res as [resp|e]; simpl.
  2:{ eexists _, _. split; [reflexivity|]. split; [exact L|]. discriminate. }
  destruct (negb (ok resp)); simpl.
  { eexists _, _. split; [reflexivity|]. split; [exact L|]. discriminate. }
  unfold json.
  destruct (body resp) as [[a|]| | |]; simpl;
    try (eexists _, _; split; [reflexivity|]; split; [exact L|];
         discriminate).
  destruct (JS.truthy a); simpl.
  - eexists _, _. split; [reflexivity|]. split; [exact L|].
    intros t [= <-]. split; reflexivity.
  - eexists _, _. split; [reflexivity|]. split; [exact L|]. discriminate.
Qed.

Lemma requests_nonempty (w : World) (r : Request) :
  ~ Spec.requests w w [r].
Proof.
  unfold Spec.requests. intros H.
  apply (f_equal (@List.length _)) in H.
  rewrite length_app in H. simpl in H. lia.
Qed.

(** C2.  Let a call of [getAccessToken] fetch a token from the network
    and complete at time T (the clock of the world it leaves).  Then the
    expiry it caches is T + 50 minutes.  In any later state of the same
    cache, a call when the clock is strictly before T + 50 minutes returns
    the cached token and makes no request, and a call when the clock is at
    or after T + 50 minutes makes a new request to the token endpoint; so
    at T + 49 minutes there is no request and at T + 51 minutes there is
    one. *)
Theorem C2_token_cache_window (w w1 : World) (tok : string) :
  RedditOAuthService.getAccessToken w = (Ok tok, w1) ->
  Spec.requests w w1 [TokenRequest] ->
  let T := clock w1 in
  let minutes (n : Z) := (n * 60 * 1000)%Z in
  tokenExpiry w1 = Some (T + minutes 50)%Z
  /\ accessToken w1 = Some tok
  /\ forall w2 : World,
       accessToken w2 = accessToken w1 ->
       tokenExpiry w2 = tokenExpiry w1 ->
       ((clock w2 < T + minutes 50)%Z ->
        RedditOAuthService.getAccessToken w2 = (Ok tok, w2))
       /\ ((T + minutes 50 <= clock w2)%Z ->
           exists res w3,
             RedditOAuthService.getAccessToken w2 = (res, w3)
             /\ Spec.requests w2 w3 [TokenRequest])
       /\ (clock w2 = (T + minutes 49)%Z ->
           RedditOAuthService.getAccessToken w2 = (Ok tok, w2))
       /\ (clock w2 = (T + minutes 51)%Z ->
           exists res w3,
             RedditOAuthService.getAccessToken w2 = (res, w3)
             /\ Spec.requests w2 w3 [TokenRequest]).
Proof.
  intros E R T minutes.
  assert (Hfetch : accessToken w1 = Some tok
                   /\ tokenExpiry w1 = Some (T + minutes 50)%Z
                   /\ JS.truthy tok = true).
  { destruct (RedditOAuthService.cached (accessToken w) (tokenExpiry w)
                                        (clock w)) as [t|] eqn:C.
    - rewrite (getAccessToken_hit _ _ C) in E. inversion E; subst.
      now apply requests_nonempty in R.
    - clear R. revert E.
      unfold RedditOAuthService.getAccessToken, try_catch, bind,
        get_accessToken, get_tokenExpiry, Date_now.
      rewrite C.
      destruct (fetch TokenRequest w) as [[resp|e] w0]; simpl;
        [|discriminate].
      destruct (negb (ok resp)); simpl; [discriminate|].
      unfold json.
      destruct (body resp) as [[a|]| | |]; simpl; try discriminate.
      destruct (JS.truthy a) eqn:Ha; simpl; [|discriminate].
      intros [= <- <-]. subst T. simpl. auto. }
  destruct Hfetch as (Htok & Hexp & Htruthy).
  split; [exact Hexp|]. split; [exact Htok|].
  intros w2 Ha He.
  assert (Hit : (clock w2 < T + minutes 50)%Z ->
                RedditOAuthService.getAccessToken w2 = (Ok tok, w2)).
  { intros Hlt. apply getAccessToken_hit.
    rewrite Ha, He, Htok, Hexp. unfold RedditOAuthService.cached.
    rewrite Htruthy. simpl.
    destruct (Z.ltb_spec (clock w2) (T + minutes 50)%Z); [reflexivity | lia]. }
  assert (Miss : (T + minutes 50 <= clock w2)%Z ->
                 exists res w3,
                   RedditOAuthService.getAccessToken w2 = (res, w3)
                   /\ Spec.requests w2 w3 [TokenRequest]).
  { intros Hge.
    destruct (getAccessToken_miss w2) as (res & w3 & E3 & R3 & _).
    - rewrite Ha, He, Htok, Hexp. unfold RedditOAuthService.cached.
      rewrite Htruthy. simpl.
      destruct (Z.ltb_spec (clock w2) (T + minutes 50)%Z); [lia | reflexivity].
    - now exists res, w3. }
  split; [exact Hit|]. split; [exact Miss|].
  split; intros Hc.
  - apply Hit. subst minutes. cbv beta in *. lia.
  - apply Miss. subst minutes. cbv beta in *. lia.
Qed.
End TokenCache.

Section TokenCacheWitness.
Import Net.

(** In the sample world the token request takes 120 ms from time 1000:
    the fetch completes at 1120 and the token is good until 3001120. *)
Lemma C2_witness :
  RedditOAuthService.getAccessToken Sample.world
    = (Ok "tok", Sample.with_token)
  /\ clock Sample.with_token = 1120%Z
  /\ tokenExpiry Sample.with_token = Some (1120 + 50 * 60 * 1000)%Z
  /\ RedditOAuthService.getAccessToken
       (tick (49 * 60 * 1000) Sample.with_token)
     = (Ok "tok", tick (49 * 60 * 1000) Sample.with_token)
  /\ exists res w3,
       RedditOAuthService.getAccessToken
         (tick (51 * 60 * 1000) Sample.with_token) = (res, w3)
       /\ Spec.requests (tick (51 * 60 * 1000) Sample.with_token) w3
                        [TokenRequest].
Proof.
  split; [exact sample_token|]. split; [reflexivity|].
  destruct (C2_token_cache_window Sample.world Sample.with_token "tok"
              sample_token sample_token_requests)
    as (Hexp & _ & H).
  split; [exact Hexp|].
  split.
  - destruct (H (tick (49 * 60 * 1000) Sample.with_token) eq_refl eq_refl)
      as (_ & _ & H49 & _).
    exact (H49 eq_refl).
  - destruct (H (tick (51 * 60 * 1000) Sample.with_token) eq_refl eq_refl)
      as (_ & _ & _ & H51).
    exact (H51 eq_refl).
Defined.
End TokenCacheWitness.

(* ================================================================== *)
(** ** [extractRedditContent]: what is selected *)
(* ================================================================== *)

Section Selection.

Lemma truthy_length (s : string) :
  JS.truthy s = true <-> (0 < String.length s)%nat.
Proof.
  unfold JS.truthy. destruct s; simpl; split; intros H;
    try reflexivity; try discriminate; lia.
Qed.

Lemma post_filter_spec (p : RedditPost.t) :
  Utils.post_filter p = true
  <-> (50 < String.length (RedditPost.selftext p))%nat.
Proof.
  unfold Utils.post_filter.
  rewrite andb_true_iff, truthy_length, Nat.ltb_lt. lia.
Qed.

Lemma comment_filter_spec (c : RedditComment.t) :
  Utils.comment_filter c = true
  <-> (30 < String.length (RedditComment.body c))%nat
      /\ (0 < RedditComment.score c)%Z.
Proof.
  unfold Utils.comment_filter.
  rewrite !andb_true_iff, truthy_length, Nat.ltb_lt, Z.ltb_lt. lia.
Qed.

Lemma In_firstn_middle {A : Type} (n : nat) (l1 l2 : list A) (x : A) :
  (List.length l1 < n)%nat -> In x (firstn n (l1 ++ x :: l2)).
Proof.
  intros H. rewrite firstn_app. apply in_or_app. right.
  destruct (n - List.length l1)%nat eqn:E; [lia|]. now left.
Qed.

Lemma filter_ext_eq {A : Type} (f g : A -> bool) (l : list A) :
  (forall x, f x = g x) -> filter f l = filter g l.
Proof.
  intros H. induction l as [|x l IH]; simpl; [reflexivity|].
  now rewrite H, IH.
Qed.

End Selection.

(* ================================================================== *)
(** ** Strings *)
(* ================================================================== *)

Section StringFacts.

Lemma append_nil_r (s : string) : (s ++ "")%string = s.
Proof. induction s as [|c s IH]; simpl; [reflexivity | now rewrite IH]. Qed.

Lemma append_assoc (a b c : string) :
  ((a ++ b) ++ c = a ++ (b ++ c))%string.
Proof. induction a as [|x a IH]; simpl; [reflexivity | now rewrite IH]. Qed.

Lemma prefix_refl_app (a b : string) : String.prefix a (a ++ b) = true.
Proof.
  induction a as [|x a IH]; simpl; [now destruct b|].
  destruct (ascii_dec x x); [exact IH | contradiction].
Qed.

Lemma prefix_nil (s : string) : String.prefix "" s = true.
Proof. now destruct s. Qed.

Lemma prefix_cons (c d : ascii) (a s : string) :
  String.prefix (String c a) (String d s)
  = Ascii.eqb c d && String.prefix a s.
Proof.
  simpl. destruct (ascii_dec c d) as [-> | Hne].
  - now rewrite Ascii.eqb_refl.
  - apply Ascii.eqb_neq in Hne. now rewrite Hne.
Qed.

Lemma prefix_app_l (a b t : string) :
  String.prefix (a ++ b) t = true -> String.prefix a t = true.
Proof.
  revert t. induction a as [|x a IH]; intros t; simpl.
  - now destruct t.
  - destruct t as [|y t]; simpl; [discriminate|].
    destruct (ascii_dec x y); [apply IH | discriminate].
Qed.

Lemma join_cons (sep b : string) (bs : list string) :
  JS.join sep (b :: bs)
  = match bs with [] => b | _ => (b ++ sep ++ JS.join sep bs)%string end.
Proof. destruct bs; reflexivity. Qed.

(** The join of blocks is empty only when there is no block, provided no
    block is empty. *)
Lemma join_truthy (sep : string) (bs : list string) :
  Forall (fun b => JS.truthy b = true) bs ->
  JS.truthy (JS.join sep bs) = negb (match bs with [] => true | _ => false end).
Proof.
  intros H. destruct bs as [|b bs]; [reflexivity|].
  inversion H as [|? ? Hb _]; subst.
  rewrite join_cons. simpl.
  destruct b as [|c b]; [discriminate|].
  now destruct bs.
Qed.
End StringFacts.

Section ScanFacts.
Import Text.

Lemma hits_app (a b : string) :
  forall n, hits n (a ++ b) = (hits n a + hits (state n a) b)%nat.
Proof.
  induction a as [|c a IH]; intros n; simpl; [reflexivity|].
  destruct (is_LF c); rewrite IH; lia.
Qed.

Lemma state_app (a b : string) :
  forall n, state n (a ++ b) = state (state n a) b.
Proof.
  induction a as [|c a IH]; intros n; simpl; [reflexivity|].
  destruct (is_LF c); apply IH.
Qed.

(** The scan counts the occurrences of the key; with line feeds before
    the text it also counts the occurrences that begin in them. *)
Lemma hits_occurrences_gen (s : string) :
  forall n,
    hits n s
    = (occurrences key s
       + (if (2 <=? n)%nat && String.prefix "=" s then 1 else 0)
       + (if (1 <=? n)%nat && String.prefix (String JS.LF "=") s
          then 1 else 0))%nat.
Proof.
  induction s as [|c s IH]; intros n.
  - simpl. rewrite !andb_false_r. reflexivity.
  - cbn [hits occurrences]. rewrite !IH.
    unfold key, JS.nl. cbn [append].
    rewrite !prefix_cons, prefix_nil, andb_true_r.
    unfold is_LF, is_EQ. rewrite (Ascii.eqb_sym "=" c), (Ascii.eqb_sym JS.LF c).
    destruct (Ascii.eqb_spec c JS.LF) as [-> | Hc].
    + change (Ascii.eqb JS.LF "=") with false.
      destruct n as [|[|n]]; cbn [Nat.leb andb];
        destruct (String.prefix "=" s),
                 (String.prefix (String JS.LF "=") s); simpl; lia.
    + destruct (Ascii.eqb c "=");
        destruct n as [|[|n]]; cbn [Nat.leb andb]; simpl; lia.
Qed.

Lemma hits_occurrences (s : string) : hits 0 s = occurrences key s.
Proof. rewrite hits_occurrences_gen. simpl. lia. Qed.

Lemma occurrences_le_key (sub s : string) :
  occurrences (key ++ sub) s <= occurrences key s.
Proof.
  induction s as [|c s IH].
  - simpl. lia.
  - cbn [occurrences].
    destruct (String.prefix (key ++ sub) (String c s)) eqn:E.
    + apply prefix_app_l in E. rewrite E. lia.
    + destruct (String.prefix key (String c s)); lia.
Qed.

Lemma occurrences_at_start (sub t : string) :
  String.prefix sub t = true -> 1 <= occurrences sub t.
Proof.
  intros H. destruct t; cbn [occurrences]; rewrite H; lia.
Qed.

Lemma occurrences_middle (sub a b : string) :
  1 <= occurrences sub (a ++ sub ++ b).
Proof.
  induction a as [|c a IH].
  - cbn [append]. apply occurrences_at_start, prefix_refl_app.
  - cbn [append occurrences]. lia.
Qed.
End ScanFacts.

Section BlockFacts.
Import Text.

Lemma hits_eq_free (s : string) :
  eq_free s = true -> forall n, hits n s = 0.
Proof.
  unfold eq_free.
  induction s as [|c s IH]; simpl; intros H n; [reflexivity|].
  apply andb_true_iff in H as [Hc Hs].
  apply negb_true_iff in Hc. rewrite Hc. simpl.
  destruct (is_LF c); now apply IH.
Qed.

Lemma scan_lf_free (s : string) :
  lf_free s = true -> hits 0 s = 0 /\ state 0 s = 0.
Proof.
  unfold lf_free.
  induction s as [|c s IH]; simpl; intros H; [auto|].
  apply andb_true_iff in H as [Hc Hs].
  apply negb_true_iff in Hc. rewrite Hc. rewrite andb_false_r. simpl.
  now apply IH.
Qed.

Lemma lf_free_app (a b : string) :
  lf_free (a ++ b) = lf_free a && lf_free b.
Proof.
  unfold lf_free.
  induction a as [|c a IH]; simpl; [reflexivity|].
  now rewrite IH, andb_assoc.
Qed.

(** A text without line feed that begins with a letter: nothing is
    counted in it, whatever stands before, and no line feed is pending
    after it. *)
Lemma scan_header (c : ascii) (s : string) :
  is_LF c = false -> is_EQ c = false -> lf_free s = true ->
  forall n, hits n (String c s) = 0 /\ state n (String c s) = 0.
Proof.
  intros Hc He Hs n. simpl. rewrite Hc, He. simpl.
  now apply scan_lf_free.
Qed.

(** A text without two white-space characters side by side, and without
    a white-space character at its start when a line feed stands before
    it: nothing is counted in it. *)
Lemma scan_tidy (s : string) :
  forall n, (n <= 1)%nat ->
            adj_free s = true ->
            (n = 1%nat -> starts_ws s = false) ->
            hits n s = 0.
Proof.
  induction s as [|c s IH]; intros n Hn Ha Hs; [reflexivity|].
  simpl in Ha. apply andb_true_iff in Ha as [Hadj Ha].
  apply negb_true_iff in Hadj.
  cbn [hits]. unfold is_LF.
  destruct (Ascii.eqb_spec c JS.LF) as [-> | Hc].
  - assert (n = 0%nat) as ->.
    { destruct n as [|[|n]]; [reflexivity | | lia].
      specialize (Hs eq_refl). discriminate. }
    apply IH; [lia | assumption |].
    intros _. exact Hadj.
  - replace (2 <=? n)%nat with false
      by (symmetry; apply Nat.leb_gt; lia).
    rewrite andb_false_r. simpl.
    apply IH; [lia | assumption | discriminate].
Qed.

Lemma string_of_uint_lf_free (d : Decimal.uint) :
  lf_free (NilEmpty.string_of_uint d) = true.
Proof. induction d; simpl; auto. Qed.

Lemma toString_lf_free (z : Z) : lf_free (JS.toString z) = true.
Proof.
  unfold JS.toString, NilZero.string_of_int, NilZero.string_of_uint.
  destruct (Z.to_int z) as [d|d]; destruct d; simpl;
    try reflexivity; apply string_of_uint_lf_free.
Qed.
End BlockFacts.

(** The last two steps of [cleanRedditText] leave no two white-space
    characters side by side and none at the start. *)
Section CleanFacts.
Import Text.

Lemma replace_from_empty (m : Regex.matcher) (k : nat) :
  Regex.replace_from m k "" = "".
Proof. destruct k; reflexivity. Qed.

Lemma run_drop (p : ascii -> bool) (s : string) :
  match Regex.drop (Regex.run p s) s with
  | EmptyString => True
  | String c _ => p c = false
  end.
Proof.
  induction s as [|c s IH]; simpl; [exact I|].
  destruct (p c) eqn:E; simpl; [exact IH | exact E].
Qed.

Lemma run_drop_ws (s : string) :
  starts_ws (Regex.drop (Regex.run JS.is_ws s) s) = false.
Proof.
  pose proof (run_drop JS.is_ws s) as H.
  destruct (Regex.drop _ s); [reflexivity | exact H].
Qed.

Lemma run_zero_ws (s : string) :
  Regex.run JS.is_ws s = 0%nat -> starts_ws s = false.
Proof.
  destruct s as [|c s]; simpl; [reflexivity|].
  destruct (JS.is_ws c); [discriminate | reflexivity].
Qed.

Lemma squeeze_eq (s : string) :
  Utils.SPACES s
  = if (2 <=? Regex.run JS.is_ws s)%nat
    then Some (" ", Regex.run JS.is_ws s) else None.
Proof. reflexivity. Qed.

Lemma squeeze_tidy (s : string) :
  forall k,
    adj_free (Regex.replace_from Utils.SPACES k s) = true
    /\ (starts_ws (Regex.replace_from Utils.SPACES k s) = true ->
        starts_ws (Regex.drop k s) = true).
Proof.
  induction s as [|c s IH]; intros k.
  - rewrite replace_from_empty. split; [reflexivity | discriminate].
  - destruct k as [|k]; [|exact (IH k)].
    cbn [Regex.replace_from Regex.drop]. rewrite squeeze_eq.
    destruct (Nat.leb_spec 2 (Regex.run JS.is_ws (String c s)))
      as [Hrun | Hrun].
    + pose proof (run_drop_ws (String c s)) as Hd.
      cbn [Regex.run] in Hrun, Hd |- *.
      destruct (JS.is_ws c) eqn:Hc; [|lia].
      cbn [Nat.pred Regex.drop] in Hd |- *.
      destruct (IH (Regex.run JS.is_ws s)) as [Ha Hs].
      change (" " ++ ?x)%string with (String " " x).
      cbn [adj_free starts_ws]. rewrite Ha, Hc, andb_true_r.
      split; [|reflexivity].
      destruct (starts_ws (Regex.replace_from Utils.SPACES
                             (Regex.run JS.is_ws s) s)) eqn:E;
        [|reflexivity].
      specialize (Hs eq_refl). congruence.
    + destruct (IH 0%nat) as [Ha Hs]. cbn [Regex.drop] in Hs.
      assert (Hs' : starts_ws (Regex.replace_from Utils.SPACES 0 s) = true ->
                    starts_ws s = true).
      { intros H. specialize (Hs H). now destruct s. }
      cbn [adj_free starts_ws]. split; [|auto].
      rewrite Ha, andb_true_r.
      destruct (JS.is_ws c) eqn:Hc; [|reflexivity].
      cbn [Regex.run] in Hrun. rewrite Hc in Hrun.
      assert (H0 : Regex.run JS.is_ws s = 0%nat) by lia.
      apply run_zero_ws in H0.
      destruct (starts_ws (Regex.replace_from Utils.SPACES 0 s)) eqn:E;
        [|reflexivity].
      specialize (Hs' eq_refl). congruence.
Qed.

Lemma trimStart_tidy (s : string) :
  adj_free s = true ->
  adj_free (JS.trimStart s) = true /\ starts_ws (JS.trimStart s) = false.
Proof.
  induction s as [|c s IH]; simpl; intros H; [auto|].
  apply andb_true_iff in H as [Hadj Ha].
  destruct (JS.is_ws c) eqn:Hc.
  - now apply IH.
  - simpl. rewrite Hc, Ha. auto.
Qed.

Lemma starts_ws_trimEnd (s : string) :
  starts_ws (JS.trimEnd s) = true -> starts_ws s = true.
Proof.
  destruct s as [|c s]; simpl; [discriminate|].
  destruct (JS.is_ws c && (JS.trimEnd s =? "")%string); simpl;
    [discriminate | auto].
Qed.

Lemma trimEnd_tidy (s : string) :
  adj_free s = true -> adj_free (JS.trimEnd s) = true.
Proof.
  induction s as [|c s IH]; simpl; intros H; [reflexivity|].
  apply andb_true_iff in H as [Hadj Ha].
  destruct (JS.is_ws c && (JS.trimEnd s =? "")%string); [reflexivity|].
  simpl. rewrite (IH Ha), andb_true_r.
  apply negb_true_iff in Hadj. apply negb_true_iff.
  destruct (JS.is_ws c); [|reflexivity]. simpl in *.
  destruct (starts_ws (JS.trimEnd s)) eqn:E; [|reflexivity].
  apply starts_ws_trimEnd in E. congruence.
Qed.

Lemma cleanRedditText_tidy (text : string) :
  adj_free (Utils.cleanRedditText text) = true
  /\ starts_ws (Utils.cleanRedditText text) = false.
Proof.
  unfold Utils.cleanRedditText, JS.trim, Regex.replace_all.
  match goal with
  | |- context [Regex.replace_from Utils.SPACES 0 ?t] =>
      destruct (squeeze_tidy t 0) as [Ha _];
      destruct (trimStart_tidy _ Ha) as [Hb Hc]
  end.
  split.
  - now apply trimEnd_tidy.
  - match goal with
    | |- starts_ws ?t = false =>
        destruct (starts_ws t) eqn:E; [|reflexivity]
    end.
    apply starts_ws_trimEnd in E. congruence.
Qed.
End CleanFacts.

(* ================================================================== *)
(** ** [extractRedditContent]: how the text is put together *)
(* ================================================================== *)

Section Assembly.
Import Text.

Lemma post_block_truthy (p : RedditPost.t) :
  JS.truthy (Utils.post_block p) = true.
Proof. reflexivity. Qed.

Lemma comment_block_truthy (c : RedditComment.t) :
  JS.truthy (Utils.comment_block c) = true.
Proof. reflexivity. Qed.

Lemma postContent_truthy (posts : list RedditPost.t) :
  JS.truthy (Utils.postContent posts)
  = negb (match Utils.selectedPosts posts with [] => true | _ => false end).
Proof.
  unfold Utils.postContent. rewrite join_truthy.
  - now destruct (Utils.selectedPosts posts).
  - apply Forall_forall. intros b Hb.
    apply in_map_iff in Hb as (p & <- & _). apply post_block_truthy.
Qed.

Lemma commentContent_truthy (comments : list RedditComment.t) :
  JS.truthy (Utils.commentContent comments)
  = negb (match Utils.selectedComments comments with
          | [] => true | _ => false end).
Proof.
  unfold Utils.commentContent. rewrite join_truthy.
  - now destruct (Utils.selectedComments comments).
  - apply Forall_forall. intros b Hb.
    apply in_map_iff in Hb as (c & <- & _). apply comment_block_truthy.
Qed.

Lemma post_block_scan (p : RedditPost.t) :
  lf_free (RedditPost.title p) = true ->
  forall n, hits n (Utils.post_block p) = 0.
Proof.
  intros Ht n.
  pose (content := Utils.cleanRedditText (RedditPost.selftext p)).
  pose (ts := JS.toString (RedditPost.score p)).
  pose (header := ("OST (" ++ ts ++ " upvotes): " ++ RedditPost.title p)%string).
  assert (E : Utils.post_block p
              = (String "P" header ++ (JS.nl ++ content))%string).
  { unfold Utils.post_block, header. fold content. fold ts.
    cbn [append]. rewrite ?append_assoc. cbn [append]. reflexivity. }
  rewrite E, hits_app.
  destruct (scan_header "P" header eq_refl eq_refl) with (n := n)
    as [H1 H2].
  { unfold header. rewrite !lf_free_app. unfold ts.
    now rewrite toString_lf_free, Ht. }
  rewrite H1, H2.
  destruct (cleanRedditText_tidy (RedditPost.selftext p)) as [Ha Hs].
  change (hits 0 (JS.nl ++ content)) with (hits 1 content).
  now apply scan_tidy.
Qed.

Lemma comment_block_scan (c : RedditComment.t) :
  forall n, hits n (Utils.comment_block c) = 0.
Proof.
  intros n.
  pose (content := Utils.cleanRedditText (RedditComment.body c)).
  pose (ts := JS.toString (RedditComment.score c)).
  pose (header := ("OMMENT (" ++ ts ++ " upvotes): ")%string).
  assert (E : Utils.comment_block c
              = (String "C" header ++ content)%string).
  { unfold Utils.comment_block, header. fold content. fold ts.
    cbn [append]. rewrite ?append_assoc. cbn [append]. reflexivity. }
  rewrite E, hits_app.
  destruct (scan_header "C" header eq_refl eq_refl) with (n := n)
    as [H1 H2].
  { unfold header. rewrite !lf_free_app. unfold ts.
    now rewrite toString_lf_free. }
  rewrite H1, H2.
  destruct (cleanRedditText_tidy (RedditComment.body c)) as [Ha Hs].
  apply scan_tidy; [lia | assumption | discriminate].
Qed.

Lemma join_scan (bs : list string) :
  (forall b, In b bs -> forall n, hits n b = 0) ->
  forall n, hits n (JS.join Utils.separator bs) = 0.
Proof.
  induction bs as [|b bs IH]; intros H n; [reflexivity|].
  rewrite join_cons. destruct bs as [|b' bs].
  - apply H. now left.
  - rewrite !hits_app.
    rewrite (H b (or_introl eq_refl)).
    rewrite (hits_eq_free Utils.separator eq_refl).
    rewrite IH; [reflexivity|].
    intros x Hx. apply H. now right.
Qed.

Lemma marker_hits (n : nat) : hits n Utils.POSTS_END = 1.
Proof. reflexivity. Qed.

(** Between two texts in which the key of the marker does not occur, the
    marker occurs once. *)
Lemma marker_once (a b : string) :
  (forall n, hits n a = 0) -> (forall n, hits n b = 0) ->
  occurrences Utils.POSTS_END (a ++ Utils.POSTS_END ++ b) = 1.
Proof.
  intros Ha Hb.
  apply Nat.le_antisymm; [|apply occurrences_middle].
  change Utils.POSTS_END
    with (key ++ "==POSTS_END===" ++ JS.nl ++ JS.nl)%string at 1.
  eapply Nat.le_trans; [apply occurrences_le_key|].
  rewrite <- hits_occurrences, !hits_app, Ha, Hb, marker_hits. lia.
Qed.
End Assembly.

Section AssemblyClaims.
Import Text.

Lemma extract_cases (posts : list RedditPost.t)
    (comments : list RedditComment.t) :
  Utils.extractRedditContent posts comments
  = match Utils.selectedPosts posts, Utils.selectedComments comments with
    | [], [] => ""
    | _ :: _, [] => Utils.postContent posts
    | [], _ :: _ => Utils.commentContent comments
    | _ :: _, _ :: _ =>
        (Utils.postContent posts ++ Utils.POSTS_END
         ++ Utils.commentContent comments)%string
    end.
Proof.
  unfold Utils.extractRedditContent. cbn [filter].
  rewrite postContent_truthy, commentContent_truthy.
  destruct (Utils.selectedPosts posts), (Utils.selectedComments comments);
    reflexivity.
Qed.

(** C9, as the code has it.  [extractRedditContent] joins the post blocks
    and the comment blocks with the marker [POSTS_END] between the two
    groups; a group that is empty is left out together with the marker;
    the result is the empty string exactly when both groups are empty.
    When both groups are non-empty and no title of a rendered post holds
    a line feed, the marker occurs exactly once in the result. *)
Theorem C9_marker_between_groups
    (posts : list RedditPost.t) (comments : list RedditComment.t) :
  (Utils.extractRedditContent posts comments = ""
   <-> Utils.selectedPosts posts = [] /\ Utils.selectedComments comments = [])
  /\ (Utils.selectedPosts posts <> [] ->
      Utils.selectedComments comments <> [] ->
      Utils.extractRedditContent posts comments
      = (JS.join Utils.separator
           (map Utils.post_block (Utils.selectedPosts posts))
         ++ Utils.POSTS_END
         ++ JS.join Utils.separator
              (map Utils.comment_block (Utils.selectedComments comments)))%string)
  /\ (Utils.selectedPosts posts <> [] ->
      Utils.selectedComments comments = [] ->
      Utils.extractRedditContent posts comments
      = JS.join Utils.separator
          (map Utils.post_block (Utils.selectedPosts posts)))
  /\ (Utils.selectedPosts posts = [] ->
      Utils.selectedComments comments <> [] ->
      Utils.extractRedditContent posts comments
      = JS.join Utils.separator
          (map Utils.comment_block (Utils.selectedComments comments)))
  /\ (Utils.selectedPosts posts <> [] ->
      Utils.selectedComments comments <> [] ->
      (forall p, In p (Utils.selectedPosts posts) ->
                 lf_free (RedditPost.title p) = true) ->
      occurrences Utils.POSTS_END (Utils.extractRedditContent posts comments)
      = 1).
Proof.
  pose proof (extract_cases posts comments) as E.
  assert (NP : Utils.selectedPosts posts <> [] ->
               Utils.postContent posts <> "").
  { intros H C. pose proof (postContent_truthy posts) as T.
    rewrite C in T. destruct (Utils.selectedPosts posts);
      [congruence | discriminate]. }
  assert (NC : Utils.selectedComments comments <> [] ->
               Utils.commentContent comments <> "").
  { intros H C. pose proof (commentContent_truthy comments) as T.
    rewrite C in T. destruct (Utils.selectedComments comments);
      [congruence | discriminate]. }
  unfold Utils.postContent, Utils.commentContent in E, NP, NC.
  split; [|split; [|split; [|split]]].
  - split.
    + intros H. rewrite E in H.
      destruct (Utils.selectedPosts posts) as [|p ps];
        destruct (Utils.selectedComments comments) as [|c cs]; auto;
        exfalso.
      * now apply NC.
      * now apply NP.
      * apply NP; [discriminate|].
        destruct (JS.join Utils.separator (map Utils.post_block (p :: ps)));
          [reflexivity | discriminate].
    + intros [HP HC]. now rewrite E, HP, HC.
  - intros HP HC. rewrite E.
    destruct (Utils.selectedPosts posts); [congruence|].
    destruct (Utils.selectedComments comments); [congruence|].
    reflexivity.
  - intros HP HC. rewrite E, HC.
    destruct (Utils.selectedPosts posts); [congruence | reflexivity].
  - intros HP HC. rewrite E, HP.
    destruct (Utils.selectedComments comments); [congruence | reflexivity].
  - intros HP HC Ht. rewrite E.
    destruct (Utils.selectedPosts posts) as [|p ps] eqn:SP; [congruence|].
    destruct (Utils.selectedComments comments) as [|c cs] eqn:SC;
      [congruence|].
    apply marker_once.
    + apply join_scan. intros b Hb.
      apply in_map_iff in Hb as (q & <- & Hq).
      apply post_block_scan, Ht. exact Hq.
    + apply join_scan. intros b Hb.
      apply in_map_iff in Hb as (q & <- & Hq).
      apply comment_block_scan.
Qed.

(** One post and one comment, with a title of one line: the marker stands
    once in the text. *)
Lemma C9_witness :
  let posts := [Sample.post "Batteries" Sample.body51 3] in
  let comments := [Sample.comment Sample.body31 2] in
  Utils.selectedPosts posts <> []
  /\ Utils.selectedComments comments <> []
  /\ occurrences Utils.POSTS_END (Utils.extractRedditContent posts comments)
     = 1.
Proof.
  intros posts comments.
  assert (HP : Utils.selectedPosts posts <> []) by discriminate.
  assert (HC : Utils.selectedComments comments <> []) by discriminate.
  split; [exact HP|]. split; [exact HC|].
  destruct (C9_marker_between_groups posts comments)
    as (_ & _ & _ & _ & H).
  apply (H HP HC).
  intros p [<- | []]. reflexivity.
Defined.

(** C9 as stated fails when a title spells the marker out: with one
    qualifying post of such a title and one qualifying comment, the marker
    stands twice in the text. *)
Lemma C9_counterexample :
  let posts := [Sample.post Sample.marked_title Sample.body51 3] in
  let comments := [Sample.comment Sample.body31 2] in
  List.length (Utils.selectedPosts posts) = 1
  /\ List.length (Utils.selectedComments comments) = 1
  /\ occurrences Utils.POSTS_END (Utils.extractRedditContent posts comments)
     = 2.
Proof. vm_compute. repeat split. Qed.
End AssemblyClaims.

(* ================================================================== *)
(** ** The handler of a question *)
(* ================================================================== *)

Section Handler.
Import Net.

Lemma truthy_neq (s : string) : JS.truthy s = true <-> s <> "".
Proof.
  unfold JS.truthy. destruct (String.eqb_spec s ""); simpl; split;
    intros H; try reflexivity; try discriminate; congruence.
Qed.

Lemma array_includes_In (l : list string) (x : string) :
  JS.array_includes l x = true <-> In x l.
Proof.
  unfold JS.array_includes. rewrite existsb_exists. split.
  - intros (y & Hy & E). apply String.eqb_eq in E. now subst.
  - intros H. exists x. split; [assumption | apply String.eqb_refl].
Qed.

(** A request that passes the checks goes on to fetch the snapshot. *)
Lemma POST_admitted (request : AskQuestionRequest.t)
    (subreddit question : string) (w : World) :
  Spec.admitted request subreddit question ->
  AskQuestion.POST request w
  = try_catch
      (bind (RedditOAuthService.fetchSubredditData subreddit "24h" 25)
         (fun redditData =>
            if (List.length (SubredditData.posts redditData) =? 0)%nat then
              ret (AskQuestion.failure
                     "No recent content available for this subreddit" 404)
            else
              let redditContent :=
                Utils.extractRedditContent (SubredditData.posts redditData)
                  (SubredditData.comments redditData) in
              if negb (JS.truthy redditContent)
                 || (String.length redditContent <? 100)%nat then
                ret (AskQuestion.failure
                       "Insufficient recent content in this subreddit" 404)
              else
                bind (AskQuestion.generateAIResponse question redditContent
                        subreddit (Spec.model_of request))
                  (fun aiResponse =>
                     ret (AskQuestion.NextResponse.json
                            (AskQuestionResponse.mk true (Some aiResponse) None)
                            200))))
      (fun error =>
         ret (AskQuestion.failure
                (AppError.message (Utils.handleApiError error))
                (AskQuestion.error_status error)))
      w.
Proof.
  intros (Hs & Hs' & Hq & Hq' & Hm).
  unfold AskQuestion.POST. rewrite Hs, Hq. unfold JS.or_str.
  apply truthy_neq in Hs', Hq'. rewrite Hs', Hq'. cbn iota.
  rewrite Hs', Hq'. cbn [negb orb].
  apply array_includes_In in Hm. unfold Spec.model_of in Hm.
  rewrite Hm. reflexivity.
Qed.

(** C3.  Let a request pass the checks of [POST] and the snapshot be
    fetched.  If the snapshot has no post, or if the text made of it is
    empty or shorter than 100 characters, the handler answers with the
    insufficient-content failure (status 404), and none of the requests made
    goes to the generation service. *)
Theorem C3_insufficient_content_no_generation
    (request : AskQuestionRequest.t) (subreddit question : string)
    (w w1 : World) (snap : SubredditData.t) :
  Spec.admitted request subreddit question ->
  RedditOAuthService.fetchSubredditData subreddit "24h" 25 w = (Ok snap, w1) ->
  SubredditData.posts snap = []
  \/ Utils.extractRedditContent (SubredditData.posts snap)
                                (SubredditData.comments snap) = ""
  \/ (String.length (Utils.extractRedditContent
                       (SubredditData.posts snap)
                       (SubredditData.comments snap)) < 100)%nat ->
  exists r tail,
    AskQuestion.POST request w = (Ok r, w1)
    /\ Spec.InsufficientContent r
    /\ Spec.requests w w1 tail
    /\ Spec.no_generation tail.
Proof.
  intros Hadm E Hsparse.
  destruct (fetchSubredditData_traffic subreddit "24h" 25 w)
    as (res & w' & tail & E' & R & F).
  rewrite E in E'. inversion E'; subst res w'. clear E'.
  rewrite (POST_admitted _ _ _ _ Hadm).
  unfold try_catch, bind. rewrite E.
  destruct (List.length (SubredditData.posts snap) =? 0)%nat eqn:Hposts.
  - eexists _, tail. split; [reflexivity|].
    split; [|split; assumption].
    unfold Spec.InsufficientContent. simpl. auto.
  - assert (Hshort : negb (JS.truthy
                             (Utils.extractRedditContent
                                (SubredditData.posts snap)
                                (SubredditData.comments snap)))
                     || (String.length
                           (Utils.extractRedditContent
                              (SubredditData.posts snap)
                              (SubredditData.comments snap)) <? 100)%nat
                     = true).
    { apply orb_true_iff. right. apply Nat.ltb_lt.
      destruct Hsparse as [H | [H | H]].
      - rewrite H in Hposts. discriminate.
      - rewrite H. simpl. lia.
      - exact H. }
    cbv zeta. rewrite Hshort.
    eexists _, tail. split; [reflexivity|].
    split; [|split; assumption].
    unfold Spec.InsufficientContent. simpl. auto.
Qed.
Lemma sample_quiet :
  RedditOAuthService.fetchSubredditData "technology" "24h" 25
    Sample.quiet_world
  = (Ok Sample.quiet_snapshot, Sample.quiet_after).
Proof. vm_compute. reflexivity. Qed.

Lemma sample_admitted :
  Spec.admitted (Sample.ask "technology" "What is new?")
                "technology" "What is new?".
Proof.
  unfold Spec.admitted, Sample.ask. simpl.
  repeat split; try discriminate. now left.
Qed.

(** With an empty listing the handler answers 404 after the token and the
    listing requests, and the generation service is not called. *)
Lemma C3_witness :
  exists r tail,
    AskQuestion.POST (Sample.ask "technology" "What is new?")
                     Sample.quiet_world = (Ok r, Sample.quiet_after)
    /\ Spec.InsufficientContent r
    /\ Spec.requests Sample.quiet_world Sample.quiet_after tail
    /\ Spec.no_generation tail.
Proof.
  exact (C3_insufficient_content_no_generation
           (Sample.ask "technology" "What is new?")
           "technology" "What is new?"
           Sample.quiet_world Sample.quiet_after Sample.quiet_snapshot
           sample_admitted sample_quiet (or_introl eq_refl)).
Defined.


Lemma validateSubreddit_spec (s : string) :
  Utils.Validation.isValid (Utils.validateSubreddit s) = true
  <-> Spec.forum_name_ok s.
Proof.
  unfold Utils.validateSubreddit, Spec.forum_name_ok,
    VALIDATION.SUBREDDIT.PATTERN_test,
    VALIDATION.SUBREDDIT.MIN_LENGTH, VALIDATION.SUBREDDIT.MAX_LENGTH.
  destruct (JS.truthy s) eqn:Ht; cbn [negb andb].
  - apply truthy_length in Ht.
    destruct (Nat.ltb_spec (String.length s) 1); cbn [Utils.Validation.isValid];
      [split; [discriminate | lia]|].
    destruct (Nat.ltb_spec 50 (String.length s)); cbn [Utils.Validation.isValid];
      [split; [discriminate | lia]|].
    destruct (JS.all_chars JS.is_word s); cbn [negb Utils.Validation.isValid].
    + split; [intros _; split; [lia | reflexivity] | reflexivity].
    + split; [discriminate | intros [_ Hw]; discriminate].
  - cbn [Utils.Validation.isValid]. split; [discriminate|].
    intros [Hl _]. assert (T : JS.truthy s = true) by (apply truthy_length; lia).
    congruence.
Qed.

Lemma validateQuestion_spec (q : string) :
  Utils.Validation.isValid (Utils.validateQuestion q) = true
  <-> Spec.question_ok q.
Proof.
  unfold Utils.validateQuestion, Spec.question_ok,
    VALIDATION.QUESTION.MIN_LENGTH, VALIDATION.QUESTION.MAX_LENGTH.
  destruct (JS.truthy q) eqn:Ht; cbn [negb orb].
  - destruct (Nat.eqb_spec (String.length (JS.trim q)) 0);
      cbn [Utils.Validation.isValid]; [split; [discriminate | lia]|].
    destruct (Nat.ltb_spec (String.length (JS.trim q)) 5);
      cbn [Utils.Validation.isValid]; [split; [discriminate | lia]|].
    destruct (Nat.ltb_spec 500 (String.length (JS.trim q)));
      cbn [Utils.Validation.isValid]; [split; [discriminate | lia]|].
    split; [intros _; lia | reflexivity].
  - cbn [Utils.Validation.isValid]. split; [discriminate|].
    intros H. destruct q; [simpl in H; lia | discriminate].
Qed.



End Handler.

(* ================================================================== *)
(** ** The three filters of the comments of a post *)
(* ================================================================== *)

Section CommentFilters.

Lemma collect_spec (listing : list CommentNode.t) :
  forall acc,
    RedditOAuthService.collect listing acc
    = acc ++ map RedditOAuthService.pushed
               (filter RedditOAuthService.keeps listing).
Proof.
  induction listing as [|x l IH]; intros acc; simpl.
  - now rewrite app_nil_r.
  - destruct (RedditOAuthService.keeps x); rewrite IH; simpl;
      [now rewrite <- app_assoc | reflexivity].
Qed.

Lemma keeps_body (x : CommentNode.t) :
  RedditOAuthService.keeps x = true ->
  let c := RedditOAuthService.pushed x in
  RedditComment.body c <> ""
  /\ RedditComment.body c <> "[deleted]"
  /\ RedditComment.body c <> "[removed]".
Proof.
  unfold RedditOAuthService.keeps, RedditOAuthService.pushed. simpl.
  destruct (CommentNode.body x) as [b|]; [|rewrite andb_false_r; discriminate].
  rewrite !andb_true_iff, !negb_true_iff.
  intros (_ & (Ht & Hd) & Hr). simpl. rewrite Ht.
  apply truthy_neq in Ht. apply String.eqb_neq in Hd, Hr. auto.
Qed.

Lemma collected_body (listing : list CommentNode.t) (c : RedditComment.t) :
  In c (RedditOAuthService.collect listing []) ->
  RedditComment.body c <> ""
  /\ RedditComment.body c <> "[deleted]"
  /\ RedditComment.body c <> "[removed]".
Proof.
  rewrite collect_spec. simpl. intros H.
  apply in_map_iff in H as (x & <- & Hx).
  apply filter_In in Hx as [_ Hk]. now apply keeps_body.
Qed.

Lemma collect_length (listing : list CommentNode.t) :
  List.length (RedditOAuthService.collect listing []) <= List.length listing.
Proof.
  rewrite collect_spec. simpl. rewrite length_map. apply filter_length_le.
Qed.

Lemma slice0_all {A : Type} (e : Z) (l : list A) :
  (0 <= e)%Z -> List.length l <= Z.to_nat e -> JS.slice0 e l = l.
Proof.
  intros He Hl. rewrite slice0_nonneg by assumption. now apply firstn_all2.
Qed.

Lemma Forall_slice0 {A : Type} (P : A -> Prop) (e : Z) (l : list A) :
  Forall P l -> Forall P (JS.slice0 e l).
Proof.
  intros H. apply Forall_forall. intros x Hx.
  apply slice0_In in Hx. revert x Hx. now apply Forall_forall.
Qed.

(** With a limit that is not negative, the last two steps of
    [fetchComments] cut nothing more: it is the cap followed by the
    filters. *)
Lemma selectComments_cap_then_filter (limit : Z) (listing : list CommentNode.t) :
  (0 <= limit)%Z ->
  RedditOAuthService.selectComments limit listing
  = Spec.cap_then_filter limit listing.
Proof.
  intros H. unfold RedditOAuthService.selectComments, Spec.cap_then_filter.
  apply slice0_all; [assumption|].
  eapply Nat.le_trans; [apply filter_length_le|].
  eapply Nat.le_trans; [apply collect_length|].
  now apply slice0_length.
Qed.

Lemma transformComment_without_replies (x : CommentNode.t) :
  Spec.without_replies (Snoowrap.transformComment x 0)
  = RedditOAuthService.pushed x.
Proof. destruct x. reflexivity. Qed.

Lemma snoowrap_filter_keeps (x : CommentNode.t) :
  CommentNode.kind x = "t1" ->
  Snoowrap.comment_filter (Snoowrap.transformComment x 0)
  = RedditOAuthService.keeps x
    && Spec.positive (RedditOAuthService.pushed x).
Proof.
  destruct x as [kind id body author score created replies]. simpl.
  intros ->.
  unfold Snoowrap.comment_filter, RedditOAuthService.keeps, Spec.positive.
  simpl.
  destruct body as [b|]; simpl; [|reflexivity].
  destruct (JS.truthy b) eqn:Ht; simpl; [now rewrite Ht|reflexivity].
Qed.

Lemma snoowrap_same_selection (l : list CommentNode.t) :
  Forall (fun x => CommentNode.kind x = "t1") l ->
  map Spec.without_replies
      (filter Snoowrap.comment_filter
              (map (fun comment => Snoowrap.transformComment comment 0) l))
  = filter Spec.positive
           (map RedditOAuthService.pushed (filter RedditOAuthService.keeps l)).
Proof.
  induction 1 as [|x l Hx Hl IH]; [reflexivity|].
  cbn [map filter]. rewrite (snoowrap_filter_keeps x Hx).
  destruct (RedditOAuthService.keeps x); cbn [andb map filter];
    [|exact IH].
  destruct (Spec.positive (RedditOAuthService.pushed x)); cbn [map];
    [|exact IH].
  now rewrite transformComment_without_replies, IH.
Qed.

(** C6, as the code has it.  The [fetchComments] of the ask-question
    route and the snoowrap-based route both cap the listing first and
    filter afterward: each returns only comments of positive score whose
    body is neither empty nor a deletion mark, and on a listing of comment
    nodes the two select the same comments, in the same order.  The
    [fetchComments] of the reddit-data route applies the same cap and the
    same test of the body and no test of the score: what the ask-question
    route returns is what it returns, filtered by score. *)
Theorem C6_comment_filters :
  (forall limit listing c,
      In c (RedditOAuthService.selectComments limit listing) ->
      Spec.qualifies c)
  /\ (forall listing c,
        In c (Snoowrap.postComments listing) -> Spec.qualifies c)
  /\ (forall limit listing,
        (0 <= limit)%Z ->
        RedditOAuthService.selectComments limit listing
        = Spec.cap_then_filter limit listing
        /\ RedditOAuthService.selectComments limit listing
           = filter Spec.positive (RedditData.selectComments limit listing))
  /\ (forall listing,
        Forall (fun x => CommentNode.kind x = "t1") listing ->
        map Spec.without_replies (Snoowrap.postComments listing)
        = RedditOAuthService.selectComments 10 listing)
  /\ (forall limit listing c,
        In c (RedditData.selectComments limit listing) ->
        RedditComment.body c <> ""
        /\ RedditComment.body c <> "[deleted]"
        /\ RedditComment.body c <> "[removed]").
Proof.
  split; [|split; [|split; [|split]]].
  - intros limit listing c H.
    unfold RedditOAuthService.selectComments in H.
    apply slice0_In, filter_In in H as [Hc Hp].
    apply Z.ltb_lt in Hp. apply collected_body in Hc.
    unfold Spec.qualifies. tauto.
  - intros listing c H. unfold Snoowrap.postComments in H.
    apply filter_In in H as [_ H]. unfold Snoowrap.comment_filter in H.
    rewrite !andb_true_iff, !negb_true_iff in H.
    destruct H as (((Ht & Hd) & Hr) & Hp).
    apply truthy_neq in Ht. apply String.eqb_neq in Hd, Hr.
    apply Z.ltb_lt in Hp. unfold Spec.qualifies. tauto.
  - intros limit listing H.
    split; now apply selectComments_cap_then_filter.
  - intros listing H.
    rewrite selectComments_cap_then_filter by lia.
    unfold Snoowrap.postComments, Spec.cap_then_filter.
    rewrite collect_spec. cbn [app].
    apply snoowrap_same_selection, Forall_slice0, H.
  - intros limit listing c H. unfold RedditData.selectComments in H.
    now apply collected_body in H.
Qed.

(** On the sample thread both routes return the comments c1 and c4. *)
Lemma C6_witness :
  Forall (fun x => CommentNode.kind x = "t1") Sample.thread
  /\ RedditOAuthService.selectComments 10 Sample.thread
     = Spec.cap_then_filter 10 Sample.thread
  /\ map Spec.without_replies (Snoowrap.postComments Sample.thread)
     = RedditOAuthService.selectComments 10 Sample.thread
  /\ map RedditComment.id (RedditOAuthService.selectComments 10 Sample.thread)
     = ["c1"; "c4"].
Proof.
  assert (T : Forall (fun x => CommentNode.kind x = "t1") Sample.thread)
    by (repeat constructor).
  destruct C6_comment_filters as (_ & _ & H3 & H4 & _).
  split; [exact T|].
  split; [exact (proj1 (H3 10%Z Sample.thread ltac:(lia)))|].
  split; [exact (H4 Sample.thread T) | reflexivity].
Defined.

(** C6 as stated fails twice.  The ask-question route does not exclude the
    comments of score 0 before it caps: of ten such comments followed by a
    liked one it returns nothing, where excluding first would return the
    liked one.  And the reddit-data route returns a comment of negative
    score. *)
Lemma C6_counterexample :
  RedditOAuthService.selectComments 10 Sample.crowded = []
  /\ map RedditComment.id (Spec.filter_then_cap 10 Sample.crowded) = ["late"]
  /\ Snoowrap.postComments Sample.crowded = []
  /\ map RedditComment.score
         (RedditData.selectComments 10
            [Sample.node "z" "An unloved comment." (-3)])
     = [(-3)%Z].
Proof. vm_compute. repeat split. Qed.
End CommentFilters.

(* ================================================================== *)
(** ** Further properties: errors and the envelope of the handler *)
(* ================================================================== *)

Section ErrorFacts.
Import Net.

Lemma handleApiError_nonempty (error : JsError.t) :
  AppError.message (Utils.handleApiError error) <> "".
Proof.
  unfold Utils.handleApiError.
  repeat match goal with
         | |- context [if ?b then _ else _] => destruct b eqn:?
         end; cbn [AppError.message]; try discriminate.
  now apply truthy_neq.
Qed.

(** X1.  The message [handleApiError] gives is never empty, and an error
    that carries [response.status] 404 is reported as a forum that was not
    found whatever its own message says. *)
Theorem handleApiError_message (error : JsError.t) :
  AppError.message (Utils.handleApiError error) <> ""
  /\ (JsError.response_status error = Some 404%Z ->
      Utils.handleApiError error
      = AppError.mk ERROR_MESSAGES.SUBREDDIT_NOT_FOUND "reddit_api").
Proof.
  split; [apply handleApiError_nonempty|].
  unfold Utils.handleApiError. intros ->. reflexivity.
Qed.

Lemma handleApiError_witness :
  Utils.handleApiError (JsError.mk "Request failed" None None (Some 404%Z))
  = AppError.mk ERROR_MESSAGES.SUBREDDIT_NOT_FOUND "reddit_api".
Proof.
  exact (proj2 (handleApiError_message
                  (JsError.mk "Request failed" None None (Some 404%Z)))
               eq_refl).
Defined.

Lemma error_status_cases (error : JsError.t) :
  AskQuestion.error_status error = 429%Z
  \/ AskQuestion.error_status error = 401%Z
  \/ AskQuestion.error_status error = 500%Z.
Proof.
  unfold AskQuestion.error_status.
  repeat match goal with
         | |- context [if ?b then _ else _] => destruct b
         end; auto.
Qed.

Lemma generateAIResponse_inv
    (question redditContent subreddit model : string) (w : World) :
  exists res w',
    AskQuestion.generateAIResponse question redditContent subreddit model w
    = (res, w')
    /\ Spec.requests w w'
         [CompletionRequest model (AskQuestion.systemPrompt subreddit)
            (AskQuestion.userPrompt question redditContent subreddit)]
    /\ (forall a, res = Ok a ->
          AIResponse.answer a <> ""
          /\ AIResponse.sources a
             = [Source.mk ("Recent discussions in r/" ++ subreddit)
                          ("https://reddit.com/r/" ++ subreddit) "post"]
          /\ AIResponse.confidence a = (85 # 100)%Q
          /\ AIResponse.model a = model
          /\ exists d content0,
               openai w = CompletionOk d content0 (AIResponse.tokens_used a)
                          :: openai w'
               /\ AIResponse.answer a
                  = JS.or_str content0 "No response generated").
Proof.
  unfold AskQuestion.generateAIResponse, try_catch, bind, create_completion,
    Spec.requests.
  cbn [openai logged log].
  destruct (openai w) as [|[d e|d content total] rest]; cbn [tick log openai].
  - eexists _, _. split; [reflexivity|]. split; [reflexivity|]. discriminate.
  - eexists _, _. split; [reflexivity|]. split; [reflexivity|]. discriminate.
  - eexists _, _. split; [reflexivity|]. split; [reflexivity|].
    intros a [= <-]. cbn.
    split.
    + destruct content as [c|]; cbn; [|discriminate].
      destruct (JS.truthy c) eqn:Hc; [now apply truthy_neq | discriminate].
    + repeat split. now exists d, content.
Qed.
End ErrorFacts.

Section Envelope.
Import Net.

(** A request is either turned away at once, or it passes the checks. *)
Lemma POST_cases (request : AskQuestionRequest.t) :
  (exists message,
      (forall w, AskQuestion.POST request w
                 = (Ok (AskQuestion.failure message 400), w))
      /\ (message = "Subreddit and question are required"
          \/ message = "Invalid model specified"))
  \/ (exists subreddit question, Spec.admitted request subreddit question).
Proof.
  destruct (JS.truthy (JS.or_str (AskQuestionRequest.subreddit request) ""))
    eqn:Hs.
  2:{ left. eexists. split; [|left; reflexivity].
      intros w. unfold AskQuestion.POST, try_catch. now rewrite Hs. }
  destruct (JS.truthy (JS.or_str (AskQuestionRequest.question request) ""))
    eqn:Hq.
  2:{ left. eexists. split; [|left; reflexivity].
      intros w. unfold AskQuestion.POST, try_catch. now rewrite Hs, Hq. }
  destruct (JS.array_includes AskQuestion.ALLOWED_MODELS
                              (Spec.model_of request)) eqn:Hm.
  2:{ left. eexists. split; [|right; reflexivity].
      intros w. unfold AskQuestion.POST, try_catch.
      fold (Spec.model_of request). now rewrite Hs, Hq, Hm. }
  right.
  destruct (AskQuestionRequest.subreddit request) as [s|] eqn:Es;
    [|discriminate].
  destruct (AskQuestionRequest.question request) as [q|] eqn:Eq;
    [|discriminate].
  exists s, q. unfold Spec.admitted. rewrite Es, Eq.
  cbn [JS.or_str] in Hs, Hq.
  destruct (JS.truthy s) eqn:Ts; [|discriminate].
  destruct (JS.truthy q) eqn:Tq; [|discriminate].
  apply truthy_neq in Ts, Tq. apply array_includes_In in Hm.
  repeat split; assumption.
Qed.

(** What the handler can answer. *)
Lemma POST_outcome (request : AskQuestionRequest.t) (w : World) :
  exists r w',
    AskQuestion.POST request w = (Ok r, w')
    /\ ((AskQuestion.NextResponse.status r = 200%Z
         /\ AskQuestionResponse.success (AskQuestion.NextResponse.body r)
            = true
         /\ AskQuestionResponse.error (AskQuestion.NextResponse.body r)
            = None
         /\ exists a,
              AskQuestionResponse.data (AskQuestion.NextResponse.body r)
              = Some a)
        \/ (exists message,
              Props.failure_with r message
              /\ ((AskQuestion.NextResponse.status r = 400%Z
                   /\ (message = "Subreddit and question are required"
                       \/ message = "Invalid model specified"))
                  \/ (AskQuestion.NextResponse.status r = 404%Z
                      /\ Spec.InsufficientContent r)
                  \/ AskQuestion.NextResponse.status r = 429%Z
                  \/ AskQuestion.NextResponse.status r = 401%Z
                  \/ AskQuestion.NextResponse.status r = 500%Z))).
Proof.
  destruct (POST_cases request) as [(message & E & Hm) | (s & q & Hadm)].
  - eexists _, w. split; [apply E|]. right. exists message.
    split.
    + unfold Props.failure_with. cbn. repeat split.
      destruct Hm as [-> | ->]; discriminate.
    + left. split; [reflexivity | exact Hm].
  - rewrite (POST_admitted _ _ _ _ Hadm). unfold try_catch, bind.
    assert (Hcatch : forall (e : JsError.t) (w0 : World),
               exists r w',
                 ret (AskQuestion.failure
                        (AppError.message (Utils.handleApiError e))
                        (AskQuestion.error_status e)) w0 = (Ok r, w')
                 /\ exists message,
                      Props.failure_with r message
                      /\ (AskQuestion.NextResponse.status r = 429%Z
                          \/ AskQuestion.NextResponse.status r = 401%Z
                          \/ AskQuestion.NextResponse.status r = 500%Z)).
    { intros e w0. eexists _, w0. split; [reflexivity|].
      eexists. split.
      - unfold Props.failure_with. cbn. repeat split.
        apply handleApiError_nonempty.
      - cbn. apply error_status_cases. }
    destruct (RedditOAuthService.fetchSubredditData s "24h" 25 w)
      as [[snap|e] w1].
    2:{ destruct (Hcatch e w1) as (r & w' & E & message & F & S).
        exists r, w'. split; [exact E|]. right. exists message.
        split; [exact F|]. tauto. }
    destruct (List.length (SubredditData.posts snap) =? 0)%nat.
    { eexists _, w1. split; [reflexivity|]. right. eexists.
      split; [unfold Props.failure_with; cbn; repeat split; discriminate|].
      right. left. split; [reflexivity|].
      unfold Spec.InsufficientContent. cbn. auto. }
    cbv zeta.
    destruct (negb (JS.truthy (Utils.extractRedditContent
                                 (SubredditData.posts snap)
                                 (SubredditData.comments snap)))
              || (String.length (Utils.extractRedditContent
                                   (SubredditData.posts snap)
                                   (SubredditData.comments snap)) <? 100)%nat).
    { eexists _, w1. split; [reflexivity|]. right. eexists.
      split; [unfold Props.failure_with; cbn; repeat split; discriminate|].
      right. left. split; [reflexivity|].
      unfold Spec.InsufficientContent. cbn. auto. }
    destruct (AskQuestion.generateAIResponse q _ s (Spec.model_of request) w1)
      as [[a|e] w2].
    + eexists _, w2. split; [reflexivity|]. left. cbn.
      repeat split. now exists a.
    + destruct (Hcatch e w2) as (r & w' & E & message & F & S).
      exists r, w'. split; [exact E|]. right. exists message.
      split; [exact F|]. tauto.
Qed.

(** X2.  [POST] never throws: it always answers.  The answer is either a
    success (status 200, with the data and no error) or a failure (no data,
    a message that is not empty) of status 400 with one of the two
    validation messages, 404 with one of the two insufficient-content
    messages, or 429, 401 or 500. *)
Theorem POST_envelope (request : AskQuestionRequest.t) (w : World) :
  exists r w',
    AskQuestion.POST request w = (Ok r, w')
    /\ ((AskQuestion.NextResponse.status r = 200%Z
         /\ AskQuestionResponse.success (AskQuestion.NextResponse.body r)
            = true
         /\ AskQuestionResponse.error (AskQuestion.NextResponse.body r)
            = None
         /\ exists a,
              AskQuestionResponse.data (AskQuestion.NextResponse.body r)
              = Some a)
        \/ (exists message,
              Props.failure_with r message
              /\ ((AskQuestion.NextResponse.status r = 400%Z
                   /\ (message = "Subreddit and question are required"
                       \/ message = "Invalid model specified"))
                  \/ (AskQuestion.NextResponse.status r = 404%Z
                      /\ Spec.InsufficientContent r)
                  \/ AskQuestion.NextResponse.status r = 429%Z
                  \/ AskQuestion.NextResponse.status r = 401%Z
                  \/ AskQuestion.NextResponse.status r = 500%Z))).
Proof. exact (POST_outcome request w). Qed.
End Envelope.

Section Success.
Import Net.

(** X3.  [POST] answers with a success only when the request passed the
    checks, the snapshot was fetched with at least one post and the text
    made of it has 100 characters or more.  The answer then has the status
    200, a text that is not empty, exactly one source (the front page of the
    forum), the model of the request, and the one request made after the
    snapshot is the call of the generation service with the prompts built
    from the question and that text. *)
Theorem POST_success (request : AskQuestionRequest.t) (w w' : World)
    (r : AskQuestion.NextResponse.t) :
  AskQuestion.POST request w = (Ok r, w') ->
  AskQuestionResponse.success (AskQuestion.NextResponse.body r) = true ->
  exists subreddit question snap w1 a,
    Spec.admitted request subreddit question
    /\ RedditOAuthService.fetchSubredditData subreddit "24h" 25 w
       = (Ok snap, w1)
    /\ SubredditData.posts snap <> []
    /\ (100 <= String.length
                 (Utils.extractRedditContent (SubredditData.posts snap)
                    (SubredditData.comments snap)))%nat
    /\ AskQuestion.NextResponse.status r = 200%Z
    /\ AskQuestionResponse.data (AskQuestion.NextResponse.body r) = Some a
    /\ AIResponse.answer a <> ""
    /\ AIResponse.sources a
       = [Source.mk ("Recent discussions in r/" ++ subreddit)
                    ("https://reddit.com/r/" ++ subreddit) "post"]
    /\ AIResponse.model a = Spec.model_of request
    /\ Spec.requests w1 w'
         [CompletionRequest (Spec.model_of request)
            (AskQuestion.systemPrompt subreddit)
            (AskQuestion.userPrompt question
               (Utils.extractRedditContent (SubredditData.posts snap)
                  (SubredditData.comments snap))
               subreddit)].
Proof.
  intros E Hsucc.
  destruct (POST_cases request) as [(message & E0 & _) | (s & q & Hadm)].
  { rewrite E0 in E. inversion E; subst. discriminate. }
  rewrite (POST_admitted _ _ _ _ Hadm) in E.
  unfold try_catch, bind in E.
  destruct (RedditOAuthService.fetchSubredditData s "24h" 25 w)
    as [[snap|e] w1] eqn:Ef.
  2:{ inversion E; subst. discriminate. }
  destruct (List.length (SubredditData.posts snap) =? 0)%nat eqn:Hposts.
  { inversion E; subst. discriminate. }
  cbv zeta in E.
  set (redditContent := Utils.extractRedditContent
                          (SubredditData.posts snap)
                          (SubredditData.comments snap)) in *.
  destruct (negb (JS.truthy redditContent)
            || (String.length redditContent <? 100)%nat) eqn:Hshort.
  { inversion E; subst. discriminate. }
  destruct (generateAIResponse_inv q redditContent s (Spec.model_of request) w1)
    as (res & w2 & Eg & Rg & Hg).
  rewrite Eg in E. destruct res as [a|e].
  2:{ inversion E; subst. discriminate. }
  inversion E; subst. clear E.
  destruct (Hg a eq_refl) as (Ha & Hsrc & _ & Hmodel & _).
  exists s, q, snap, w1, a.
  apply orb_false_iff in Hshort as [_ Hlen]. apply Nat.ltb_ge in Hlen.
  split; [exact Hadm|]. split; [exact Ef|].
  split; [intros Hnil; rewrite Hnil in Hposts; discriminate|].
  split; [exact Hlen|]. split; [reflexivity|]. split; [reflexivity|].
  split; [exact Ha|]. split; [exact Hsrc|]. split; [exact Hmodel | exact Rg].
Qed.

Lemma sample_post :
  AskQuestion.POST Runs.question Sample.world
  = (Ok Runs.answer, Runs.after_post).
Proof. vm_compute. reflexivity. Qed.

(** The sample question is answered with one source and 120 tokens. *)
Lemma POST_success_witness :
  exists a,
    AskQuestionResponse.data (AskQuestion.NextResponse.body Runs.answer)
    = Some a
    /\ List.length (AIResponse.sources a) = 1%nat
    /\ AIResponse.tokens_used a = Some 120%Z
    /\ AIResponse.model a = "gpt-4o-mini".
Proof.
  destruct (POST_success Runs.question Sample.world Runs.after_post
              Runs.answer sample_post eq_refl)
    as (s & q & snap & w1 & a & _ & _ & _ & _ & _ & Hd & _ & Hs & Hm & _).
  exists a. split; [exact Hd|].
  split; [now rewrite Hs|].
  split; [|exact Hm].
  cbn in Hd. injection Hd as <-. reflexivity.
Defined.
End Success.

(* ================================================================== *)
(** ** Further properties: how many requests are made *)
(* ================================================================== *)

Section Budget.
Import Net.


Lemma count_app (p : Request -> bool) (t1 t2 : list Request) :
  Props.count p (t1 ++ t2) = (Props.count p t1 + Props.count p t2)%nat.
Proof. unfold Props.count. now rewrite filter_app, length_app. Qed.

Lemma budget_app (a b c d a' b' c' d' : nat) (t1 t2 : list Request) :
  Props.budget a b c d t1 -> Props.budget a' b' c' d' t2 ->
  Props.budget (a + a') (b + b') (c + c') (d + d') (t1 ++ t2).
Proof.
  unfold Props.budget. rewrite !count_app. lia.
Qed.

Lemma budget_weaken (a b c d a' b' c' d' : nat) (t : list Request) :
  Props.budget a b c d t ->
  (a <= a')%nat -> (b <= b')%nat -> (c <= c')%nat -> (d <= d')%nat ->
  Props.budget a' b' c' d' t.
Proof. unfold Props.budget. lia. Qed.

Lemma budget_length (a b c d : nat) (t : list Request) :
  Props.budget a b c d t -> (List.length t <= a + b + c + d)%nat.
Proof.
  assert (H : (List.length t
               = Props.count Props.is_token t + Props.count Props.is_top t
                 + Props.count Props.is_comments t
                 + Props.count is_completion t)%nat).
  { unfold Props.count.
    induction t as [|r t IH]; simpl; [reflexivity|].
    destruct r; simpl; lia. }
  unfold Props.budget. lia.
Qed.

Lemma getAccessToken_budget (w : World) :
  exists res w' tail,
    RedditOAuthService.getAccessToken w = (res, w')
    /\ Spec.requests w w' tail
    /\ Props.budget 1 0 0 0 tail.
Proof.
  destruct (getAccessToken_requests w) as (res & w' & E & [R | R]);
    eexists res, w', _; (split; [exact E|]); (split; [exact R|]);
    unfold Props.budget, Props.count; simpl; lia.
Qed.

Lemma fetchComments_budget (submissionId : string) (limit : Z) (w : World) :
  exists comments w' tail,
    RedditOAuthService.fetchComments submissionId limit w = (Ok comments, w')
    /\ Spec.requests w w' tail
    /\ Props.budget 1 0 1 0 tail.
Proof.
  unfold RedditOAuthService.fetchComments,
    RedditOAuthService.fetchComments_try, try_catch, bind.
  destruct (getAccessToken_budget w) as (res & w1 & t1 & E1 & R1 & B1).
  rewrite E1.
  assert (B1' : Props.budget 1 0 1 0 t1)
    by (eapply budget_weaken; [exact B1 | lia ..]).
  destruct res as [tok|e]; simpl.
  2:{ exists [], w1, t1. split; [reflexivity|]. split; assumption. }
  destruct (fetch_inv (CommentsRequest submissionId limit tok) w1)
    as (res & w2 & E2 & R2 & _).
  rewrite E2.
  assert (R : Spec.requests w w2
                (t1 ++ [CommentsRequest submissionId limit tok]))
    by (eapply requests_trans; eassumption).
  assert (B : Props.budget 1 0 1 0
                (t1 ++ [CommentsRequest submissionId limit tok])).
  { apply (budget_app 1 0 0 0 0 0 1 0); [exact B1|].
    unfold Props.budget, Props.count. simpl. lia. }
  destruct res as [resp|e]; simpl.
  2:{ eexists [], w2, _. split; [reflexivity|]. split; eassumption. }
  destruct (negb (ok resp)); simpl.
  { eexists [], w2, _. split; [reflexivity|]. split; eassumption. }
  unfold json.
  destruct (body resp) as [a|c|[listing|]|]; simpl;
    (eexists _, w2, _; split; [reflexivity|]; split; eassumption).
Qed.

Local Opaque Nat.min Nat.mul Nat.sub.

Lemma processSubmissions_budget (children : list Submission.t) :
  forall (posts : list RedditPost.t) (allComments : list RedditComment.t)
         (w : World),
  exists res w' tail,
    RedditOAuthService.processSubmissions children posts allComments w
    = (res, w')
    /\ Spec.requests w w' tail
    /\ Props.budget (5 - Nat.min 5 (List.length posts)) 0
                    (5 - Nat.min 5 (List.length posts)) 0 tail.
Proof.
  induction children as [|post rest IH]; intros posts allComments w.
  - simpl. exists (Ok (posts, allComments)), w, [].
    split; [reflexivity|]. split; [apply requests_refl|].
    unfold Props.budget, Props.count. simpl. lia.
  - simpl. destruct (Submission.stickied post); simpl; [apply IH|].
    rewrite length_app. simpl.
    destruct (Nat.leb_spec (List.length posts + 1) 5) as [Hle | Hgt].
    + unfold bind at 1. unfold try_catch, bind at 1.
      destruct (fetchComments_budget (Submission.id post) 10 w)
        as (cs & w1 & t1 & E1 & R1 & B1).
      rewrite E1. simpl.
      destruct (IH (posts ++ [RedditOAuthService.toPost post])
                   (allComments ++ cs) w1)
        as (res & w' & t2 & E2 & R2 & B2).
      exists res, w', (t1 ++ t2). split; [exact E2|].
      split; [eapply requests_trans; eassumption|].
      rewrite length_app in B2. cbn [List.length] in B2.
      eapply budget_weaken;
        [exact (budget_app _ _ _ _ _ _ _ _ _ _ B1 B2) | lia ..].
    + destruct (IH (posts ++ [RedditOAuthService.toPost post])
                   allComments w)
        as (res & w' & t2 & E2 & R2 & B2).
      exists res, w', t2. split; [exact E2|]. split; [exact R2|].
      rewrite length_app in B2. cbn [List.length] in B2.
      eapply budget_weaken; [exact B2 | lia ..].
Qed.

Local Transparent Nat.min Nat.mul Nat.sub.

Lemma fetchSubredditData_budget
    (subreddit timeframe : string) (limit : Z) (w : World) :
  exists res w' tail,
    RedditOAuthService.fetchSubredditData subreddit timeframe limit w
    = (res, w')
    /\ Spec.requests w w' tail
    /\ Props.budget 6 1 5 0 tail.
Proof.
  destruct (RedditOAuthService.fetchSubredditData subreddit timeframe limit w)
    as [res w'] eqn:E.
  exists res, w'.
  unfold RedditOAuthService.fetchSubredditData, try_catch, bind in E.
  destruct (getAccessToken_budget w) as (r1 & w1 & t1 & E1 & R1 & B1).
  rewrite E1 in E.
  assert (B1' : Props.budget 6 1 5 0 t1)
    by (eapply budget_weaken; [exact B1 | lia ..]).
  destruct r1 as [tok|e].
  2:{ inversion E; subst. eexists. (split; [first [eassumption | reflexivity]|]; split; eassumption). }
  destruct (fetch_inv
              (RedditOAuthService.topRequest subreddit timeframe limit tok) w1)
    as (r2 & w2 & E2 & R2 & _).
  rewrite E2 in E.
  assert (R : Spec.requests w w2
                (t1 ++ [RedditOAuthService.topRequest
                          subreddit timeframe limit tok]))
    by (eapply requests_trans; eassumption).
  assert (B : Props.budget 1 1 0 0
                (t1 ++ [RedditOAuthService.topRequest
                          subreddit timeframe limit tok])).
  { apply (budget_app 1 0 0 0 0 1 0 0); [exact B1|].
    unfold Props.budget, Props.count. simpl. lia. }
  assert (B' : Props.budget 6 1 5 0
                 (t1 ++ [RedditOAuthService.topRequest
                           subreddit timeframe limit tok]))
    by (eapply budget_weaken; [exact B | lia ..]).
  destruct r2 as [resp|e].
  2:{ inversion E; subst. eexists. (split; [first [eassumption | reflexivity]|]; split; eassumption). }
  destruct (ok resp) eqn:Hok; simpl in E.
  2:{ destruct (status resp =? 404)%Z;
        [inversion E; subst; eexists; (split; [first [eassumption | reflexivity]|]; split; eassumption)|].
      destruct (status resp =? 403)%Z; inversion E; subst; eexists;
        (split; [first [eassumption | reflexivity]|]; split; eassumption). }
  unfold json in E.
  destruct (body resp) as [a|[children|]|c|] eqn:Hbody; simpl in E;
    try (inversion E; subst; eexists; (split; [first [eassumption | reflexivity]|]; split; eassumption)).
  destruct (processSubmissions_budget (JS.slice0 limit children) [] [] w2)
    as (r3 & w3 & t3 & E3 & R3 & B3).
  rewrite E3 in E. simpl in B3.
  assert (Hw : w' = w3).
  { destruct r3 as [[ps cs]|e]; simpl in E; now inversion E. }
  subst w3.
  exists ((t1 ++ [RedditOAuthService.topRequest subreddit timeframe limit tok])
          ++ t3).
  split; [reflexivity|].
  split; [eapply requests_trans; eassumption|].
  exact (budget_app 1 1 0 0 5 0 5 0 _ _ B B3).
Qed.

(** X4.  Answering one question takes at most 13 requests: at most 6 for
    a token, at most one for the listing, at most 5 for comments and at most
    one call of the generation service.  Nothing is retried. *)
Theorem POST_budget (request : AskQuestionRequest.t) (w : World) :
  exists r w' tail,
    AskQuestion.POST request w = (Ok r, w')
    /\ Spec.requests w w' tail
    /\ Props.budget 6 1 5 1 tail
    /\ (List.length tail <= 13)%nat.
Proof.
  assert (H : exists r w' tail,
             AskQuestion.POST request w = (Ok r, w')
             /\ Spec.requests w w' tail
             /\ Props.budget 6 1 5 1 tail).
  { destruct (POST_cases request) as [(message & E & _) | (s & q & Hadm)].
    - eexists _, w, []. split; [apply E|].
      split; [apply requests_refl|].
      unfold Props.budget, Props.count. simpl. lia.
    - rewrite (POST_admitted _ _ _ _ Hadm). unfold try_catch, bind.
      destruct (fetchSubredditData_budget s "24h" 25 w)
        as (res & w1 & t1 & E1 & R1 & B1).
      rewrite E1.
      assert (B1' : Props.budget 6 1 5 1 t1)
        by (eapply budget_weaken; [exact B1 | lia ..]).
      destruct res as [snap|e].
      2:{ eexists _, w1, t1. (split; [first [eassumption | reflexivity]|]; split; eassumption). }
      destruct (List.length (SubredditData.posts snap) =? 0)%nat.
      { eexists _, w1, t1. (split; [first [eassumption | reflexivity]|]; split; eassumption). }
      cbv zeta.
      destruct (negb _ || _).
      { eexists _, w1, t1. (split; [first [eassumption | reflexivity]|]; split; eassumption). }
      destruct (generateAIResponse_inv q
                  (Utils.extractRedditContent (SubredditData.posts snap)
                     (SubredditData.comments snap))
                  s (Spec.model_of request) w1)
        as (res & w2 & Eg & Rg & _).
      rewrite Eg.
      assert (B : Props.budget 6 1 5 1
                    (t1 ++ [CompletionRequest (Spec.model_of request)
                              (AskQuestion.systemPrompt s)
                              (AskQuestion.userPrompt q
                                 (Utils.extractRedditContent
                                    (SubredditData.posts snap)
                                    (SubredditData.comments snap)) s)])).
      { apply (budget_app 6 1 5 0 0 0 0 1); [exact B1|].
        unfold Props.budget, Props.count. simpl. lia. }
      destruct res as [a|e]; eexists _, w2, _;
        (split; [reflexivity|]);
        (split; [eapply requests_trans; eassumption | exact B]). }
  destruct H as (r & w' & tail & E & R & B).
  exists r, w', tail. repeat split; try assumption.
  all: try apply B.
  apply (budget_length _ _ _ _ _ B).
Qed.
End Budget.

(* ================================================================== *)
(** ** Further properties: where a word can occur in a message *)
(* ================================================================== *)

Section Includes.

Lemma includes_cons (c : ascii) (t sub : string) :
  JS.includes (String c t) sub
  = String.prefix sub (String c t) || JS.includes t sub.
Proof. reflexivity. Qed.

Lemma includes_empty (sub : string) :
  JS.includes "" sub = negb (JS.truthy sub).
Proof. now destruct sub. Qed.

Lemma prefix_app_mono (sub t b : string) :
  String.prefix sub t = true -> String.prefix sub (t ++ b) = true.
Proof.
  revert t. induction sub as [|a sub IH]; intros t H.
  - apply prefix_nil.
  - destruct t as [|c t]; [discriminate|].
    change (String.prefix (String a sub) (String c (t ++ b)) = true).
    rewrite prefix_cons in *.
    apply andb_true_iff in H as [-> H]. now rewrite (IH _ H).
Qed.

(** A text that begins [t ++ b] begins [t], or goes on into [b]. *)
Lemma prefix_app_split (sub t b : string) :
  t <> "" -> String.prefix sub (t ++ b) = true ->
  String.prefix sub t = true
  \/ exists v, In v (Props.tails sub) /\ JS.truthy v = true
               /\ String.prefix v b = true.
Proof.
  revert t. induction sub as [|a sub IH]; intros t Ht H.
  - left. apply prefix_nil.
  - destruct t as [|c t]; [congruence|].
    change (String.prefix (String a sub) (String c (t ++ b)) = true) in H.
    rewrite prefix_cons in H. apply andb_true_iff in H as [Hc H].
    destruct t as [|c' t].
    + simpl in H. destruct sub as [|a' sub].
      * left. rewrite prefix_cons, Hc. reflexivity.
      * right. exists (String a' sub). split; [now left|]. now split.
    + destruct (IH (String c' t)) as [Hp | (v & Hin & Hv)];
        [discriminate | exact H | |].
      * left. rewrite prefix_cons, Hc. exact Hp.
      * right. exists v. split; [now right | exact Hv].
Qed.

(** Two texts that begin the same text: one begins the other. *)
Lemma prefix_comparable (sub t x : string) :
  String.prefix sub (t ++ x) = true ->
  String.prefix sub t = true \/ String.prefix t sub = true.
Proof.
  revert t. induction sub as [|a sub IH]; intros t H.
  - left. apply prefix_nil.
  - destruct t as [|c t]; [right; reflexivity|].
    change (String.prefix (String a sub) (String c (t ++ x)) = true) in H.
    rewrite prefix_cons in H. apply andb_true_iff in H as [Hc H].
    apply Ascii.eqb_eq in Hc. subst c.
    rewrite !prefix_cons, Ascii.eqb_refl. simpl. now apply IH.
Qed.

Lemma includes_app_tail (sub b s : string) :
  Props.straddles sub b = false ->
  JS.includes (s ++ b) sub = JS.includes s sub || JS.includes b sub.
Proof.
  intros Hs. induction s as [|c s IH].
  - simpl (""%string ++ b)%string. rewrite includes_empty.
    destruct sub as [|a sub]; [now destruct b|]. reflexivity.
  - change (String c s ++ b)%string with (String c (s ++ b)).
    rewrite !includes_cons, IH.
    destruct (String.prefix sub (String c s)) eqn:Hp.
    + change (String c (s ++ b)) with (String c s ++ b)%string.
      now rewrite (prefix_app_mono _ _ b Hp).
    + destruct (String.prefix sub (String c (s ++ b))) eqn:Hq;
        [|now rewrite orb_assoc].
      exfalso.
      destruct (prefix_app_split sub (String c s) b) as [H | (v & Hin & Hv & Hb)];
        [discriminate | exact Hq | congruence |].
      unfold Props.straddles in Hs.
      assert (Hex : existsb (fun v => JS.truthy v && String.prefix v b)
                      (Props.tails sub) = true).
      { apply existsb_exists. exists v. split; [exact Hin|].
        now rewrite Hv, Hb. }
      congruence.
Qed.

Lemma includes_app_head (a sub x : string) :
  Props.overlaps a sub = false ->
  JS.includes (a ++ x) sub = JS.includes x sub.
Proof.
  induction a as [|c a IH]; intros Ho; [reflexivity|].
  change (String c a ++ x)%string with (String c (a ++ x)).
  rewrite includes_cons.
  unfold Props.overlaps in Ho. cbn [Props.tails existsb] in Ho.
  apply orb_false_iff in Ho as [Hc Ho].
  rewrite IH by exact Ho.
  destruct (String.prefix sub (String c (a ++ x))) eqn:Hq; [|reflexivity].
  exfalso.
  destruct (prefix_comparable sub (String c a) x Hq) as [H | H];
    cbn [JS.truthy String.eqb negb andb] in Hc; rewrite H in Hc;
    [rewrite orb_true_r in Hc|]; discriminate.
Qed.

(** Where a word can occur in [a ++ s ++ b]: in [s] or in [b], when it
    cannot begin in [a] and cannot run over into [b]. *)
Lemma includes_sandwich (a b sub s : string) :
  Props.overlaps a sub = false ->
  Props.straddles sub b = false ->
  JS.includes (a ++ s ++ b) sub = JS.includes s sub || JS.includes b sub.
Proof.
  intros Ha Hb. now rewrite includes_app_head, includes_app_tail.
Qed.
End Includes.

(* ================================================================== *)
(** ** Further properties: a listing the forum refuses *)
(* ================================================================== *)

Section Refused.
Import Net.

(** When the forum answers the listing request with a status outside
    200..299, [fetchSubredditData] throws, having made that one request
    after the token was there and none for comments. *)
Lemma listing_refused
    (subreddit timeframe : string) (limit : Z) (w w1 : World) (tok : string)
    (d st : Z) (txt : string) (b : Payload) (rest : list Reply) :
  RedditOAuthService.getAccessToken w = (Ok tok, w1) ->
  reddit w1 = Http d st txt b :: rest ->
  (st < 200 \/ 299 < st)%Z ->
  exists message w',
    RedditOAuthService.fetchSubredditData subreddit timeframe limit w
    = (Throw (JsError.Error message), w')
    /\ Spec.requests w1 w'
         [RedditOAuthService.topRequest subreddit timeframe limit tok]
    /\ reddit w' = rest
    /\ (st = 404%Z ->
        message = ("Subreddit r/" ++ subreddit ++ " not found")%string)
    /\ (st = 403%Z ->
        message
        = ("Subreddit r/" ++ subreddit ++ " is private or banned")%string)
    /\ (st <> 404%Z -> st <> 403%Z ->
        message
        = ("Reddit API error: " ++ JS.toString st ++ " " ++ txt)%string).
Proof.
  intros Htok Hreply Hst.
  unfold RedditOAuthService.fetchSubredditData, try_catch, bind.
  rewrite Htok.
  unfold fetch at 1. cbn [logged reddit]. rewrite Hreply.
  assert (Hok : ok (mkResponse st txt b) = false).
  { unfold ok. cbn [status]. destruct Hst as [H | H].
    - apply andb_false_iff. left. now apply Z.leb_gt.
    - apply andb_false_iff. right. now apply Z.leb_gt. }
  rewrite Hok. cbn [negb status statusText].
  destruct (Z.eqb_spec st 404) as [E404 | N404].
  { eexists _, _. split; [reflexivity|]. split; [reflexivity|].
    split; [reflexivity|]. split; [reflexivity|].
    split; intros; [lia | congruence]. }
  destruct (Z.eqb_spec st 403) as [E403 | N403].
  { eexists _, _. split; [reflexivity|]. split; [reflexivity|].
    split; [reflexivity|]. split; [congruence|].
    split; intros; [reflexivity | congruence]. }
  eexists _, _. split; [reflexivity|]. split; [reflexivity|].
  split; [reflexivity|]. split; [congruence|].
  split; [congruence | reflexivity].
Qed.

Lemma strict_token_run :
  RedditOAuthService.getAccessToken Sample.strict_world
  = (Ok "tok", Runs.strict_token).
Proof. vm_compute. reflexivity. Qed.

Lemma strict_token_reply :
  reddit Runs.strict_token = [Http 40 404 "Not Found" NotJson].
Proof. vm_compute. reflexivity. Qed.

Lemma plain_message (subreddit b : string) :
  Props.plain subreddit ->
  Props.straddles "OpenAI" b = false -> JS.includes b "OpenAI" = false ->
  Props.straddles "quota" b = false -> JS.includes b "quota" = false ->
  Props.straddles "API key" b = false -> JS.includes b "API key" = false ->
  let error := JsError.Error ("Subreddit r/" ++ subreddit ++ b) in
  Utils.handleApiError error
  = AppError.mk ("Subreddit r/" ++ subreddit ++ b) "unknown"
  /\ AskQuestion.error_status error = 500%Z.
Proof.
  intros (Ho & Hq & Hk) So Io Sq Iq Sk Ik error.
  unfold Utils.handleApiError, AskQuestion.error_status, error.
  cbn [JsError.Error JsError.response_status JsError.code JsError.status
       JsError.message].
  rewrite (includes_sandwich "Subreddit r/" b "OpenAI") by
    (first [reflexivity | assumption]).
  rewrite (includes_sandwich "Subreddit r/" b "quota") by
    (first [reflexivity | assumption]).
  rewrite (includes_sandwich "Subreddit r/" b "API key") by
    (first [reflexivity | assumption]).
  rewrite Ho, Hq, Hk, Io, Iq, Ik. cbn [orb].
  split; reflexivity.
Qed.

(** X5.  The question route answers 500 for a forum that does not exist or
    is private: when the forum answers the listing request with 404 or 403,
    the response carries the message that names the forum and the status
    500, and the generation service is not called.  (The forum name is one
    in which none of the words occurs that the error handling looks for.) *)
Theorem POST_listing_refused
    (request : AskQuestionRequest.t) (subreddit question : string)
    (w w1 : World) (tok : string)
    (d st : Z) (txt : string) (b : Payload) (rest : list Reply) :
  Spec.admitted request subreddit question ->
  Props.plain subreddit ->
  RedditOAuthService.getAccessToken w = (Ok tok, w1) ->
  reddit w1 = Http d st txt b :: rest ->
  st = 404%Z \/ st = 403%Z ->
  exists w',
    AskQuestion.POST request w
    = (Ok (AskQuestion.failure
             ("Subreddit r/" ++ subreddit
              ++ (if (st =? 404)%Z then " not found"
                  else " is private or banned"))
             500), w')
    /\ Spec.requests w1 w'
         [RedditOAuthService.topRequest subreddit "24h" 25 tok].
Proof.
  intros Hadm Hplain Htok Hreply Hst.
  destruct (listing_refused subreddit "24h" 25 w w1 tok d st txt b
              rest Htok Hreply ltac:(lia))
    as (message & w' & E & R & _ & H404 & H403 & _).
  exists w'. split; [|exact R].
  rewrite (POST_admitted _ _ _ _ Hadm). unfold try_catch, bind.
  rewrite E. unfold ret.
  assert (Hm : message = ("Subreddit r/" ++ subreddit
                          ++ (if (st =? 404)%Z then " not found"
                              else " is private or banned"))%string).
  { destruct Hst as [-> | ->]; [apply H404 | apply H403]; reflexivity. }
  rewrite Hm.
  destruct (plain_message subreddit
              (if (st =? 404)%Z then " not found" else " is private or banned")
              Hplain) as [Hh Hs];
    try (destruct Hst as [-> | ->]; reflexivity).
  rewrite Hh, Hs. reflexivity.
Qed.

Lemma sample_question_admitted :
  Spec.admitted Runs.question "technology" "What is new?".
Proof.
  repeat split; try discriminate. simpl. now left.
Qed.

Lemma POST_listing_refused_witness :
  exists w',
    AskQuestion.POST Runs.question Sample.strict_world
    = (Ok (AskQuestion.failure "Subreddit r/technology not found" 500), w').
Proof.
  destruct (POST_listing_refused Runs.question "technology" "What is new?"
              Sample.strict_world Runs.strict_token "tok" 40 404 "Not Found"
              NotJson [] sample_question_admitted
              (conj eq_refl (conj eq_refl eq_refl))
              strict_token_run strict_token_reply (or_introl eq_refl))
    as (w' & E & _).
  exists w'. exact E.
Defined.
End Refused.

(* ================================================================== *)
(** ** Further properties: a token that cannot be had *)
(* ================================================================== *)

Section TokenFailure.
Import Net.

Lemma cached_later (tok : option string) (exp : option Z) (now now' : Z) :
  RedditOAuthService.cached tok exp now = None -> (now <= now')%Z ->
  RedditOAuthService.cached tok exp now' = None.
Proof.
  unfold RedditOAuthService.cached.
  destruct tok as [t|]; [|reflexivity]. destruct exp as [e|]; [|reflexivity].
  destruct (JS.truthy t); simpl; [|reflexivity].
  destruct (Z.ltb_spec now e); [discriminate|]. intros _ H'.
  destruct (Z.ltb_spec now' e); [lia | reflexivity].
Qed.

(** X6.  When [getAccessToken] throws, it has made exactly one token
    request, the error is a plain one whose message begins with the words of
    the [catch], the expiry is the one it found, and nothing usable is
    cached: as long as the clock has not gone back, the next call finds no
    valid token. *)
Theorem getAccessToken_failure (w w' : World) (e : JsError.t) :
  RedditOAuthService.getAccessToken w = (Throw e, w') ->
  Spec.requests w w' [TokenRequest]
  /\ (exists cause,
        e = JsError.Error
              ("Failed to authenticate with Reddit API: " ++ cause)%string)
  /\ tokenExpiry w' = tokenExpiry w
  /\ ((clock w <= clock w')%Z ->
      RedditOAuthService.cached (accessToken w') (tokenExpiry w') (clock w')
      = None).
Proof.
  unfold RedditOAuthService.getAccessToken, try_catch, bind,
    get_accessToken, get_tokenExpiry, Date_now.
  destruct (RedditOAuthService.cached (accessToken w) (tokenExpiry w)
              (clock w)) as [t|] eqn:Hc; [discriminate|].
  unfold fetch. cbn [logged reddit clock openai log accessToken tokenExpiry].
  destruct (reddit w) as [|[d msg|d st txt b] rest]; cbn [tick].
  - intros [= <- <-]. cbn. split; [reflexivity|].
    split; [now eexists|]. split; [reflexivity|].
    intros _. exact Hc.
  - intros [= <- <-]. cbn. split; [reflexivity|].
    split; [now eexists|]. split; [reflexivity|].
    intros H. now apply (cached_later _ _ _ _ Hc).
  - destruct (negb (ok (mkResponse st txt b))).
    + intros [= <- <-]. cbn. split; [reflexivity|].
      split; [now eexists|]. split; [reflexivity|].
      intros H. now apply (cached_later _ _ _ _ Hc).
    + unfold json. cbn [body].
      destruct b as [[a|]|c|c|]; cbn.
      * destruct (JS.truthy a) eqn:Ha; cbn; [discriminate|].
        intros [= <- <-]. cbn. split; [reflexivity|].
        split; [now eexists|]. split; [reflexivity|].
        intros _. unfold RedditOAuthService.cached. rewrite Ha.
        now destruct (tokenExpiry w).
      * intros [= <- <-]. cbn. split; [reflexivity|].
        split; [now eexists|]. split; [reflexivity|]. reflexivity.
      * intros [= <- <-]. cbn. split; [reflexivity|].
        split; [now eexists|]. split; [reflexivity|]. reflexivity.
      * intros [= <- <-]. cbn. split; [reflexivity|].
        split; [now eexists|]. split; [reflexivity|]. reflexivity.
      * intros [= <- <-]. cbn. split; [reflexivity|].
        split; [now eexists|]. split; [reflexivity|].
        intros H. now apply (cached_later _ _ _ _ Hc).
Qed.
Lemma down_run :
  RedditOAuthService.getAccessToken Runs.down_world
  = (Throw Runs.down_error, Runs.down_after).
Proof. vm_compute. reflexivity. Qed.

Lemma getAccessToken_failure_witness :
  Spec.requests Runs.down_world Runs.down_after [TokenRequest]
  /\ RedditOAuthService.cached (accessToken Runs.down_after)
       (tokenExpiry Runs.down_after) (clock Runs.down_after) = None.
Proof.
  destruct (getAccessToken_failure Runs.down_world Runs.down_after
              Runs.down_error down_run) as (R & _ & _ & H).
  split; [exact R|]. apply H. vm_compute. discriminate.
Defined.
End TokenFailure.

(* ================================================================== *)
(** ** Further properties: the two fetchers *)
(* ================================================================== *)

Section SortFilter.
Context {A : Type} (score : A -> Z) (p : A -> bool).

Lemma insert_head (x : A) (l : list A) :
  Forall (fun z => (score z <= score x)%Z) l ->
  JS.insert (Spec.by_desc score) x l = x :: l.
Proof.
  intros H. destruct l as [|y l]; [reflexivity|].
  inversion H as [|? ? Hy _]; subst. simpl. unfold Spec.by_desc.
  destruct (Z.ltb_spec 0 (score y - score x)); [lia | reflexivity].
Qed.

Lemma filter_insert (x : A) (l : list A) :
  Spec.descending score l ->
  filter p (JS.insert (Spec.by_desc score) x l)
  = if p x then JS.insert (Spec.by_desc score) x (filter p l)
    else filter p l.
Proof.
  unfold Spec.descending.
  induction l as [|y l IH]; intros Hs.
  - simpl. now destruct (p x).
  - inversion Hs as [|? ? Hl Hy]; subst.
    cbn [JS.insert]. unfold Spec.by_desc at 1.
    destruct (Z.ltb_spec 0 (score y - score x)) as [Hlt | Hge].
    + cbn [filter]. rewrite (IH Hl).
      destruct (p x), (p y); try reflexivity.
      cbn [JS.insert]. unfold Spec.by_desc at 2.
      destruct (Z.ltb_spec 0 (score y - score x)); [reflexivity | lia].
    + change (filter p (x :: y :: l))
        with (if p x then x :: filter p (y :: l) else filter p (y :: l)).
      destruct (p x); [|reflexivity].
      symmetry. apply insert_head.
      apply Forall_forall. intros z Hz. apply filter_In in Hz as [Hz _].
      destruct Hz as [<- | Hz]; [lia|].
      rewrite Forall_forall in Hy. specialize (Hy z Hz). simpl in Hy. lia.
Qed.

(** Sorting by score and then filtering is filtering and then sorting. *)
Lemma filter_sort (l : list A) :
  filter p (JS.sort (Spec.by_desc score) l)
  = JS.sort (Spec.by_desc score) (filter p l).
Proof.
  induction l as [|x l IH]; [reflexivity|].
  cbn [JS.sort]. rewrite filter_insert by apply sort_descending.
  cbn [filter]. destruct (p x); [cbn [JS.sort]; now rewrite IH | exact IH].
Qed.
End SortFilter.

Section Routes.
Import Net.

Lemma fetchComments_routes (submissionId : string) (limit : Z) (w : World) :
  (0 <= limit)%Z ->
  exists comments w',
    RedditData.fetchComments submissionId limit w = (Ok comments, w')
    /\ RedditOAuthService.fetchComments submissionId limit w
       = (Ok (filter Spec.positive comments), w').
Proof.
  intros Hl.
  unfold RedditData.fetchComments, RedditOAuthService.fetchComments,
    RedditOAuthService.fetchComments_try, try_catch, bind.
  destruct (RedditOAuthService.getAccessToken w) as [[tok|e] w1];
    [|now exists [], w1].
  destruct (fetch _ w1) as [[resp|e] w2]; [|now exists [], w2].
  destruct (negb (ok resp)); [now exists [], w2|].
  unfold json.
  destruct (body resp) as [a|c|[listing|]|]; cbn;
    try (now exists [], w2).
  eexists _, w2. split; [reflexivity|].
  now rewrite selectComments_cap_then_filter.
Qed.

Lemma processSubmissions_routes (children : list Submission.t) :
  forall (posts : list RedditPost.t) (allComments : list RedditComment.t)
         (w : World),
  exists filled comments w',
    RedditDataRoute.processSubmissions children posts allComments w
    = (Ok (filled, comments), w')
    /\ RedditOAuthService.processSubmissions children posts
         (filter Spec.positive allComments) w
       = (Ok (filled, filter Spec.positive comments), w').
Proof.
  induction children as [|post rest IH]; intros posts allComments w.
  - now exists posts, allComments, w.
  - cbn [RedditDataRoute.processSubmissions
         RedditOAuthService.processSubmissions].
    destruct (negb (Submission.stickied post)); [|apply IH].
    destruct (List.length (posts ++ [RedditOAuthService.toPost post]) <=? 5)%nat;
      [|apply IH].
    unfold bind at 1 3. unfold try_catch, bind.
    destruct (fetchComments_routes (Submission.id post) 10 w ltac:(lia))
      as (cs & w1 & E1 & E2).
    rewrite E1, E2. cbn [ret].
    destruct (IH (posts ++ [RedditOAuthService.toPost post])
                 (allComments ++ cs) w1) as (filled & comments & w' & F1 & F2).
    exists filled, comments, w'. split; [exact F1|].
    rewrite filter_app in F2. exact F2.
Qed.

Lemma extractRedditContent_positive
    (posts : list RedditPost.t) (comments : list RedditComment.t) :
  Utils.extractRedditContent posts (filter Spec.positive comments)
  = Utils.extractRedditContent posts comments.
Proof.
  unfold Utils.extractRedditContent, Utils.commentContent,
    Utils.selectedComments.
  replace (filter Utils.comment_filter (filter Spec.positive comments))
    with (filter Utils.comment_filter comments); [reflexivity|].
  induction comments as [|c cs IH]; [reflexivity|].
  cbn [filter].
  destruct (Spec.positive c) eqn:Hs.
  - cbn [filter]. now rewrite IH.
  - assert (Hc : Utils.comment_filter c = false).
    { unfold Utils.comment_filter. unfold Spec.positive in Hs.
      rewrite Hs. apply andb_false_r. }
    rewrite Hc. exact IH.
Qed.

(** The fetcher of the question route is the fetcher of the data route
    followed by the removal of the comments of score 0 or less. *)
Lemma fetchers_run (subreddit timeframe : string) (limit : Z) (w : World) :
  RedditOAuthService.fetchSubredditData subreddit timeframe limit w
  = match RedditDataRoute.fetchTopSubmissions subreddit timeframe limit w with
    | (Ok (posts, comments), w') =>
        (Ok (SubredditData.mk posts (filter Spec.positive comments)
                              subreddit (clock w')), w')
    | (Throw e, w') => (Throw e, w')
    end.
Proof.
  unfold RedditOAuthService.fetchSubredditData,
    RedditDataRoute.fetchTopSubmissions, try_catch, bind.
  destruct (RedditOAuthService.getAccessToken w) as [[tok|e] w1];
    [|reflexivity].
  destruct (fetch _ w1) as [[resp|e] w2]; [|reflexivity].
  destruct (negb (ok resp)).
  { destruct (status resp =? 404)%Z; [reflexivity|].
    destruct (status resp =? 403)%Z; reflexivity. }
  unfold json.
  destruct (body resp) as [a|[children|]|c|]; cbn; try reflexivity.
  destruct (processSubmissions_routes (JS.slice0 limit children) [] [] w2)
    as (filled & comments & w' & F1 & F2).
  cbn [filter] in F2. rewrite F1, F2. cbn.
  change RedditOAuthService.by_score_desc_comment
    with (Spec.by_desc RedditComment.score).
  now rewrite filter_sort.
Qed.

(** X7.  The fetcher of the question route is the fetcher of the data
    route followed by the removal of the comments of score 0 or less: run
    from the same state, the two fail alike, with the same error, or succeed
    alike, with the same posts, the same requests made and the same state
    left; and the text drawn from the two results for the prompt is the
    same. *)
Theorem fetchers_agree (subreddit timeframe : string) (limit : Z) (w : World) :
  RedditOAuthService.fetchSubredditData subreddit timeframe limit w
  = match RedditDataRoute.fetchTopSubmissions subreddit timeframe limit w with
    | (Ok (posts, comments), w') =>
        (Ok (SubredditData.mk posts (filter Spec.positive comments)
                              subreddit (clock w')), w')
    | (Throw e, w') => (Throw e, w')
    end
  /\ forall posts comments,
       Utils.extractRedditContent posts (filter Spec.positive comments)
       = Utils.extractRedditContent posts comments.
Proof.
  split; [apply fetchers_run | apply extractRedditContent_positive].
Qed.
End Routes.

(* ================================================================== *)
(** ** Further properties: the data route *)
(* ================================================================== *)

Section DataRoute.
Import Net.

Lemma comment_traffic_limit (ids : list string) (lo hi : Z) (r : Request) :
  Spec.comment_traffic ids r -> Props.limit_within lo hi r.
Proof. destruct r; simpl; tauto. Qed.

Lemma fetchSubredditData_shape
    (subreddit timeframe : string) (limit : Z) (w : World) :
  (0 <= limit)%Z ->
  exists res w' tail,
    RedditOAuthService.fetchSubredditData subreddit timeframe limit w
      = (res, w')
    /\ Spec.requests w w' tail
    /\ Forall (Props.limit_within limit limit) tail
    /\ (forall snap, res = Ok snap ->
          (List.length (SubredditData.posts snap) <= Z.to_nat limit)%nat
          /\ SubredditData.subreddit snap = subreddit
          /\ SubredditData.fetchedAt snap = clock w').
Proof.
  intros Hl.
  destruct (RedditOAuthService.fetchSubredditData subreddit timeframe limit w)
    as [res w'] eqn:E.
  exists res, w'.
  pose proof E as E0.
  unfold RedditOAuthService.fetchSubredditData, try_catch, bind in E.
  destruct (getAccessToken_requests w) as (r1 & w1 & E1 & L1).
  rewrite E1 in E.
  assert (T1 : exists t1, Spec.requests w w1 t1
                          /\ Forall (Props.limit_within limit limit) t1).
  { destruct L1 as [L1 | L1]; eexists; (split; [exact L1|]);
      repeat constructor. }
  destruct T1 as (t1 & R1 & F1).
  destruct r1 as [tok|e].
  2:{ inversion E; subst. exists t1. split; [reflexivity|].
      split; [exact R1|]. split; [exact F1 | discriminate]. }
  destruct (fetch_inv
              (RedditOAuthService.topRequest subreddit timeframe limit tok) w1)
    as (r2 & w2 & E2 & L2 & _).
  rewrite E2 in E.
  assert (R2 : Spec.requests w w2
                 (t1 ++ [RedditOAuthService.topRequest
                           subreddit timeframe limit tok]))
    by (eapply requests_trans; eassumption).
  assert (F2 : Forall (Props.limit_within limit limit)
                 (t1 ++ [RedditOAuthService.topRequest
                           subreddit timeframe limit tok])).
  { apply Forall_app. split; [exact F1|]. constructor; [|constructor].
    simpl. lia. }
  destruct r2 as [resp|e].
  2:{ inversion E; subst. eexists. split; [reflexivity|].
      split; [exact R2|]. split; [exact F2 | discriminate]. }
  destruct (ok resp) eqn:Hok; simpl in E.
  2:{ assert (Hthrow : exists e, res = Throw e /\ w' = w2).
      { destruct (status resp =? 404)%Z; [inversion E; eauto|].
        destruct (status resp =? 403)%Z; inversion E; eauto. }
      destruct Hthrow as (e & -> & ->).
      eexists. split; [reflexivity|].
      split; [exact R2|]. split; [exact F2 | discriminate]. }
  unfold json in E.
  destruct (body resp) as [a|[children|]|c|] eqn:Hbody; simpl in E;
    try (inversion E; subst; eexists; split; [reflexivity|];
         split; [exact R2|]; split; [exact F2 | discriminate]).
  destruct (fetchSubredditData_listing subreddit timeframe limit w w1 w2 tok
              resp children E1 E2 Hok Hbody)
    as (comments & w3 & t3 & _ & E3 & _ & R3 & F3).
  rewrite E3 in E0. injection E0 as <- <-.
  eexists. split; [reflexivity|].
  split; [eapply requests_trans; eassumption|].
  split.
  { apply Forall_app. split; [exact F2|].
    eapply Forall_impl; [|exact F3].
    intros r. apply comment_traffic_limit. }
  intros snap [= <-]. cbn.
  split; [|split; reflexivity].
  change RedditOAuthService.by_score_desc_post
    with (Spec.by_desc RedditPost.score).
  rewrite (sort_length RedditPost.score).
  eapply Nat.le_trans; [apply retained_length_le|].
  now apply slice0_length.
Qed.

Lemma validatedLimit_range (limit : Z) :
  (1 <= RedditDataRoute.validatedLimit limit <= 100)%Z.
Proof.
  unfold RedditDataRoute.validatedLimit, CONFIG.REDDIT.MAX_LIMIT. lia.
Qed.

Lemma data_error_status_cases (error : JsError.t) :
  In (RedditDataRoute.error_status error) [404; 403; 401; 500]%Z.
Proof.
  unfold RedditDataRoute.error_status.
  repeat match goal with
         | |- context [if ?b then _ else _] => destruct b
         end; simpl; auto.
Qed.

(** X8.  The handler of the data route never throws.  Whatever limit is
    asked for, a listing request it makes asks for between 1 and 100 posts.
    An answer of status 200 carries a snapshot of at most 100 posts, under
    the name asked for and with the time at which the handler finished, and
    no error; any other answer carries a message that is not empty, no
    data, and one of the statuses 400, 404, 403, 401 and 500. *)
Theorem data_POST_envelope (request : RedditDataRequest.t) (w : World) :
  exists r w' tail,
    RedditDataRoute.POST request w = (Ok r, w')
    /\ Spec.requests w w' tail
    /\ Forall (Props.limit_within 1 100) tail
    /\ ((RedditDataRoute.NextResponse.status r = 200%Z
         /\ exists snap,
              RedditDataRoute.NextResponse.body r
              = RedditDataResponse.mk true (Some snap) None
              /\ (List.length (SubredditData.posts snap) <= 100)%nat
              /\ RedditDataRequest.subreddit request
                 = Some (SubredditData.subreddit snap)
              /\ SubredditData.fetchedAt snap = clock w')
        \/ (exists message,
              RedditDataRoute.NextResponse.body r
              = RedditDataResponse.mk false None (Some message)
              /\ message <> "")
           /\ In (RedditDataRoute.NextResponse.status r)
                 [400; 404; 403; 401; 500]%Z).
Proof.
  unfold RedditDataRoute.POST, try_catch, bind.
  destruct (JS.truthy (JS.or_str (RedditDataRequest.subreddit request) ""))
    eqn:Hs; cbn [negb].
  2:{ eexists _, w, []. split; [reflexivity|].
      split; [apply requests_refl|]. split; [constructor|].
      right. split; [|simpl; auto].
      eexists. split; [reflexivity | discriminate]. }
  assert (Hreq : RedditDataRequest.subreddit request
                 = Some (JS.or_str (RedditDataRequest.subreddit request) "")).
  { destruct (RedditDataRequest.subreddit request) as [s|];
      [|discriminate]. simpl in *. now destruct (JS.truthy s). }
  set (subreddit := JS.or_str (RedditDataRequest.subreddit request) "") in *.
  set (timeframe := match RedditDataRequest.timeframe request with
                    | Some t => t | None => CONFIG.REDDIT.DEFAULT_TIMEFRAME
                    end).
  set (limit := RedditDataRoute.validatedLimit
                  match RedditDataRequest.limit request with
                  | Some l => l | None => CONFIG.REDDIT.DEFAULT_LIMIT
                  end).
  assert (Hrange : (1 <= limit <= 100)%Z) by apply validatedLimit_range.
  destruct (fetchSubredditData_shape subreddit timeframe limit w ltac:(lia))
    as (res & w' & tail & E & R & F & Hsnap).
  pose proof (fetchers_run subreddit timeframe limit w) as Ha.
  rewrite E in Ha.
  assert (F' : Forall (Props.limit_within 1 100) tail).
  { eapply Forall_impl; [|exact F]. intros [] ; simpl; lia. }
  destruct (RedditDataRoute.fetchTopSubmissions subreddit timeframe limit w)
    as [[[posts comments]|e] w0].
  - injection Ha as Hres Hw. subst w0.
    destruct (Hsnap _ Hres) as (Hlen & _ & _). cbn in Hlen.
    exists (RedditDataRoute.NextResponse.json
              (RedditDataResponse.mk true
                 (Some (SubredditData.mk posts comments subreddit (clock w')))
                 None) 200), w', tail.
    split; [reflexivity|]. split; [exact R|]. split; [exact F'|].
    left. split; [reflexivity|]. eexists. split; [reflexivity|].
    cbn. split; [lia|]. split; [exact Hreq | reflexivity].
  - injection Ha as Hres Hw. subst w0.
    eexists _, w', tail. split; [reflexivity|]. split; [exact R|].
    split; [exact F'|]. right. split.
    + eexists. split; [reflexivity|]. apply handleApiError_nonempty.
    + right. apply data_error_status_cases.
Qed.
End DataRoute.

Section DataRouteRefused.
Import Net.

Lemma fetchTopSubmissions_throws
    (subreddit timeframe : string) (limit : Z) (w w' : World) (e : JsError.t) :
  RedditOAuthService.fetchSubredditData subreddit timeframe limit w
  = (Throw e, w') ->
  RedditDataRoute.fetchTopSubmissions subreddit timeframe limit w
  = (Throw e, w').
Proof.
  intros E. pose proof (fetchers_run subreddit timeframe limit w) as Ha.
  rewrite E in Ha.
  destruct (RedditDataRoute.fetchTopSubmissions subreddit timeframe limit w)
    as [[[posts comments]|e0] w0]; [discriminate|].
  now injection Ha as -> ->.
Qed.

(** X9.  The data route answers a forum that does not exist with 404 and
    a private one with 403: when the forum answers the listing request with
    one of the two, the response carries the message that names the forum
    and that same status.  (The forum name is one in which neither
    [OpenAI] nor [not found] occurs.) *)
Theorem data_POST_listing_refused
    (request : RedditDataRequest.t) (subreddit : string)
    (w w1 : World) (tok : string)
    (d st : Z) (txt : string) (b : Payload) (rest : list Reply) :
  RedditDataRequest.subreddit request = Some subreddit ->
  subreddit <> "" ->
  JS.includes subreddit "OpenAI" = false ->
  JS.includes subreddit "not found" = false ->
  RedditOAuthService.getAccessToken w = (Ok tok, w1) ->
  reddit w1 = Http d st txt b :: rest ->
  st = 404%Z \/ st = 403%Z ->
  exists w',
    RedditDataRoute.POST request w
    = (Ok (RedditDataRoute.failure
             ("Subreddit r/" ++ subreddit
              ++ (if (st =? 404)%Z then " not found"
                  else " is private or banned"))
             st), w').
Proof.
  intros Hreq Hne Hopen Hnf Htok Hreply Hst.
  set (timeframe := match RedditDataRequest.timeframe request with
                    | Some t => t | None => CONFIG.REDDIT.DEFAULT_TIMEFRAME
                    end).
  set (limit := RedditDataRoute.validatedLimit
                  match RedditDataRequest.limit request with
                  | Some l => l | None => CONFIG.REDDIT.DEFAULT_LIMIT
                  end).
  destruct (listing_refused subreddit timeframe limit w w1 tok d st
              txt b rest Htok Hreply ltac:(lia))
    as (message & w' & E & _ & _ & H404 & H403 & _).
  apply fetchTopSubmissions_throws in E.
  exists w'.
  unfold RedditDataRoute.POST, try_catch, bind.
  apply truthy_neq in Hne.
  assert (Hor : JS.or_str (RedditDataRequest.subreddit request) ""
                = subreddit).
  { rewrite Hreq. unfold JS.or_str. now rewrite Hne. }
  rewrite Hor, Hne. cbn [negb].
  fold timeframe. fold limit. rewrite E. unfold ret.
  assert (Hm : message = ("Subreddit r/" ++ subreddit
                          ++ (if (st =? 404)%Z then " not found"
                              else " is private or banned"))%string).
  { destruct Hst as [-> | ->]; [apply H404 | apply H403]; reflexivity. }
  rewrite Hm. clear Hm H404 H403 E.
  unfold Utils.handleApiError, RedditDataRoute.error_status.
  cbn [JsError.Error JsError.response_status JsError.code JsError.status
       JsError.message].
  destruct Hst as [-> | ->]; cbn [Z.eqb Pos.eqb].
  - rewrite (includes_sandwich "Subreddit r/" " not found" "OpenAI")
      by reflexivity.
    rewrite (includes_sandwich "Subreddit r/" " not found" "not found")
      by reflexivity.
    rewrite Hopen, Hnf. reflexivity.
  - rewrite (includes_sandwich "Subreddit r/" " is private or banned"
               "OpenAI") by reflexivity.
    rewrite (includes_sandwich "Subreddit r/" " is private or banned"
               "not found") by reflexivity.
    rewrite (includes_sandwich "Subreddit r/" " is private or banned"
               "private") by reflexivity.
    rewrite Hopen, Hnf. cbn [orb].
    change (JS.includes " is private or banned" "OpenAI") with false.
    change (JS.includes " is private or banned" "not found") with false.
    change (JS.includes " is private or banned" "private") with true.
    rewrite orb_true_r. reflexivity.
Qed.

Lemma data_POST_listing_refused_witness :
  exists w',
    RedditDataRoute.POST
      (RedditDataRequest.mk (Some "technology") None None)
      Sample.strict_world
    = (Ok (RedditDataRoute.failure "Subreddit r/technology not found" 404),
       w').
Proof.
  exact (data_POST_listing_refused
           (RedditDataRequest.mk (Some "technology") None None) "technology"
           Sample.strict_world Runs.strict_token "tok" 40 404 "Not Found"
           NotJson [] eq_refl ltac:(discriminate) eq_refl eq_refl
           strict_token_run strict_token_reply (or_introl eq_refl)).
Defined.
End DataRouteRefused.

(* ================================================================== *)
(** ** Further properties: the comment trees of the earlier route *)
(* ================================================================== *)

Section Trees.

Lemma CommentNode_rect_nested (P : CommentNode.t -> Prop) :
  (forall kind id body author score created_utc replies,
      Forall P replies ->
      P (CommentNode.mk kind id body author score created_utc replies)) ->
  forall x, P x.
Proof.
  intros H. fix IH 1. intros [kind id body author score created replies].
  apply H. induction replies as [|r rs IHrs]; constructor;
    [apply IH | exact IHrs].
Qed.

Lemma shaped_replies (d : Z) (rs : list CommentNode.t) (n : nat) :
  Forall (fun r => forall d', Props.shaped d' (Snoowrap.transformComment r d')
                              = true) rs ->
  let out :=
    (fix first (n : nat) (l : list CommentNode.t) :=
       match n, l with
       | S k, reply :: l' =>
           Snoowrap.transformComment reply (d + 1) :: first k l'
       | _, _ => []
       end) n rs in
  List.length out = Nat.min n (List.length rs)
  /\ (fix all (l : list RedditComment.t) : bool :=
        match l with
        | [] => true
        | r :: l' => Props.shaped (d + 1) r && all l'
        end) out = true.
Proof.
  intros H. revert n. induction H as [|r rs Hr Hrs IH]; intros n.
  - destruct n; split; reflexivity.
  - destruct n as [|n]; [split; reflexivity|].
    destruct (IH n) as [Hlen Hall]. cbn zeta in *. split.
    + cbn [List.length Nat.min]. now rewrite Hlen.
    + rewrite Hr. exact Hall.
Qed.

(** X10.  A comment tree built by [transformComment] is well formed at
    every level: each comment carries the depth at which it stands, counted
    from the depth the root was given, and a comment that has replies has
    between one and three of them; no comment has an empty array of
    replies. *)
Theorem transformComment_shaped (comment : CommentNode.t) :
  forall depth : Z,
    Props.shaped depth (Snoowrap.transformComment comment depth) = true.
Proof.
  induction comment as [kind id body author score created replies IH]
    using CommentNode_rect_nested.
  intros depth. cbn [Snoowrap.transformComment Props.shaped CommentNode.replies].
  rewrite Z.eqb_refl. cbn [andb].
  destruct replies as [|r rs]; [reflexivity|].
  destruct (shaped_replies depth (r :: rs) 3 IH) as [Hlen Hall].
  cbn zeta in Hlen, Hall. rewrite Hlen, Hall.
  cbn [List.length]. rewrite andb_true_r.
  apply andb_true_iff. split; apply Nat.leb_le; lia.
Qed.
End Trees.

(* ================================================================== *)
(** ** Further properties: the page *)
(* ================================================================== *)

Section PageFacts.
Import Net.

Lemma validateSubreddit_error (s : string) :
  Utils.Validation.isValid (Utils.validateSubreddit s) = false ->
  JS.or_str (Utils.Validation.error (Utils.validateSubreddit s)) "" <> "".
Proof.
  unfold Utils.validateSubreddit.
  repeat match goal with
         | |- context [if ?b then _ else _] => destruct b
         end; cbn; discriminate.
Qed.

Lemma validateQuestion_error (q : string) :
  Utils.Validation.isValid (Utils.validateQuestion q) = false ->
  JS.or_str (Utils.Validation.error (Utils.validateQuestion q)) "" <> "".
Proof.
  unfold Utils.validateQuestion.
  repeat match goal with
         | |- context [if ?b then _ else _] => destruct b
         end; cbn; discriminate.
Qed.

Lemma with_answer_twice (l l' : bool) (a a' : option AIResponse.t)
    (appState : HomePage.AppState.t) :
  HomePage.with_answer l' a' (HomePage.with_answer l a appState)
  = HomePage.with_answer l' a' appState.
Proof. reflexivity. Qed.

(** What a submission that passed the page's checks ends in. *)
Lemma submit_checked (appState : HomePage.AppState.t) (w : World) :
  Utils.Validation.isValid
    (Utils.validateSubreddit (HomePage.currentSubreddit appState)) = true ->
  Utils.Validation.isValid
    (Utils.validateQuestion (HomePage.AppState.question appState)) = true ->
  exists r w',
    AskQuestion.POST
      (AskQuestionRequest.mk
         (Some (HomePage.currentSubreddit appState))
         (Some (HomePage.AppState.question appState))
         (Some (HomePage.AppState.selectedModel appState))) w = (Ok r, w')
    /\ ((exists a,
           AskQuestionResponse.data (AskQuestion.NextResponse.body r) = Some a
           /\ HomePage.handleSubmitQuestion appState w
              = (Ok (Page.toast_success "Answer generated successfully!",
                     HomePage.with_answer false (Some a) appState), w'))
        \/ (exists message,
              Props.failure_with r message
              /\ HomePage.handleSubmitQuestion appState w
                 = (Ok (Page.toast_error message,
                        HomePage.with_answer false None appState), w'))).
Proof.
  intros Vs Vq.
  destruct (POST_outcome
              (AskQuestionRequest.mk
                 (Some (HomePage.currentSubreddit appState))
                 (Some (HomePage.AppState.question appState))
                 (Some (HomePage.AppState.selectedModel appState))) w)
    as (r & w' & E & H).
  exists r, w'. split; [exact E|].
  unfold HomePage.handleSubmitQuestion. rewrite Vs, Vq. cbn [negb].
  unfold bind, try_catch. rewrite E.
  destruct H as [(_ & Hs & _ & a & Ha) | (message & (Hs & Hd & He & Hne) & _)].
  - left. exists a. split; [exact Ha|].
    rewrite Hs, Ha. reflexivity.
  - right. exists message. split; [now repeat split|].
    cbv zeta in Hs, He. rewrite Hs, He. cbn [negb JS.or_str].
    apply truthy_neq in Hne. rewrite Hne. reflexivity.
Qed.

(** X11.  Submitting a question always ends with a toast, whatever the
    services do.  When one of the page's two checks fails the toast is an
    error, no request is made and the state of the page is as it was.
    Otherwise the page is left not loading, with every other field as it
    was but the answer: a success toast comes with an answer on display,
    an error toast with a message that is not empty and no answer on
    display. *)
Theorem handleSubmitQuestion_outcome
    (appState : HomePage.AppState.t) (w : World) :
  exists toast state w',
    HomePage.handleSubmitQuestion appState w = (Ok (toast, state), w')
    /\ ((exists message,
           toast = Page.toast_error message /\ message <> ""
           /\ state = appState /\ w' = w
           /\ (~ Spec.forum_name_ok (HomePage.currentSubreddit appState)
               \/ ~ Spec.question_ok (HomePage.AppState.question appState)))
        \/ (Spec.forum_name_ok (HomePage.currentSubreddit appState)
            /\ Spec.question_ok (HomePage.AppState.question appState)
            /\ ((exists a,
                   toast = Page.toast_success "Answer generated successfully!"
                   /\ state = HomePage.with_answer false (Some a) appState)
                \/ (exists message,
                      toast = Page.toast_error message /\ message <> ""
                      /\ state = HomePage.with_answer false None appState)))).
Proof.
  destruct (Utils.Validation.isValid
              (Utils.validateSubreddit (HomePage.currentSubreddit appState)))
    eqn:Vs.
  2:{ eexists _, appState, w. unfold HomePage.handleSubmitQuestion.
      rewrite Vs. split; [reflexivity|]. left. eexists.
      split; [reflexivity|]. split; [now apply validateSubreddit_error|].
      split; [reflexivity|]. split; [reflexivity|]. left.
      intros H. apply validateSubreddit_spec in H. congruence. }
  destruct (Utils.Validation.isValid
              (Utils.validateQuestion (HomePage.AppState.question appState)))
    eqn:Vq.
  2:{ eexists _, appState, w. unfold HomePage.handleSubmitQuestion.
      rewrite Vs, Vq. split; [reflexivity|]. left. eexists.
      split; [reflexivity|]. split; [now apply validateQuestion_error|].
      split; [reflexivity|]. split; [reflexivity|]. right.
      intros H. apply validateQuestion_spec in H. congruence. }
  destruct (submit_checked appState w Vs Vq)
    as (r & w' & _ & [(a & _ & E) | (message & (_ & _ & _ & Hne) & E)]).
  - eexists _, _, w'. split; [exact E|]. right.
    split; [now apply validateSubreddit_spec|].
    split; [now apply validateQuestion_spec|].
    left. now exists a.
  - eexists _, _, w'. split; [exact E|]. right.
    split; [now apply validateSubreddit_spec|].
    split; [now apply validateQuestion_spec|].
    right. now exists message.
Qed.

(** X12.  A model that the question route does not allow never reaches
    the services: a submission that passes the page's two checks is answered
    400 by the route without a request being made, and the page shows
    the route's message and no answer.  The model the page starts with,
    [gpt-4], is such a model. *)
Theorem submit_model_rejected (appState : HomePage.AppState.t) (w : World) :
  ~ In (HomePage.AppState.selectedModel appState) AskQuestion.ALLOWED_MODELS ->
  Spec.forum_name_ok (HomePage.currentSubreddit appState) ->
  Spec.question_ok (HomePage.AppState.question appState) ->
  HomePage.handleSubmitQuestion appState w
  = (Ok (Page.toast_error "Invalid model specified",
         HomePage.with_answer false None appState), w).
Proof.
  intros Hm Hs Hq.
  apply validateSubreddit_spec in Hs. apply validateQuestion_spec in Hq.
  assert (Hs' : JS.truthy (HomePage.currentSubreddit appState) = true).
  { unfold Utils.validateSubreddit in Hs.
    destruct (JS.truthy (HomePage.currentSubreddit appState));
      [reflexivity | discriminate]. }
  assert (Hq' : JS.truthy (HomePage.AppState.question appState) = true).
  { unfold Utils.validateQuestion in Hq.
    destruct (JS.truthy (HomePage.AppState.question appState));
      [reflexivity | discriminate]. }
  assert (Hm' : JS.array_includes AskQuestion.ALLOWED_MODELS
                  (HomePage.AppState.selectedModel appState) = false).
  { destruct (JS.array_includes AskQuestion.ALLOWED_MODELS
                (HomePage.AppState.selectedModel appState)) eqn:E;
      [|reflexivity].
    apply array_includes_In in E. contradiction. }
  unfold HomePage.handleSubmitQuestion. rewrite Hs, Hq. cbn [negb].
  unfold bind, try_catch.
  unfold AskQuestion.POST, try_catch.
  cbn [AskQuestionRequest.subreddit AskQuestionRequest.question
       AskQuestionRequest.model].
  assert (Ho1 : JS.or_str (Some (HomePage.currentSubreddit appState)) ""
                = HomePage.currentSubreddit appState)
    by (unfold JS.or_str; now rewrite Hs').
  assert (Ho2 : JS.or_str (Some (HomePage.AppState.question appState)) ""
                = HomePage.AppState.question appState)
    by (unfold JS.or_str; now rewrite Hq').
  rewrite Ho1, Ho2, Hs', Hq', Hm'. reflexivity.
Qed.

Lemma submit_model_rejected_witness :
  HomePage.handleSubmitQuestion
    (HomePage.handleQuestionChange "What is new?" HomePage.initial)
    Sample.world
  = (Ok (Page.toast_error "Invalid model specified",
         HomePage.handleQuestionChange "What is new?" HomePage.initial),
     Sample.world).
Proof.
  apply (submit_model_rejected
           (HomePage.handleQuestionChange "What is new?" HomePage.initial)
           Sample.world).
  - simpl. intros [H | [H | []]]; discriminate.
  - split; [simpl; lia | reflexivity].
  - unfold Spec.question_ok. simpl. lia.
Defined.

(** X13.  Saving keeps at most 50 answers.  With an answer on display,
    [handleSaveAnswer] puts it first, under the question and the forum of
    the page, with the identifier and the time it was given, keeps the 49
    most recent of the answers saved before, in their order, shows the
    toast [Answer saved!] and leaves every other field of the state as it
    was; without one it does nothing and shows no toast. *)
Theorem handleSaveAnswer_bound
    (id : string) (now : Z) (appState : HomePage.AppState.t) :
  let state := fst (HomePage.handleSaveAnswer id now appState) in
  (List.length (HomePage.AppState.savedAnswers state)
   <= Nat.max 50 (List.length (HomePage.AppState.savedAnswers appState)))%nat
  /\ HomePage.AppState.selectedSubreddit state
     = HomePage.AppState.selectedSubreddit appState
  /\ HomePage.AppState.customSubreddit state
     = HomePage.AppState.customSubreddit appState
  /\ HomePage.AppState.question state = HomePage.AppState.question appState
  /\ HomePage.AppState.isLoading state = HomePage.AppState.isLoading appState
  /\ HomePage.AppState.currentAnswer state
     = HomePage.AppState.currentAnswer appState
  /\ HomePage.AppState.selectedModel state
     = HomePage.AppState.selectedModel appState
  /\ match HomePage.AppState.currentAnswer appState with
     | None => HomePage.handleSaveAnswer id now appState = (appState, None)
     | Some a =>
         (List.length (HomePage.AppState.savedAnswers state) <= 50)%nat
         /\ HomePage.AppState.savedAnswers state
            = ShareableAnswer.mk (HomePage.AppState.question appState)
                                 (HomePage.currentSubreddit appState)
                                 (AIResponse.answer a) now id
              :: firstn 49 (HomePage.AppState.savedAnswers appState)
         /\ snd (HomePage.handleSaveAnswer id now appState)
            = Some (Page.toast_success "Answer saved!")
     end.
Proof.
  unfold HomePage.handleSaveAnswer.
  destruct (HomePage.AppState.currentAnswer appState) as [a|] eqn:Ha;
    cbn [fst snd HomePage.AppState.savedAnswers
         HomePage.AppState.selectedSubreddit HomePage.AppState.customSubreddit
         HomePage.AppState.question HomePage.AppState.isLoading
         HomePage.AppState.currentAnswer HomePage.AppState.selectedModel].
  2:{ split; [lia|]. repeat (split; [first [reflexivity | exact Ha]|]).
      reflexivity. }
  assert (Hlen : (List.length
                    (JS.slice0 (STORAGE.MAX_SAVED_ANSWERS - 1)
                       (HomePage.AppState.savedAnswers appState)) <= 49)%nat).
  { apply (slice0_length (STORAGE.MAX_SAVED_ANSWERS - 1)).
    unfold STORAGE.MAX_SAVED_ANSWERS. lia. }
  cbn [List.length]. split; [lia|].
  repeat (split; [reflexivity|]).
  split; [lia|]. split; reflexivity.
Qed.

(** X14.  Every suggestion the page offers passes the page's own checks:
    choosing a trending question leaves a state whose forum and question
    both validate, and its forum is one of the popular ones; choosing a
    popular forum leaves a state whose forum validates. *)
Theorem suggestions_valid (prev : HomePage.AppState.t) :
  Forall (fun t =>
            let state :=
              HomePage.handleTrendingQuestionSelect
                (TrendingQuestion.question t) (TrendingQuestion.subreddit t)
                prev in
            HomePage.currentSubreddit state = TrendingQuestion.subreddit t
            /\ Utils.Validation.isValid
                 (Utils.validateSubreddit (HomePage.currentSubreddit state))
               = true
            /\ Utils.Validation.isValid
                 (Utils.validateQuestion (HomePage.AppState.question state))
               = true
            /\ In (TrendingQuestion.subreddit t)
                  (map PopularSubreddit.name POPULAR_SUBREDDITS))
         TRENDING_QUESTIONS
  /\ Forall (fun p =>
               let state :=
                 HomePage.handleSubredditChange (PopularSubreddit.name p)
                                                prev in
               HomePage.currentSubreddit state = PopularSubreddit.name p
               /\ Utils.Validation.isValid
                    (Utils.validateSubreddit (HomePage.currentSubreddit state))
                  = true)
            POPULAR_SUBREDDITS.
Proof.
  split.
  - repeat (constructor;
            [split; [reflexivity|];
             split; [vm_compute; reflexivity|];
             split; [vm_compute; reflexivity | simpl; tauto]|]).
    constructor.
  - repeat (constructor;
            [split; [reflexivity | vm_compute; reflexivity]|]).
    constructor.
Qed.
End PageFacts.

(* ================================================================== *)
(** ** Further properties: trimming, truncation and dates *)
(* ================================================================== *)

Section Trimming.

Lemma starts_ws_trimStart (s : string) :
  Text.starts_ws (JS.trimStart s) = false.
Proof.
  induction s as [|c s IH]; [reflexivity|]. simpl.
  destruct (JS.is_ws c) eqn:E; [exact IH | simpl; exact E].
Qed.

Lemma trimStart_fixed (s : string) :
  Text.starts_ws s = false -> JS.trimStart s = s.
Proof. destruct s as [|c s]; simpl; [reflexivity | now intros ->]. Qed.

Lemma trimEnd_idem (s : string) : JS.trimEnd (JS.trimEnd s) = JS.trimEnd s.
Proof.
  induction s as [|c s IH]; [reflexivity|]. cbn [JS.trimEnd].
  destruct (JS.is_ws c && (JS.trimEnd s =? "")%string) eqn:E; [reflexivity|].
  cbn [JS.trimEnd]. now rewrite IH, E.
Qed.

Lemma trim_idem (s : string) : JS.trim (JS.trim s) = JS.trim s.
Proof.
  unfold JS.trim.
  rewrite (trimStart_fixed (JS.trimEnd (JS.trimStart s))).
  - apply trimEnd_idem.
  - destruct (Text.starts_ws (JS.trimEnd (JS.trimStart s))) eqn:E;
      [|reflexivity].
    apply starts_ws_trimEnd in E. now rewrite starts_ws_trimStart in E.
Qed.

Lemma trimStart_length (s : string) :
  (String.length (JS.trimStart s) <= String.length s)%nat.
Proof.
  induction s as [|c s IH]; simpl; [lia|].
  destruct (JS.is_ws c); simpl; lia.
Qed.

Lemma trimEnd_length (s : string) :
  (String.length (JS.trimEnd s) <= String.length s)%nat.
Proof.
  induction s as [|c s IH]; simpl; [lia|].
  destruct (JS.is_ws c && (JS.trimEnd s =? "")%string); simpl; lia.
Qed.

Lemma trim_length (s : string) :
  (String.length (JS.trim s) <= String.length s)%nat.
Proof.
  unfold JS.trim. eapply Nat.le_trans; [apply trimEnd_length|].
  apply trimStart_length.
Qed.

Lemma substring_length (n : nat) (s : string) :
  (String.length (String.substring 0 n s) <= n)%nat.
Proof.
  revert s. induction n as [|n IH]; intros [|c s]; simpl; try lia.
  specialize (IH s). lia.
Qed.

Lemma length_append (a b : string) :
  String.length (a ++ b) = (String.length a + String.length b)%nat.
Proof. induction a as [|c a IH]; simpl; [reflexivity | now rewrite IH]. Qed.

(** X15.  [validateQuestion] looks at the trimmed question only: a
    question and the same question without the white space around it get
    the same verdict and the same message. *)
Theorem validateQuestion_trimmed (question : string) :
  Utils.validateQuestion (JS.trim question) = Utils.validateQuestion question.
Proof.
  unfold Utils.validateQuestion. rewrite trim_idem.
  destruct (String.length (JS.trim question) =? 0)%nat eqn:E.
  - now rewrite !orb_true_r.
  - rewrite !orb_false_r.
    assert (Ht : JS.truthy (JS.trim question) = true).
    { apply truthy_length. apply Nat.eqb_neq in E. lia. }
    assert (Hq : JS.truthy question = true).
    { apply truthy_length. apply truthy_length in Ht.
      pose proof (trim_length question). lia. }
    now rewrite Ht, Hq.
Qed.

(** X16.  [truncateText] returns a text of at most [maxLength] characters
    as it is.  A longer one it cuts: the result is a trimmed text of at
    most [maxLength] characters followed by three dots, so it never has
    more than [maxLength + 3] characters (3 when [maxLength] is negative),
    and can be longer than the text it was given. *)
Theorem truncateText_length (text : string) (maxLength : Z) :
  (Z.of_nat (String.length (Display.truncateText text maxLength))
   <= Z.max maxLength 0 + 3)%Z
  /\ (((Z.of_nat (String.length text) <= maxLength)%Z
       /\ Display.truncateText text maxLength = text)
      \/ ((maxLength < Z.of_nat (String.length text))%Z
          /\ exists kept,
               Display.truncateText text maxLength = (kept ++ "...")%string
               /\ JS.trim kept = kept
               /\ (Z.of_nat (String.length kept) <= Z.max maxLength 0)%Z))
  /\ (String.length "abcd"
      < String.length (Display.truncateText "abcd" 3))%nat.
Proof.
  assert (Hgrow : (String.length "abcd"
                   < String.length (Display.truncateText "abcd" 3))%nat)
    by (simpl; lia).
  unfold Display.truncateText.
  destruct (Z.leb_spec (Z.of_nat (String.length text)) maxLength) as [H | H].
  - split; [lia|]. split; [|exact Hgrow]. left.
    split; [exact H | reflexivity].
  - assert (Hk : (Z.of_nat (String.length
                              (JS.trim (Display.substring0 maxLength text)))
                  <= Z.max maxLength 0)%Z).
    { pose proof (trim_length (Display.substring0 maxLength text)) as H1.
      pose proof (substring_length (Z.to_nat maxLength) text) as H2.
      unfold Display.substring0 in *. lia. }
    split; [|split; [|exact Hgrow]].
    + rewrite length_append. simpl. lia.
    + right. split; [exact H|]. eexists. split; [reflexivity|].
      split; [apply trim_idem | exact Hk].
Qed.

(** X17.  With a clock set after 1 January 1970, the label [formatDate]
    gives to a timestamp whose date is valid (within 8 640 000 000 000 000
    milliseconds of that day) is decided by the time that has passed since:
    whole minutes below one hour, whole hours from 1 to 23 below one day,
    whole days from 1 to 6 below seven days, and the date in the locale's
    form from seven days on.  A timestamp in the future is labelled with a
    negative number of minutes, as far ahead as a valid date can be.  A
    timestamp beyond the range of dates is labelled [Invalid Date]. *)
Theorem formatDate_label (toLocaleDateString : Z -> string)
    (now timestamp : Z) :
  (0 <= now <= Display.MAX_TIME)%Z ->
  let diffMs := (now - timestamp * 1000)%Z in
  ((Z.abs (timestamp * 1000) <= Display.MAX_TIME)%Z ->
   ((diffMs < 3600000)%Z ->
    Display.formatDate toLocaleDateString now timestamp
    = (JS.toString (diffMs / 60000) ++ "m ago")%string
    /\ (diffMs / 60000 < 60)%Z
    /\ ((diffMs < 0)%Z -> (diffMs / 60000 < 0)%Z))
   /\ ((3600000 <= diffMs < 86400000)%Z ->
       Display.formatDate toLocaleDateString now timestamp
       = (JS.toString (diffMs / 3600000) ++ "h ago")%string
       /\ (1 <= diffMs / 3600000 <= 23)%Z)
   /\ ((86400000 <= diffMs < 604800000)%Z ->
       Display.formatDate toLocaleDateString now timestamp
       = (JS.toString (diffMs / 86400000) ++ "d ago")%string
       /\ (1 <= diffMs / 86400000 <= 6)%Z)
   /\ ((604800000 <= diffMs)%Z ->
       Display.formatDate toLocaleDateString now timestamp
       = toLocaleDateString timestamp))
  /\ ((Display.MAX_TIME < Z.abs (timestamp * 1000))%Z ->
      Display.formatDate toLocaleDateString now timestamp = "Invalid Date").
Proof.
  intros Hnow diffMs. unfold Display.formatDate. fold diffMs.
  split.
  2:{ intros Hbeyond.
      destruct (Z.leb_spec (Z.abs (timestamp * 1000)) Display.MAX_TIME);
        [lia | reflexivity]. }
  intros Hvalid.
  destruct (Z.leb_spec (Z.abs (timestamp * 1000)) Display.MAX_TIME)
    as [_ | Hbeyond]; [|lia].
  change (1000 * 60 * 60)%Z with 3600000%Z.
  change (1000 * 60)%Z with 60000%Z.
  assert (Hdays : (diffMs / 3600000 / 24 = diffMs / 86400000)%Z).
  { rewrite Z.div_div by lia. reflexivity. }
  rewrite Hdays.
  pose proof (Z.div_lt_upper_bound diffMs 3600000 1 ltac:(lia)) as U1.
  pose proof (Z.div_le_lower_bound diffMs 3600000 1 ltac:(lia)) as L1.
  pose proof (Z.div_lt_upper_bound diffMs 3600000 24 ltac:(lia)) as U24.
  pose proof (Z.div_le_lower_bound diffMs 3600000 24 ltac:(lia)) as L24.
  pose proof (Z.div_lt_upper_bound diffMs 86400000 7 ltac:(lia)) as U7.
  pose proof (Z.div_le_lower_bound diffMs 86400000 7 ltac:(lia)) as L7.
  pose proof (Z.div_le_lower_bound diffMs 86400000 1 ltac:(lia)) as D1.
  pose proof (Z.div_lt_upper_bound diffMs 60000 60 ltac:(lia)) as M60.
  pose proof (Z.div_lt_upper_bound diffMs 60000 0 ltac:(lia)) as M0.
  split; [|split; [|split]].
  - intros H.
    destruct (Z.ltb_spec (diffMs / 3600000) 1); [|lia].
    split; [reflexivity|]. split; lia.
  - intros H.
    destruct (Z.ltb_spec (diffMs / 3600000) 1); [lia|].
    destruct (Z.ltb_spec (diffMs / 3600000) 24); [|lia].
    split; [reflexivity | lia].
  - intros H.
    destruct (Z.ltb_spec (diffMs / 3600000) 1); [lia|].
    destruct (Z.ltb_spec (diffMs / 3600000) 24); [lia|].
    destruct (Z.ltb_spec (diffMs / 86400000) 7); [|lia].
    split; [reflexivity | lia].
  - intros H.
    destruct (Z.ltb_spec (diffMs / 3600000) 1); [lia|].
    destruct (Z.ltb_spec (diffMs / 3600000) 24); [lia|].
    destruct (Z.ltb_spec (diffMs / 86400000) 7); [lia | reflexivity].
Qed.

Lemma formatDate_label_witness :
  Display.formatDate (fun _ => "1/1/2024") 1700000000000 1700086400
  = "-1440m ago"
  /\ Display.formatDate (fun _ => "1/1/2024") 1700000000000
                        8640000000001
     = "Invalid Date".
Proof.
  split.
  - exact (proj1 (proj1 (proj1 (formatDate_label (fun _ => "1/1/2024")
                                  1700000000000 1700086400
                                  ltac:(vm_compute; split; discriminate))
                               ltac:(vm_compute; discriminate))
                        ltac:(vm_compute; reflexivity))).
  - exact (proj2 (formatDate_label (fun _ => "1/1/2024")
                    1700000000000 8640000000001
                    ltac:(vm_compute; split; discriminate))
                 ltac:(vm_compute; reflexivity)).
Defined.
End Trimming.

(* ================================================================== *)
(** ** Further properties: what cleaning leaves *)
(* ================================================================== *)

Section Cleaning.

Lemma adj_free_no_blank_line (s : string) :
  Text.adj_free s = true -> JS.includes s (JS.nl ++ JS.nl) = false.
Proof.
  induction s as [|c s IH]; [reflexivity|].
  intros H. cbn [Text.adj_free] in H. apply andb_true_iff in H as [Hc Hs].
  rewrite includes_cons, (IH Hs), orb_false_r.
  change (JS.nl ++ JS.nl)%string with (String JS.LF (String JS.LF "")).
  rewrite prefix_cons.
  destruct (Ascii.eqb_spec JS.LF c) as [<- | Hne]; [|reflexivity].
  destruct s as [|c' s]; [reflexivity|].
  rewrite prefix_cons.
  destruct (Ascii.eqb_spec JS.LF c') as [<- | Hne]; [|reflexivity].
  discriminate.
Qed.

(** X18.  The text [cleanRedditText] returns is trimmed, has no two
    white-space characters side by side and hence no blank line: the
    paragraph breaks that the step for three or more line feeds leaves are
    turned into single spaces by the step that follows it. *)
Theorem cleanRedditText_whitespace (text : string) :
  JS.trim (Utils.cleanRedditText text) = Utils.cleanRedditText text
  /\ Text.adj_free (Utils.cleanRedditText text) = true
  /\ JS.includes (Utils.cleanRedditText text) (JS.nl ++ JS.nl) = false.
Proof.
  destruct (cleanRedditText_tidy text) as [Ha Hs].
  split; [|split; [exact Ha | now apply adj_free_no_blank_line]].
  unfold Utils.cleanRedditText. apply trim_idem.
Qed.

Lemma prefix_all_chars (p : ascii -> bool) (d s : string) :
  String.prefix d s = true -> JS.all_chars p s = true ->
  JS.all_chars p d = true.
Proof.
  revert s. induction d as [|x d IH]; intros s; [reflexivity|].
  destruct s as [|c s]; [discriminate|].
  rewrite prefix_cons. intros H Hs.
  apply andb_true_iff in H as [Hx Hd]. apply Ascii.eqb_eq in Hx. subst c.
  cbn [JS.all_chars] in *. apply andb_true_iff in Hs as [-> Hs].
  exact (IH _ Hd Hs).
Qed.

Lemma prefix_marked (d s : string) :
  JS.all_chars Props.unmarked d = false ->
  JS.all_chars Props.unmarked s = true ->
  String.prefix d s = false.
Proof.
  intros Hd Hs. destruct (String.prefix d s) eqn:E; [|reflexivity].
  rewrite (prefix_all_chars _ _ _ E Hs) in Hd. discriminate.
Qed.

Lemma run_ws_adj_free (s : string) :
  Text.adj_free s = true -> (Regex.run JS.is_ws s <= 1)%nat.
Proof.
  destruct s as [|c [|c' s]]; simpl; try lia.
  - destruct (JS.is_ws c); lia.
  - destruct (JS.is_ws c); [|lia]. destruct (JS.is_ws c'); [discriminate|].
    lia.
Qed.

Lemma run_mono (p q : ascii -> bool) (s : string) :
  (forall c, p c = true -> q c = true) ->
  (Regex.run p s <= Regex.run q s)%nat.
Proof.
  intros H. induction s as [|c s IH]; simpl; [lia|].
  destruct (p c) eqn:E; [rewrite (H _ E); lia | lia].
Qed.

Lemma replace_all_quiet (m : Regex.matcher) (Q : string -> Prop) :
  (forall c t, Q (String c t) -> Q t) ->
  (forall s, Q s -> m s = None) ->
  forall s, Q s -> Regex.replace_all m s = s.
Proof.
  intros Hsuf Hnone. unfold Regex.replace_all.
  induction s as [|c s IH]; intros HQ; [reflexivity|].
  cbn [Regex.replace_from]. rewrite (Hnone _ HQ).
  now rewrite (IH (Hsuf _ _ HQ)).
Qed.

Lemma plain_suffix (c : ascii) (t : string) :
  JS.all_chars Props.unmarked (String c t) = true
  /\ Text.adj_free (String c t) = true ->
  JS.all_chars Props.unmarked t = true /\ Text.adj_free t = true.
Proof.
  cbn [JS.all_chars Text.adj_free]. intros [H1 H2].
  apply andb_true_iff in H1 as [_ H1]. apply andb_true_iff in H2 as [_ H2].
  now split.
Qed.

(** X19.  [cleanRedditText] returns a text without markup as it is: a
    trimmed text with no two white-space characters side by side and
    without any of the characters [*], [~], the backquote and [/]. *)
Theorem cleanRedditText_plain (text : string) :
  JS.all_chars Props.unmarked text = true ->
  Text.adj_free text = true ->
  JS.trim text = text ->
  Utils.cleanRedditText text = text.
Proof.
  intros Hu Ha Ht.
  set (Q := fun s => JS.all_chars Props.unmarked s = true
                     /\ Text.adj_free s = true).
  assert (HQ : Q text) by (split; assumption).
  assert (Hstep : forall m, (forall s, Q s -> m s = None) ->
                            Regex.replace_all m text = text).
  { intros m Hm. exact (replace_all_quiet m Q plain_suffix Hm text HQ). }
  assert (Hdel : forall d, JS.all_chars Props.unmarked d = false ->
                           forall s, Q s -> Regex.delimited d s = None).
  { intros d Hd s [Hs _]. unfold Regex.delimited.
    now rewrite (prefix_marked d s Hd Hs). }
  assert (Hpre : forall pre p r, JS.all_chars Props.unmarked pre = false ->
                                 forall s, Q s -> Regex.prefixed pre p r s = None).
  { intros pre p r Hd s [Hs _]. unfold Regex.prefixed.
    now rewrite (prefix_marked pre s Hd Hs). }
  unfold Utils.cleanRedditText.
  rewrite (Hstep Utils.BOLD) by (apply Hdel; reflexivity).
  rewrite (Hstep Utils.ITALIC) by (apply Hdel; reflexivity).
  rewrite (Hstep Utils.STRIKE) by (apply Hdel; reflexivity).
  rewrite (Hstep Utils.CODE) by (apply Hdel; reflexivity).
  rewrite (Hstep Regex.url).
  2:{ intros s Hs. unfold Regex.url.
      rewrite (Hpre "https://" _ _ eq_refl s Hs).
      exact (Hpre "http://" _ _ eq_refl s Hs). }
  rewrite (Hstep Utils.SUBREDDIT) by (apply Hpre; reflexivity).
  rewrite (Hstep Utils.USER) by (apply Hpre; reflexivity).
  rewrite (Hstep Utils.BLANK_LINES).
  2:{ intros s [_ Hs]. unfold Utils.BLANK_LINES, Regex.at_least.
      pose proof (run_ws_adj_free s Hs) as H1.
      pose proof (run_mono (Ascii.eqb JS.LF) JS.is_ws s) as H2.
      destruct (Nat.leb_spec 3 (Regex.run (Ascii.eqb JS.LF) s));
        [|reflexivity].
      assert (Hlf : forall c, Ascii.eqb JS.LF c = true -> JS.is_ws c = true).
      { intros c Hc. apply Ascii.eqb_eq in Hc. now subst c. }
      specialize (H2 Hlf). lia. }
  rewrite (Hstep Utils.SPACES).
  2:{ intros s [_ Hs]. rewrite squeeze_eq.
      pose proof (run_ws_adj_free s Hs) as H1.
      destruct (Nat.leb_spec 2 (Regex.run JS.is_ws s)); [lia | reflexivity]. }
  exact Ht.
Qed.

Lemma cleanRedditText_plain_witness :
  Utils.cleanRedditText "Plain words, one line." = "Plain words, one line.".
Proof.
  exact (cleanRedditText_plain "Plain words, one line."
           eq_refl eq_refl eq_refl).
Defined.
End Cleaning.

(* ================================================================== *)
(** ** Further properties: the call of the generation service *)
(* ================================================================== *)

Section Generation.
Import Net.

Lemma includes_app_r (a t x : string) :
  JS.includes t x = true -> JS.includes (a ++ t) x = true.
Proof.
  intros H. induction a as [|c a IH]; [exact H|].
  change (String c a ++ t)%string with (String c (a ++ t)).
  rewrite includes_cons, IH. apply orb_true_r.
Qed.

Lemma includes_refl_app (x b : string) : JS.includes (x ++ b) x = true.
Proof.
  destruct x as [|c x]; [now destruct b|].
  change (String c x ++ b)%string with (String c (x ++ b)).
  rewrite includes_cons.
  change (String c (x ++ b)) with (String c x ++ b)%string.
  now rewrite prefix_refl_app.
Qed.

(** X20.  [generateAIResponse] calls the generation service exactly once,
    with the model it was given, a system prompt that names the forum and a
    user prompt that holds the question and the whole of the content it was
    given.  An error of the service is thrown on as it is.  A completion
    gives an answer that is never empty (the fixed text [No response
    generated] stands in for a missing or empty one), the model and the
    token count of the completion, and the one source that names the
    forum. *)
Theorem generateAIResponse_outcome
    (question redditContent subreddit model : string) (w : World) :
  exists res w' system user,
    AskQuestion.generateAIResponse question redditContent subreddit model w
    = (res, w')
    /\ Spec.requests w w' [CompletionRequest model system user]
    /\ JS.includes system subreddit = true
    /\ JS.includes user question = true
    /\ JS.includes user redditContent = true
    /\ match openai w with
       | [] => exists e, res = Throw e
       | CompletionFails _ e :: _ => res = Throw e
       | CompletionOk _ content total :: _ =>
           exists a,
             res = Ok a
             /\ AIResponse.answer a = JS.or_str content "No response generated"
             /\ AIResponse.answer a <> ""
             /\ AIResponse.model a = model
             /\ AIResponse.tokens_used a = total
             /\ AIResponse.sources a
                = [Source.mk ("Recent discussions in r/" ++ subreddit)
                             ("https://reddit.com/r/" ++ subreddit) "post"]
       end.
Proof.
  unfold AskQuestion.generateAIResponse, try_catch, bind, create_completion.
  cbn [logged openai clock reddit log accessToken tokenExpiry].
  assert (Hsys : JS.includes (AskQuestion.systemPrompt subreddit) subreddit
                 = true).
  { unfold AskQuestion.systemPrompt. repeat first [apply includes_refl_app | apply includes_app_r]. }
  assert (Hq : JS.includes
                 (AskQuestion.userPrompt question redditContent subreddit)
                 question = true).
  { unfold AskQuestion.userPrompt. repeat first [apply includes_refl_app | apply includes_app_r]. }
  assert (Hc : JS.includes
                 (AskQuestion.userPrompt question redditContent subreddit)
                 redditContent = true).
  { unfold AskQuestion.userPrompt. repeat first [apply includes_refl_app | apply includes_app_r]. }
  destruct (openai w) as [|[d e|d content total] rest].
  - eexists _, _, _, _. split; [reflexivity|]. split; [reflexivity|].
    split; [exact Hsys|]. split; [exact Hq|]. split; [exact Hc|].
    now eexists.
  - eexists _, _, _, _. split; [reflexivity|]. split; [reflexivity|].
    split; [exact Hsys|]. split; [exact Hq|]. split; [exact Hc|].
    reflexivity.
  - eexists _, _, _, _. split; [reflexivity|]. split; [reflexivity|].
    split; [exact Hsys|]. split; [exact Hq|]. split; [exact Hc|].
    eexists. split; [reflexivity|]. cbn.
    split; [reflexivity|]. split; [|repeat split].
    destruct content as [c|]; cbn; [|discriminate].
    destruct (JS.truthy c) eqn:E; [now apply truthy_neq | discriminate].
Qed.
End Generation.

(* ================================================================== *)
(** ** Further properties: the earlier question route *)
(* ================================================================== *)

Section Earlier.
Import Net.






(** X22.  The earlier question route turns down the model it falls back
    on: a request that names a forum and a question and no model, or the
    model [gpt-4o-mini], is answered 400 with [Invalid model specified],
    and no request is made, not even the one to the data route. *)
Theorem earlier_default_model_rejected
    (hop : EarlierAskQuestion.Hop)
    (request : AskQuestionRequest.t) (subreddit question : string)
    (w : World) :
  AskQuestionRequest.subreddit request = Some subreddit -> subreddit <> "" ->
  AskQuestionRequest.question request = Some question -> question <> "" ->
  AskQuestionRequest.model request = None
  \/ AskQuestionRequest.model request = Some "gpt-4o-mini" ->
  EarlierAskQuestion.POST hop request w
  = (Ok (AskQuestion.failure "Invalid model specified" 400), w)
  /\ In (Spec.model_of request) AskQuestion.ALLOWED_MODELS.
Proof.
  intros Hs Hs' Hq Hq' Hm.
  assert (Hmodel : Spec.model_of request = "gpt-4o-mini").
  { unfold Spec.model_of. destruct Hm as [-> | ->]; reflexivity. }
  split; [|rewrite Hmodel; now left].
  unfold EarlierAskQuestion.POST, try_catch.
  fold (Spec.model_of request). rewrite Hmodel, Hs, Hq.
  apply truthy_neq in Hs', Hq'. unfold JS.or_str. rewrite Hs', Hq'.
  cbn iota. rewrite Hs', Hq'. reflexivity.
Qed.

Lemma earlier_default_model_rejected_witness :
  EarlierAskQuestion.POST (EarlierAskQuestion.Rejected "fetch failed")
                          Runs.question Sample.world
  = (Ok (AskQuestion.failure "Invalid model specified" 400), Sample.world).
Proof.
  exact (proj1 (earlier_default_model_rejected
                  (EarlierAskQuestion.Rejected "fetch failed")
                  Runs.question "technology"
                  "What is new?" Sample.world eq_refl ltac:(discriminate)
                  eq_refl ltac:(discriminate) (or_introl eq_refl))).
Defined.
End Earlier.

(* ================================================================== *)
(** ** Further properties: what the prompt text depends on *)
(* ================================================================== *)

Section Selection.

Lemma filter_firstn_filter {A : Type} (f : A -> bool) (n : nat) (l : list A) :
  filter f (firstn n (filter f l)) = firstn n (filter f l).
Proof.
  apply forallb_filter_id. apply forallb_forall. intros x Hx.
  assert (Hin : In x (filter f l)).
  { rewrite <- (firstn_skipn n (filter f l)). apply in_or_app. now left. }
  now apply filter_In in Hin as [_ Hin].
Qed.

Lemma slice0_filter_idem {A : Type} (f : A -> bool) (n : Z) (l : list A) :
  (0 <= n)%Z ->
  JS.slice0 n (filter f (JS.slice0 n (filter f l))) = JS.slice0 n (filter f l).
Proof.
  intros Hn. rewrite !slice0_nonneg by assumption.
  rewrite filter_firstn_filter, firstn_firstn. f_equal. lia.
Qed.

(** X23.  The text [extractRedditContent] builds depends only on the posts
    and comments it selects: the first 10 posts with a body of more than 50
    characters and the first 15 comments of positive score with a body of
    more than 30.  A post with a shorter body, such as a link post whose
    body is empty, leaves no trace in the text, not even its title. *)
Theorem extractRedditContent_selected
    (posts : list RedditPost.t) (comments : list RedditComment.t) :
  Utils.extractRedditContent (Utils.selectedPosts posts)
                             (Utils.selectedComments comments)
  = Utils.extractRedditContent posts comments
  /\ (forall post,
        (String.length (RedditPost.selftext post) <= 50)%nat ->
        Utils.extractRedditContent (post :: posts) comments
        = Utils.extractRedditContent posts comments).
Proof.
  unfold Utils.extractRedditContent, Utils.postContent, Utils.commentContent.
  split.
  - unfold Utils.selectedPosts at 1, Utils.selectedComments at 1.
    fold (Utils.selectedPosts posts). fold (Utils.selectedComments comments).
    unfold Utils.selectedPosts at 1, Utils.selectedComments at 1.
    unfold Utils.selectedPosts at 1, Utils.selectedComments at 1.
    rewrite !slice0_filter_idem by lia. reflexivity.
  - intros post Hlen. unfold Utils.selectedPosts. cbn [filter].
    assert (Hf : Utils.post_filter post = false).
    { unfold Utils.post_filter. apply andb_false_iff. right.
      apply Nat.ltb_ge. exact Hlen. }
    now rewrite Hf.
Qed.

Lemma extractRedditContent_selected_witness :
  Utils.extractRedditContent
    [Sample.post "A link post" "" 900] [] = "".
Proof.
  exact (proj2 (extractRedditContent_selected [] [])
               (Sample.post "A link post" "" 900) ltac:(simpl; lia)).
Defined.
End Selection.

(* ================================================================== *)
(** ** The snapshot and the upstream responses *)
(* ================================================================== *)

Section Upstream.
Import Net.

(** The loop asks for the comments of the first five posts it retains, one
    after the other, and appends what it gets. *)
Lemma processSubmissions_gathered (children : list Submission.t) :
  forall (posts : list RedditPost.t) (allComments : list RedditComment.t)
         (w : World),
    RedditOAuthService.processSubmissions children posts allComments w
    = (Ok (posts ++ Spec.retained children,
           allComments
           ++ fst (Props.gathered
                     (map RedditPost.id
                        (firstn (5 - List.length posts)
                                (Spec.retained children))) w)),
       snd (Props.gathered
              (map RedditPost.id
                 (firstn (5 - List.length posts) (Spec.retained children)))
              w)).
Proof.
  induction children as [|post rest IH]; intros posts allComments w.
  - cbn [RedditOAuthService.processSubmissions Spec.retained filter map].
    rewrite firstn_nil. cbn. now rewrite !app_nil_r.
  - cbn [RedditOAuthService.processSubmissions].
    unfold Spec.retained. cbn [filter].
    destruct (Submission.stickied post) eqn:Hst; cbn [negb map];
      fold (Spec.retained rest); [apply IH|].
    rewrite length_app. cbn [List.length].
    destruct (Nat.leb_spec (List.length posts + 1) 5) as [Hle | Hgt].
    + replace (5 - List.length posts)%nat
        with (S (5 - (List.length posts + 1)))%nat by lia.
      cbn [firstn map Props.gathered].
      change (RedditPost.id (RedditOAuthService.toPost post))
        with (Submission.id post).
      unfold bind at 1. unfold try_catch, bind at 1.
      destruct (fetchComments_returns (Submission.id post) 10 w)
        as (cs & w1 & tail & E & _).
      rewrite E. cbn [ret].
      rewrite (IH (posts ++ [RedditOAuthService.toPost post])
                  (allComments ++ cs) w1).
      rewrite length_app. cbn [List.length].
      destruct (Props.gathered
                  (map RedditPost.id
                     (firstn (5 - (List.length posts + 1))
                             (Spec.retained rest))) w1) as [more w2].
      cbn [fst snd]. now rewrite <- !app_assoc.
    + rewrite (IH (posts ++ [RedditOAuthService.toPost post]) allComments w).
      rewrite length_app. cbn [List.length].
      replace (5 - List.length posts)%nat with 0%nat by lia.
      replace (5 - (List.length posts + 1))%nat with 0%nat by lia.
      cbn [firstn map Props.gathered fst snd].
      now rewrite <- !app_assoc.
Qed.

(** What one comment fetch returns is empty, or is taken from the first
    ten nodes of the listing in the response, in the order of the listing. *)
Lemma fetchComments_upstream (submissionId : string) (w w' : World)
    (comments : list RedditComment.t) :
  RedditOAuthService.fetchComments submissionId 10 w = (Ok comments, w') ->
  comments = []
  \/ exists tok w1 resp listing,
       RedditOAuthService.getAccessToken w = (Ok tok, w1)
       /\ fetch (CommentsRequest submissionId 10 tok) w1 = (Ok resp, w')
       /\ ok resp = true
       /\ body resp = CommentsJson (Some listing)
       /\ comments
          = filter Spec.positive
              (map RedditOAuthService.pushed
                 (filter RedditOAuthService.keeps (JS.slice0 10 listing))).
Proof.
  unfold RedditOAuthService.fetchComments,
    RedditOAuthService.fetchComments_try, try_catch, bind.
  destruct (RedditOAuthService.getAccessToken w) as [[tok|e] w1] eqn:E1.
  2:{ intros [= <- <-]. now left. }
  destruct (fetch (CommentsRequest submissionId 10 tok) w1)
    as [[resp|e] w2] eqn:E2.
  2:{ intros [= <- <-]. now left. }
  destruct (ok resp) eqn:Hok; cbn [negb].
  2:{ intros [= <- <-]. now left. }
  unfold json.
  destruct (body resp) as [a|c|[listing|]|] eqn:Hbody;
    cbn -[RedditOAuthService.selectComments];
    try (intros [= <- <-]; now left).
  intros [= <- <-]. right. exists tok, w1, resp, listing.
  split; [reflexivity|]. split; [exact E2|]. split; [exact Hok|].
  split; [exact Hbody|].
  rewrite selectComments_cap_then_filter by lia.
  unfold Spec.cap_then_filter. now rewrite collect_spec.
Qed.

(** C4.  Let [fetchSubredditData] return a snapshot.  The token was
    obtained, the listing request was answered with the children that the
    response holds, and
    - the posts of the snapshot are the posts made of the children
      [children.slice(0, limit)] that are not pinned, in the order of the
      response, sorted by score;
    - the comments of the snapshot are the comments gathered for the first
      five of these posts, one request after the other, in the order in
      which they arrived, sorted by score; what one request contributes is
      taken from the listing of its response, in its order;
    - both are in descending order of score, both are rearrangements of
      what was received, and for every score the posts, and the comments,
      of that score stand in the order in which they were received: ties
      keep the upstream order. *)
Theorem C4_snapshot_sorted_stable
    (subreddit timeframe : string) (limit : Z) (w w' : World)
    (snap : SubredditData.t) :
  RedditOAuthService.fetchSubredditData subreddit timeframe limit w
    = (Ok snap, w') ->
  exists (tok : string) (w1 w2 : World) (resp : Response)
         (children : list Submission.t)
         (posts : list RedditPost.t) (allComments : list RedditComment.t),
    RedditOAuthService.getAccessToken w = (Ok tok, w1)
    /\ fetch (RedditOAuthService.topRequest subreddit timeframe limit tok) w1
       = (Ok resp, w2)
    /\ ok resp = true
    /\ body resp = ListingJson (Some children)
    /\ RedditOAuthService.processSubmissions (JS.slice0 limit children) [] [] w2
       = (Ok (posts, allComments), w')
    /\ posts = map RedditOAuthService.toPost
                   (filter (fun post => negb (Submission.stickied post))
                           (JS.slice0 limit children))
    /\ Props.gathered (map RedditPost.id (firstn 5 posts)) w2
       = (allComments, w')
    /\ (forall submissionId w0 w0' comments,
          RedditOAuthService.fetchComments submissionId 10 w0
            = (Ok comments, w0') ->
          comments = []
          \/ exists tok0 w3 resp0 listing,
               RedditOAuthService.getAccessToken w0 = (Ok tok0, w3)
               /\ fetch (CommentsRequest submissionId 10 tok0) w3
                  = (Ok resp0, w0')
               /\ body resp0 = CommentsJson (Some listing)
               /\ comments
                  = filter Spec.positive
                      (map RedditOAuthService.pushed
                         (filter RedditOAuthService.keeps
                                 (JS.slice0 10 listing))))
    /\ SubredditData.posts snap
       = JS.sort RedditOAuthService.by_score_desc_post posts
    /\ SubredditData.comments snap
       = JS.sort RedditOAuthService.by_score_desc_comment allComments
    /\ Spec.descending RedditPost.score (SubredditData.posts snap)
    /\ Spec.descending RedditComment.score (SubredditData.comments snap)
    /\ Permutation posts (SubredditData.posts snap)
    /\ Permutation allComments (SubredditData.comments snap)
    /\ (forall k, Spec.with_score RedditPost.score k (SubredditData.posts snap)
                  = Spec.with_score RedditPost.score k posts)
    /\ (forall k,
          Spec.with_score RedditComment.score k (SubredditData.comments snap)
          = Spec.with_score RedditComment.score k allComments).
Proof.
  intros E.
  destruct (fetchSubredditData_Ok _ _ _ _ _ _ E)
    as (tok & w1 & resp & w2 & children & E1 & E2 & Hok & Hbody).
  destruct (fetchSubredditData_listing _ _ _ _ _ _ _ _ _ E1 E2 Hok Hbody)
    as (cs & w3 & tail & E3 & E4 & _).
  rewrite E4 in E. inversion E; subst. clear E.
  exists tok, w1, w2, resp, children,
    (Spec.retained (JS.slice0 limit children)), cs.
  cbn [SubredditData.posts SubredditData.comments].
  split; [exact E1|]. split; [exact E2|]. split; [exact Hok|].
  split; [exact Hbody|]. split; [exact E3|].
  split; [reflexivity|].
  split.
  { pose proof (processSubmissions_gathered (JS.slice0 limit children)
                  [] [] w2) as G.
    rewrite E3 in G. cbn [List.length app] in G.
    change (5 - 0)%nat with 5%nat in G.
    destruct (Props.gathered
                (map RedditPost.id
                   (firstn 5 (Spec.retained (JS.slice0 limit children))))
                w2) as [more w4].
    cbn [fst snd] in G. now injection G as -> ->. }
  split.
  { intros submissionId w0 w0' comments Ec.
    destruct (fetchComments_upstream _ _ _ _ Ec)
      as [-> | (tok0 & w4 & resp0 & listing & A & B & _ & C & D)];
      [now left|].
    right. now exists tok0, w4, resp0, listing. }
  split; [reflexivity|]. split; [reflexivity|].
  split; [apply (sort_descending RedditPost.score)|].
  split; [apply (sort_descending RedditComment.score)|].
  split; [apply (sort_perm RedditPost.score)|].
  split; [apply (sort_perm RedditComment.score)|].
  split; intros k.
  - apply (sort_stable RedditPost.score).
  - apply (sort_stable RedditComment.score).
Qed.

(** The posts of scores 10, 50, 5 come out as 50, 10, 5. *)
Lemma C4_witness :
  RedditOAuthService.fetchSubredditData "technology" "24h" 25 Sample.world
    = (Ok Sample.snapshot, Sample.after_fetch)
  /\ map RedditPost.score (Spec.retained Sample.listing) = [10; 50; 5]%Z
  /\ map RedditPost.score (SubredditData.posts Sample.snapshot)
     = [50; 10; 5]%Z
  /\ Spec.descending RedditPost.score (SubredditData.posts Sample.snapshot)
  /\ Spec.descending RedditComment.score
       (SubredditData.comments Sample.snapshot).
Proof.
  split; [exact sample_snapshot|].
  split; [reflexivity|]. split; [reflexivity|].
  destruct (C4_snapshot_sorted_stable "technology" "24h" 25 Sample.world
              Sample.after_fetch Sample.snapshot sample_snapshot)
    as (tok & w1 & w2 & resp & children & posts & cs
        & _ & _ & _ & _ & _ & _ & _ & _ & _ & _ & Hp & Hc & _).
  split; [exact Hp | exact Hc].
Defined.
End Upstream.

Section Retained.
Import Net.

Lemma In_sort_retained (children : list Submission.t) (p : RedditPost.t) :
  In p (JS.sort RedditOAuthService.by_score_desc_post
          (Spec.retained children))
  <-> exists child, In child children
                    /\ Submission.stickied child = false
                    /\ p = RedditOAuthService.toPost child.
Proof.
  change RedditOAuthService.by_score_desc_post
    with (Spec.by_desc RedditPost.score).
  split.
  - intros H.
    apply (Permutation_in _ (Permutation_sym
                               (sort_perm RedditPost.score _))) in H.
    unfold Spec.retained in H. apply in_map_iff in H as (c & <- & Hc).
    apply filter_In in Hc as [Hc Hs]. exists c.
    split; [exact Hc|]. split; [|reflexivity].
    now destruct (Submission.stickied c).
  - intros (c & Hc & Hs & ->).
    apply (Permutation_in _ (sort_perm RedditPost.score _)).
    unfold Spec.retained. apply in_map. apply filter_In.
    split; [exact Hc | now rewrite Hs].
Qed.

(** C8, as the code has it.  Let [fetchSubredditData] return a snapshot.
    The token was obtained and the listing request answered, and the posts
    of the snapshot are made of the children [children.slice(0, limit)] of
    that response: the pinned ones are dropped, the others are turned into
    posts in the order received, and the snapshot holds these posts sorted
    by score, so a post is in the snapshot exactly when it is made of a
    child of the slice that is not pinned.  In a post of the snapshot a
    missing (or empty) author has become ["[deleted]"], a missing body the
    empty string, and a missing score, comment count or upvote ratio 0;
    what is present is copied.  The creation time is copied as it is: a
    missing one stays missing. *)
Theorem C8_retained_posts_and_defaults
    (subreddit timeframe : string) (limit : Z) (w w' : World)
    (snap : SubredditData.t) :
  RedditOAuthService.fetchSubredditData subreddit timeframe limit w
    = (Ok snap, w') ->
  exists tok w1 resp w2 children comments,
    RedditOAuthService.getAccessToken w = (Ok tok, w1)
    /\ fetch (RedditOAuthService.topRequest subreddit timeframe limit tok) w1
       = (Ok resp, w2)
    /\ ok resp = true
    /\ body resp = ListingJson (Some children)
    /\ RedditOAuthService.processSubmissions
         (JS.slice0 limit children) [] [] w2
       = (Ok (map RedditOAuthService.toPost
                  (filter (fun post => negb (Submission.stickied post))
                          (JS.slice0 limit children)),
              comments), w')
    /\ SubredditData.posts snap
       = JS.sort RedditOAuthService.by_score_desc_post
           (map RedditOAuthService.toPost
                (filter (fun post => negb (Submission.stickied post))
                        (JS.slice0 limit children)))
    /\ Permutation
         (map RedditOAuthService.toPost
              (filter (fun post => negb (Submission.stickied post))
                      (JS.slice0 limit children)))
         (SubredditData.posts snap)
    /\ (forall p,
          In p (SubredditData.posts snap)
          <-> exists child,
                In child (JS.slice0 limit children)
                /\ Submission.stickied child = false
                /\ p = RedditOAuthService.toPost child)
    /\ (forall p,
          In p (SubredditData.posts snap) ->
          exists child,
            In child (JS.slice0 limit children)
            /\ Submission.stickied child = false
            /\ RedditPost.id p = Submission.id child
            /\ RedditPost.title p = Submission.title child
            /\ RedditPost.url p = Submission.url child
            /\ RedditPost.subreddit p = Submission.subreddit child
            /\ RedditPost.permalink p = Submission.permalink child
            /\ RedditPost.created_utc p = Submission.created_utc child
            /\ RedditPost.author p
               = match Submission.author child with
                 | Some "" | None => "[deleted]"
                 | Some a => a
                 end
            /\ RedditPost.selftext p
               = match Submission.selftext child with
                 | Some s => s
                 | None => ""
                 end
            /\ RedditPost.score p
               = match Submission.score child with
                 | Some z => z
                 | None => 0%Z
                 end
            /\ RedditPost.num_comments p
               = match Submission.num_comments child with
                 | Some z => z
                 | None => 0%Z
                 end
            /\ RedditPost.upvote_ratio p
               = match Submission.upvote_ratio child with
                 | Some q => q
                 | None => 0%Q
                 end).
Proof.
  intros E.
  destruct (fetchSubredditData_Ok _ _ _ _ _ _ E)
    as (tok & w1 & resp & w2 & children & E1 & E2 & Hok & Hbody).
  destruct (fetchSubredditData_listing _ _ _ _ _ _ _ _ _ E1 E2 Hok Hbody)
    as (cs & w3 & tail & E3 & E4 & _).
  rewrite E4 in E. inversion E; subst. clear E.
  exists tok, w1, resp, w2, children, cs.
  cbn [SubredditData.posts].
  fold (Spec.retained (JS.slice0 limit children)).
  split; [exact E1|]. split; [exact E2|]. split; [exact Hok|].
  split; [exact Hbody|]. split; [exact E3|]. split; [reflexivity|].
  split; [apply (sort_perm RedditPost.score)|].
  split; [intros p; apply In_sort_retained|].
  intros p Hp. apply In_sort_retained in Hp as (child & Hc & Hs & ->).
  exists child. split; [exact Hc|]. split; [exact Hs|].
  unfold RedditOAuthService.toPost.
  cbn [RedditPost.id RedditPost.title RedditPost.url RedditPost.subreddit
       RedditPost.permalink RedditPost.created_utc RedditPost.author
       RedditPost.selftext RedditPost.score RedditPost.num_comments
       RedditPost.upvote_ratio].
  repeat (split; [reflexivity|]).
  split.
  { destruct (Submission.author child) as [[|c a]|]; reflexivity. }
  split.
  { destruct (Submission.selftext child) as [[|c s]|]; reflexivity. }
  split; [now destruct (Submission.score child)|].
  split; [now destruct (Submission.num_comments child)|].
  now destruct (Submission.upvote_ratio child).
Qed.

(** The sample submission without author, comment count and creation time
    becomes a post by ["[deleted]"], with 0 comments and no creation time;
    the pinned submission of the sample listing is not in the snapshot. *)
Lemma C8_witness :
  RedditOAuthService.fetchSubredditData "technology" "24h" 25 Sample.world
    = (Ok Sample.snapshot, Sample.after_fetch)
  /\ exists children,
       forall p,
         In p (SubredditData.posts Sample.snapshot)
         <-> exists child,
               In child (JS.slice0 25 children)
               /\ Submission.stickied child = false
               /\ p = RedditOAuthService.toPost child.
Proof.
  split; [exact sample_snapshot|].
  destruct (C8_retained_posts_and_defaults "technology" "24h" 25
              Sample.world Sample.after_fetch Sample.snapshot
              sample_snapshot)
    as (tok & w1 & resp & w2 & children & comments
        & _ & _ & _ & _ & _ & _ & _ & H & _).
  exists children. exact H.
Defined.
End Retained.

(* ================================================================== *)
(** ** What the text holds *)
(* ================================================================== *)

Section Rendered.

Lemma includes_refl (x : string) : JS.includes x x = true.
Proof.
  rewrite <- (append_nil_r x) at 1. apply includes_refl_app.
Qed.

Lemma includes_app_l (a b x : string) :
  JS.includes a x = true -> JS.includes (a ++ b) x = true.
Proof.
  induction a as [|c a IH]; intros H.
  - destruct x; [now destruct b | discriminate].
  - change (String c a ++ b)%string with (String c (a ++ b)).
    rewrite includes_cons in *.
    apply orb_true_iff in H as [H | H].
    + change (String c (a ++ b)) with (String c a ++ b)%string.
      now rewrite (prefix_app_mono _ _ b H).
    + rewrite (IH H). apply orb_true_r.
Qed.

Lemma includes_join (sep x : string) (l : list string) :
  In x l -> JS.includes (JS.join sep l) x = true.
Proof.
  induction l as [|b bs IH]; intros H; [contradiction|].
  rewrite join_cons. destruct H as [-> | H].
  - destruct bs; [apply includes_refl | apply includes_refl_app].
  - destruct bs as [|b' bs]; [contradiction|].
    apply includes_app_r, includes_app_r, IH, H.
Qed.

Lemma firstn_app_full {A : Type} (n : nat) (l1 l2 : list A) :
  (n <= List.length l1)%nat -> firstn n (l1 ++ l2) = firstn n l1.
Proof.
  intros H. rewrite firstn_app.
  replace (n - List.length l1)%nat with 0%nat by lia.
  cbn [firstn]. apply app_nil_r.
Qed.

Lemma selectedPosts_without (before after : list RedditPost.t)
    (p : RedditPost.t) :
  (String.length (RedditPost.selftext p) <= 50)%nat
  \/ (10 <= List.length (filter Utils.post_filter before))%nat ->
  Utils.selectedPosts (before ++ p :: after)
  = Utils.selectedPosts (before ++ after).
Proof.
  intros H. unfold Utils.selectedPosts.
  rewrite !slice0_nonneg by lia. change (Z.to_nat 10) with 10%nat.
  rewrite !filter_app. destruct H as [H | H].
  - cbn [filter].
    assert (Hf : Utils.post_filter p = false).
    { destruct (Utils.post_filter p) eqn:E; [|reflexivity].
      apply post_filter_spec in E. lia. }
    now rewrite Hf.
  - now rewrite !firstn_app_full.
Qed.

Lemma selectedComments_without (before after : list RedditComment.t)
    (c : RedditComment.t) :
  (String.length (RedditComment.body c) <= 30)%nat
  \/ (RedditComment.score c <= 0)%Z
  \/ (15 <= List.length (filter Utils.comment_filter before))%nat ->
  Utils.selectedComments (before ++ c :: after)
  = Utils.selectedComments (before ++ after).
Proof.
  intros H. unfold Utils.selectedComments.
  rewrite !slice0_nonneg by lia. change (Z.to_nat 15) with 15%nat.
  rewrite !filter_app. destruct H as [H | [H | H]].
  - cbn [filter].
    assert (Hf : Utils.comment_filter c = false).
    { destruct (Utils.comment_filter c) eqn:E; [|reflexivity].
      apply comment_filter_spec in E. lia. }
    now rewrite Hf.
  - cbn [filter].
    assert (Hf : Utils.comment_filter c = false).
    { destruct (Utils.comment_filter c) eqn:E; [|reflexivity].
      apply comment_filter_spec in E. lia. }
    now rewrite Hf.
  - now rewrite !firstn_app_full.
Qed.

(** C7.  [extractRedditContent] renders the first 10 posts whose body is
    longer than 50 characters and the first 15 comments whose body is
    longer than 30 characters and whose score is positive.
    - A post that is selected is in the text: the text holds its line of
      score and title followed by its cleaned body; a comment that is
      selected is in the text with its line of score and its cleaned body.
    - A body of exactly 50 (30) characters is never selected, and the text
      is the one built without that post (comment); one of more, so of 51
      (31), is selected, and so is in the text, when fewer than 10 (15)
      qualifying ones stand before it.
    - A qualifying post (comment) with 10 (15) or more qualifying ones
      before it is not rendered: the text is the one built without it. *)
Theorem C7_length_boundaries
    (posts : list RedditPost.t) (comments : list RedditComment.t) :
  (Utils.selectedPosts posts
     = firstn 10 (filter (fun p => (50 <? String.length (RedditPost.selftext p))%nat)
                         posts)
   /\ (List.length (Utils.selectedPosts posts) <= 10)%nat
   /\ (forall p, In p (Utils.selectedPosts posts) ->
         In p posts /\ (50 < String.length (RedditPost.selftext p))%nat)
   /\ (forall p, String.length (RedditPost.selftext p) = 50%nat ->
         ~ In p (Utils.selectedPosts posts))
   /\ (forall before p after,
         posts = before ++ p :: after ->
         (50 < String.length (RedditPost.selftext p))%nat ->
         (List.length (filter Utils.post_filter before) < 10)%nat ->
         In p (Utils.selectedPosts posts)))
  /\ (Utils.selectedComments comments
        = firstn 15 (filter (fun c =>
                               (30 <? String.length (RedditComment.body c))%nat
                               && (0 <? RedditComment.score c)%Z)
                            comments)
      /\ (List.length (Utils.selectedComments comments) <= 15)%nat
      /\ (forall c, In c (Utils.selectedComments comments) ->
            In c comments
            /\ (30 < String.length (RedditComment.body c))%nat
            /\ (0 < RedditComment.score c)%Z)
      /\ (forall c, String.length (RedditComment.body c) = 30%nat ->
            ~ In c (Utils.selectedComments comments))
      /\ (forall before c after,
            comments = before ++ c :: after ->
            (30 < String.length (RedditComment.body c))%nat ->
            (0 < RedditComment.score c)%Z ->
            (List.length (filter Utils.comment_filter before) < 15)%nat ->
            In c (Utils.selectedComments comments)))
  /\ Utils.extractRedditContent posts comments
     = JS.join Utils.POSTS_END
         (filter JS.truthy
            [JS.join Utils.separator
               (map Utils.post_block (Utils.selectedPosts posts));
             JS.join Utils.separator
               (map Utils.comment_block (Utils.selectedComments comments))])
  /\ (forall p, In p (Utils.selectedPosts posts) ->
        JS.includes (Utils.extractRedditContent posts comments)
          ("POST (" ++ JS.toString (RedditPost.score p) ++ " upvotes): "
           ++ RedditPost.title p ++ JS.nl
           ++ Utils.cleanRedditText (RedditPost.selftext p))
        = true)
  /\ (forall c, In c (Utils.selectedComments comments) ->
        JS.includes (Utils.extractRedditContent posts comments)
          ("COMMENT (" ++ JS.toString (RedditComment.score c)
           ++ " upvotes): " ++ Utils.cleanRedditText (RedditComment.body c))
        = true)
  /\ (forall before p after,
        posts = before ++ p :: after ->
        (String.length (RedditPost.selftext p) <= 50)%nat
        \/ (10 <= List.length (filter Utils.post_filter before))%nat ->
        Utils.extractRedditContent posts comments
        = Utils.extractRedditContent (before ++ after) comments)
  /\ (forall before c after,
        comments = before ++ c :: after ->
        (String.length (RedditComment.body c) <= 30)%nat
        \/ (RedditComment.score c <= 0)%Z
        \/ (15 <= List.length (filter Utils.comment_filter before))%nat ->
        Utils.extractRedditContent posts comments
        = Utils.extractRedditContent posts (before ++ after)).
Proof.
  assert (HP : forall p, In p (Utils.selectedPosts posts) ->
                 In p posts /\ (50 < String.length (RedditPost.selftext p))%nat).
  { intros p Hp. unfold Utils.selectedPosts in Hp.
    apply slice0_In, filter_In in Hp. now rewrite post_filter_spec in Hp. }
  assert (HC : forall c, In c (Utils.selectedComments comments) ->
                 In c comments
                 /\ (30 < String.length (RedditComment.body c))%nat
                 /\ (0 < RedditComment.score c)%Z).
  { intros c Hc. unfold Utils.selectedComments in Hc.
    apply slice0_In, filter_In in Hc. now rewrite comment_filter_spec in Hc. }
  split; [|split; [|split; [|split; [|split; [|split]]]]].
  - split; [|split; [|split; [|split]]].
    + unfold Utils.selectedPosts. rewrite slice0_nonneg by lia.
      change (Z.to_nat 10) with 10%nat. f_equal.
      apply filter_ext_eq. intros p.
      apply eq_true_iff_eq. rewrite post_filter_spec, Nat.ltb_lt. tauto.
    + apply (slice0_length 10); lia.
    + exact HP.
    + intros p H50 Hin. apply HP in Hin. lia.
    + intros before p after -> Hlen Hbefore.
      unfold Utils.selectedPosts. rewrite slice0_nonneg by lia.
      change (Z.to_nat 10) with 10%nat.
      rewrite filter_app. cbn [filter].
      apply post_filter_spec in Hlen. rewrite Hlen.
      now apply In_firstn_middle.
  - split; [|split; [|split; [|split]]].
    + unfold Utils.selectedComments. rewrite slice0_nonneg by lia.
      change (Z.to_nat 15) with 15%nat. f_equal.
      apply filter_ext_eq. intros c.
      apply eq_true_iff_eq.
      rewrite comment_filter_spec, andb_true_iff, Nat.ltb_lt, Z.ltb_lt.
      tauto.
    + apply (slice0_length 15); lia.
    + exact HC.
    + intros c H30 Hin. apply HC in Hin. lia.
    + intros before c after -> Hlen Hscore Hbefore.
      unfold Utils.selectedComments. rewrite slice0_nonneg by lia.
      change (Z.to_nat 15) with 15%nat.
      rewrite filter_app. cbn [filter].
      assert (Hf : Utils.comment_filter c = true)
        by (apply comment_filter_spec; split; assumption).
      rewrite Hf. now apply In_firstn_middle.
  - reflexivity.
  - intros p Hp.
    assert (Hblock : JS.includes (Utils.postContent posts)
                       (Utils.post_block p) = true).
    { unfold Utils.postContent. apply includes_join. now apply in_map. }
    change ("POST (" ++ JS.toString (RedditPost.score p) ++ " upvotes): "
            ++ RedditPost.title p ++ JS.nl
            ++ Utils.cleanRedditText (RedditPost.selftext p))%string
      with (Utils.post_block p).
    rewrite extract_cases.
    destruct (Utils.selectedPosts posts) as [|p0 ps]; [contradiction|].
    destruct (Utils.selectedComments comments);
      [exact Hblock | now apply includes_app_l].
  - intros c Hc.
    assert (Hblock : JS.includes (Utils.commentContent comments)
                       (Utils.comment_block c) = true).
    { unfold Utils.commentContent. apply includes_join. now apply in_map. }
    change ("COMMENT (" ++ JS.toString (RedditComment.score c)
            ++ " upvotes): "
            ++ Utils.cleanRedditText (RedditComment.body c))%string
      with (Utils.comment_block c).
    rewrite extract_cases.
    destruct (Utils.selectedComments comments) as [|c0 cs]; [contradiction|].
    destruct (Utils.selectedPosts posts);
      [exact Hblock | now apply includes_app_r, includes_app_r].
  - intros before p after -> H.
    unfold Utils.extractRedditContent, Utils.postContent.
    now rewrite (selectedPosts_without before after p H).
  - intros before c after -> H.
    unfold Utils.extractRedditContent, Utils.commentContent.
    now rewrite (selectedComments_without before after c H).
Qed.

(** Bodies of 50 and 51 characters, of 30 and 31: the longer ones are
    rendered and stand in the text, the others are not and the text is the
    one built without them. *)
Lemma C7_witness :
  let p50 := Sample.post "Fifty" Sample.body50 3 in
  let p51 := Sample.post "Fifty-one" Sample.body51 3 in
  let c30 := Sample.comment Sample.body30 2 in
  let c31 := Sample.comment Sample.body31 2 in
  String.length Sample.body50 = 50
  /\ String.length Sample.body51 = 51
  /\ String.length Sample.body30 = 30
  /\ String.length Sample.body31 = 31
  /\ ~ In p50 (Utils.selectedPosts [p50; p51])
  /\ In p51 (Utils.selectedPosts [p50; p51])
  /\ ~ In c30 (Utils.selectedComments [c30; c31])
  /\ In c31 (Utils.selectedComments [c30; c31])
  /\ JS.includes (Utils.extractRedditContent [p50; p51] [c30; c31])
       ("POST (" ++ JS.toString (RedditPost.score p51) ++ " upvotes): "
        ++ RedditPost.title p51 ++ JS.nl
        ++ Utils.cleanRedditText (RedditPost.selftext p51))
     = true
  /\ JS.includes (Utils.extractRedditContent [p50; p51] [c30; c31])
       ("COMMENT (" ++ JS.toString (RedditComment.score c31)
        ++ " upvotes): " ++ Utils.cleanRedditText (RedditComment.body c31))
     = true
  /\ Utils.extractRedditContent [p50; p51] [c30; c31]
     = Utils.extractRedditContent [p51] [c30; c31]
  /\ Utils.extractRedditContent [p50; p51] [c30; c31]
     = Utils.extractRedditContent [p50; p51] [c31].
Proof.
  intros p50 p51 c30 c31.
  destruct (C7_length_boundaries [p50; p51] [c30; c31])
    as ((_ & _ & _ & P50 & P51) & (_ & _ & _ & C30 & C31) & _
        & TP & TC & XP & XC).
  assert (Hp : In p51 (Utils.selectedPosts [p50; p51])).
  { apply (P51 [p50] p51 []); [reflexivity | vm_compute; lia
                               | vm_compute; lia]. }
  assert (Hc : In c31 (Utils.selectedComments [c30; c31])).
  { apply (C31 [c30] c31 []); [reflexivity | vm_compute; lia | reflexivity
                               | vm_compute; lia]. }
  do 4 (split; [reflexivity|]).
  split; [apply P50; reflexivity|]. split; [exact Hp|].
  split; [apply C30; reflexivity|]. split; [exact Hc|].
  split; [exact (TP p51 Hp)|]. split; [exact (TC c31 Hc)|].
  split.
  - apply (XP [] p50 [p51]); [reflexivity | left; vm_compute; lia].
  - apply (XC [] c30 [c31]); [reflexivity | left; vm_compute; lia].
Defined.
End Rendered.
